(** * Meteorite landings report: a shallow embedding of
      [earth_meteorite_landings.py]

    The script is a linear pipeline: [fetch_data] (one HTTP GET),
    [clean_data] (two column coercions and a row filter on a pandas
    DataFrame), [analyze_data] (two aggregate look-ups), [visualize_data]
    (three charts) and the orchestrator that sequences them.

    The functions of the script are embedded one to one.  What the script
    obtains from [requests], [pandas] and [seaborn] is either given the
    behaviour those libraries document (first-occurrence [idxmax], the
    [datetime64[ns]] range, the exception classes of [requests]), or, where
    the result depends on text parsing, floating-point rounding or a sorting
    routine, taken as a variable of the section [Pipeline].  Two instances
    of the sorting routine are given: a stable insertion sort, and the
    descending sort as pandas runs it on numpy's quicksort.

    Values are passed around as such; where it matters that Python passes
    references to objects that a callee could change, [clean_data] is
    embedded a second time over an object store. *)

From Stdlib Require Import List ZArith Bool String Ascii Lia Permutation Sorted Arith.
From Stdlib Require Import SpecFloat.
Import ListNotations.
Local Open Scope string_scope.
Local Open Scope list_scope.

(** ** Python values *)

(** A [float] is an IEEE 754 binary64 value. *)
Definition float : Type := spec_float.

Definition nan : float := S754_nan.

Definition is_nan (f : float) : bool :=
  match f with
  | S754_nan => true
  | _ => false
  end.

(** [float(z)] for a Python integer: round to nearest binary64. *)
Definition float_of_Z (z : Z) : float := binary_normalize 53 1024 z 0 false.

(** The values a JSON document decodes to, and the scalars pandas stores in
    a cell.  [VTime] is a pandas [Timestamp], counted in nanoseconds since
    1970-01-01T00:00:00; [VTime None] is [NaT]. *)
#[warnings="-register-all"]
Inductive value : Type :=
| VNone
| VBool (b : bool)
| VInt (z : Z)
| VFloat (f : float)
| VStr (s : string)
| VTime (t : option Z)
| VList (l : list value)
| VDict (d : list (string * value)).

(** A raw record is a Python [dict]: keys in insertion order, each key once. *)
Definition record : Type := list (string * value).

(** Python truthiness, as used by [if not raw_data]. *)
Definition truthy (v : value) : bool :=
  match v with
  | VNone => false
  | VBool b => b
  | VInt z => negb (Z.eqb z 0)
  | VFloat f => negb (SFeqb f (S754_zero false))
  | VStr s => negb (String.eqb s "")
  | VTime _ => true
  | VList l => negb (Nat.eqb (List.length l) 0)
  | VDict d => negb (Nat.eqb (List.length d) 0)
  end.

(** [pandas.isna] on a scalar. *)
Definition value_isna (v : value) : bool :=
  match v with
  | VNone => true
  | VFloat f => is_nan f
  | VTime None => true
  | _ => false
  end.

Definition is_some {A : Type} (o : option A) : bool :=
  match o with
  | Some _ => true
  | None => false
  end.

(** ** Exceptions *)

(** The exception classes the pipeline can meet.  The first seven are the
    subclasses of [requests.exceptions.RequestException]; since requests
    2.27 the error raised by [Response.json()] is
    [requests.exceptions.JSONDecodeError], which derives from
    [InvalidJSONError] and so from [RequestException]. *)
Inductive exn : Type :=
| ConnectionError (msg : string)
| Timeout (msg : string)
| TooManyRedirects (msg : string)
| InvalidURL (msg : string)
| HTTPError (status : Z)
| JSONDecodeError (msg : string)
| OtherRequestException (msg : string)
| KeyError (key : value)
| ValueError (msg : string)
| AttributeError (msg : string)
| OtherException (name : string).

Definition is_RequestException (e : exn) : bool :=
  match e with
  | ConnectionError _ | Timeout _ | TooManyRedirects _ | InvalidURL _
  | HTTPError _ | JSONDecodeError _ | OtherRequestException _ => true
  | KeyError _ | ValueError _ | AttributeError _ | OtherException _ => false
  end.

(** ** Observable effects *)

(** The pieces of an f-string. *)
Inductive fragment : Type :=
| Str (s : string)
| FExn (e : exn)
| FNat (n : nat)
| FInt (z : Z)
| FVal (v : value)
| FFixed2 (f : float).

(** What a run does to the outside world: lines on the console and calls
    into the plotting library, in program order. *)
Inductive event : Type :=
| Print (line : list fragment)
| Figure (width height : nat)
| Countplot (x : list Z) (order : list Z)
| Xticks (ticks : list nat) (labels : list Z)
| Histplot (x : list float) (bins : nat)
| Axvline (x : float) (label : list fragment)
| Legend
| Xscale (s : string)
| Yscale (s : string)
| Scatterplot (x : list Z) (y : list float)
| Title (s : string)
| Xlabel (s : string)
| Ylabel (s : string)
| TightLayout
| Savefig (fname : string).

(** A line on the console, as opposed to a call into the plotting library. *)
Definition is_print (ev : event) : bool :=
  match ev with
  | Print _ => true
  | _ => false
  end.

(** ** The effect monad: a console/plot trace and Python exceptions *)

Inductive result (A : Type) : Type :=
| Ok (a : A)
| Raised (e : exn).
Arguments Ok {A} a.
Arguments Raised {A} e.

Definition M (A : Type) : Type := list event -> result A * list event.

Definition ret {A : Type} (a : A) : M A := fun out => (Ok a, out).

Definition bind {A B : Type} (m : M A) (k : A -> M B) : M B :=
  fun out =>
    match m out with
    | (Ok a, out') => k a out'
    | (Raised e, out') => (Raised e, out')
    end.

Definition raise {A : Type} (e : exn) : M A := fun out => (Raised e, out).

Definition emit (ev : event) : M unit := fun out => (Ok tt, out ++ [ev]).

(** [try: body except <class> as e: handler]. *)
Definition try_except {A : Type} (body : M A) (handles : exn -> bool)
    (handler : exn -> M A) : M A :=
  fun out =>
    match body out with
    | (Ok a, out') => (Ok a, out')
    | (Raised e, out') => if handles e then handler e out' else (Raised e, out')
    end.

Notation "x <- m ;; k" := (bind m (fun x => k))
  (at level 61, m at next level, right associativity).
Notation "m ;;; k" := (bind m (fun _ => k))
  (at level 61, right associativity).

Definition print (line : list fragment) : M unit := emit (Print line).

(** ** Calendar arithmetic of [datetime64[ns]] *)

Local Open Scope Z_scope.

(** A broken-down date and time, as a date parser produces it. *)
Record civil : Type := mk_civil {
  c_year : Z;
  c_month : Z;
  c_day : Z;
  c_hour : Z;
  c_minute : Z;
  c_second : Z;
  c_nanosecond : Z
}.

Definition is_leap (y : Z) : bool :=
  ((y mod 4 =? 0) && negb (y mod 100 =? 0)) || (y mod 400 =? 0).

(** Leap years among the years 1..n of the proleptic Gregorian calendar. *)
Definition leaps (n : Z) : Z := n / 4 - n / 100 + n / 400.

Definition days_before_month (leap : bool) (m : Z) : Z :=
  let l := if leap then 1 else 0 in
  match m with
  | 1 => 0
  | 2 => 31
  | 3 => 59 + l
  | 4 => 90 + l
  | 5 => 120 + l
  | 6 => 151 + l
  | 7 => 181 + l
  | 8 => 212 + l
  | 9 => 243 + l
  | 10 => 273 + l
  | 11 => 304 + l
  | _ => 334 + l
  end.

Definition days_in_month (leap : bool) (m : Z) : Z :=
  match m with
  | 2 => if leap then 29 else 28
  | 4 | 6 | 9 | 11 => 30
  | _ => 31
  end.

(** Days from 1970-01-01 to the given date. *)
Definition days_from_civil (y m d : Z) : Z :=
  365 * (y - 1970) + (leaps (y - 1) - leaps 1969)
  + days_before_month (is_leap y) m + (d - 1).

Definition valid_civil (c : civil) : bool :=
  (1 <=? c_month c) && (c_month c <=? 12)
  && (1 <=? c_day c) && (c_day c <=? days_in_month (is_leap (c_year c)) (c_month c))
  && (0 <=? c_hour c) && (c_hour c <? 24)
  && (0 <=? c_minute c) && (c_minute c <? 60)
  && (0 <=? c_second c) && (c_second c <? 60)
  && (0 <=? c_nanosecond c) && (c_nanosecond c <? 1000000000).

Definition ns_per_day : Z := 86400000000000.

Definition ns_of_civil (c : civil) : Z :=
  days_from_civil (c_year c) (c_month c) (c_day c) * ns_per_day
  + ((c_hour c * 60 + c_minute c) * 60 + c_second c) * 1000000000
  + c_nanosecond c.

(** A [Timestamp] is an int64 count of nanoseconds; the least int64 is
    reserved for [NaT].  [Timestamp.min] is 1677-09-21 00:12:43.145224193
    and [Timestamp.max] is 2262-04-11 23:47:16.854775807. *)
Definition timestamp_min : Z := - 2 ^ 63 + 1.
Definition timestamp_max : Z := 2 ^ 63 - 1.

(** Conversion with [errors='coerce']: a date outside the int64 range
    (OutOfBoundsDatetime) becomes [NaT]. *)
Definition timestamp_of_civil (c : civil) : option Z :=
  let ns := ns_of_civil c in
  if (timestamp_min <=? ns) && (ns <=? timestamp_max) then Some ns else None.

(** The calendar year of a day count (the [.dt.year] field). *)
Definition year_of_days (days : Z) : Z :=
  let z := days + 719468 in
  let era := z / 146097 in
  let doe := z mod 146097 in
  let yoe := (doe - doe / 1460 + doe / 36524 - doe / 146096) / 365 in
  let doy := doe - (365 * yoe + yoe / 4 - yoe / 100) in
  let mp := (5 * doy + 2) / 153 in
  let y := yoe + era * 400 in
  if mp <? 10 then y else y + 1.

Definition year_of_timestamp (ns : Z) : Z := year_of_days (ns / ns_per_day).

Local Close Scope Z_scope.

(** ** Lists as pandas uses them *)

(** Boolean indexing [s[mask]]: the entries whose mask bit is set. *)
Fixpoint take_mask {A : Type} (mask : list bool) (l : list A) : list A :=
  match mask, l with
  | b :: mask', x :: l' =>
      if b then x :: take_mask mask' l' else take_mask mask' l'
  | _, _ => []
  end.

Definition zip_with {A B C : Type} (f : A -> B -> C) (l : list A) (l' : list B)
    : list C :=
  map (fun p => f (fst p) (snd p)) (combine l l').

(** Look-up and assignment in a list of named things: a [dict], or the
    columns of a DataFrame.  Assignment to an existing name keeps its place,
    a new name goes last. *)
Fixpoint assoc {A : Type} (k : string) (l : list (string * A)) : option A :=
  match l with
  | [] => None
  | (k', a) :: l' => if String.eqb k k' then Some a else assoc k l'
  end.

Fixpoint assoc_set {A : Type} (k : string) (a : A) (l : list (string * A))
    : list (string * A) :=
  match l with
  | [] => [(k, a)]
  | (k', a') :: l' =>
      if String.eqb k k' then (k', a) :: l' else (k', a') :: assoc_set k a l'
  end.

Definition mem_string (k : string) (l : list string) : bool :=
  existsb (String.eqb k) l.

(** ** DataFrames *)

(** A column with its dtype: [object], [float64] (missing is NaN),
    [datetime64[ns]] (missing is NaT) or an integer dtype (no missing). *)
Inductive column : Type :=
| ObjCol (l : list value)
| FloatCol (l : list float)
| TimeCol (l : list (option Z))
| IntCol (l : list Z).

(** A DataFrame: the row labels and the named columns, all of one length.
    A frame built from a list gets the labels 0, 1, 2, ...; a filtered
    frame keeps the labels of the rows that stay. *)
Record DataFrame : Type := mk_DataFrame {
  index : list nat;
  columns : list (string * column)
}.

(** [pd.DataFrame()]. *)
Definition empty_DataFrame : DataFrame := mk_DataFrame [] [].

(** [df.empty]: some axis has length 0. *)
Definition df_empty (df : DataFrame) : bool :=
  match index df, columns df with
  | [], _ => true
  | _, [] => true
  | _, _ => false
  end.

Definition col_values (c : column) : list value :=
  match c with
  | ObjCol l => l
  | FloatCol l => map VFloat l
  | TimeCol l => map VTime l
  | IntCol l => map VInt l
  end.

Definition col_take (mask : list bool) (c : column) : column :=
  match c with
  | ObjCol l => ObjCol (take_mask mask l)
  | FloatCol l => FloatCol (take_mask mask l)
  | TimeCol l => TimeCol (take_mask mask l)
  | IntCol l => IntCol (take_mask mask l)
  end.

(** [s.isna()]. *)
Definition col_isna (c : column) : list bool :=
  map value_isna (col_values c).

(** ['k' in df.columns]. *)
Definition has_column (k : string) (df : DataFrame) : bool :=
  mem_string k (map fst (columns df)).

(** [df[k]]. *)
Definition getitem (df : DataFrame) (k : string) : M column :=
  match assoc k (columns df) with
  | Some c => ret c
  | None => raise (KeyError (VStr k))
  end.

(** [df[k] = c], for a column [c] on the index of [df]. *)
Definition setitem (df : DataFrame) (k : string) (c : column) : DataFrame :=
  mk_DataFrame (index df) (assoc_set k c (columns df)).

(** [df.iloc[i][k]]: the cell of column [k] in the [i]-th row. *)
Definition cell (df : DataFrame) (k : string) (i : nat) : option value :=
  match assoc k (columns df) with
  | Some c => nth_error (col_values c) i
  | None => None
  end.

(** [df[mask]]. *)
Definition df_take (mask : list bool) (df : DataFrame) : DataFrame :=
  mk_DataFrame (take_mask mask (index df))
               (map (fun kc => (fst kc, col_take mask (snd kc))) (columns df)).

(** [pd.DataFrame(data)] for a list of dicts: one column per key, in order
    of first appearance; a record without the key gets NaN in that column;
    the rows are labelled by position. *)
Definition add_key (seen : list string) (k : string) : list string :=
  if mem_string k seen then seen else seen ++ [k].

Definition union_keys (data : list record) : list string :=
  fold_left (fun seen r => fold_left add_key (map fst r) seen) data [].

Definition cell_of (k : string) (r : record) : value :=
  match assoc k r with
  | Some v => v
  | None => VFloat nan
  end.

Definition pd_DataFrame (data : list record) : DataFrame :=
  mk_DataFrame (seq 0 (List.length data))
    (map (fun k => (k, ObjCol (map (cell_of k) data))) (union_keys data)).

(** For each row, whether one of the columns of [subset] is missing there. *)
Fixpoint subset_isna (subset : list string) (df : DataFrame) : M (list bool) :=
  match subset with
  | [] => ret (map (fun _ => false) (index df))
  | k :: rest =>
      c <- getitem df k ;;
      na <- subset_isna rest df ;;
      ret (zip_with orb (col_isna c) na)
  end.

(** [df.dropna(subset=...)]. *)
Definition dropna (subset : list string) (df : DataFrame) : M DataFrame :=
  na <- subset_isna subset df ;;
  ret (df_take (map negb na) df).

(** [s.dt.year]: integers when no entry is NaT, else floats with NaN. *)
Definition dt_year (c : column) : M column :=
  match c with
  | TimeCol l =>
      if forallb is_some l
      then ret (IntCol (map (fun t => match t with
                                      | Some ns => year_of_timestamp ns
                                      | None => 0%Z
                                      end) l))
      else ret (FloatCol (map (fun t => match t with
                                        | Some ns => float_of_Z (year_of_timestamp ns)
                                        | None => nan
                                        end) l))
  | _ => raise (AttributeError "Can only use .dt accessor with datetimelike values")
  end.

(** ** Objects in a store *)

(** [clean_data] is handed a reference to a list object and hands back a
    reference to a DataFrame object.  Objects live in a store, positions in
    it are the references, and a callee can change an object its caller
    still holds.  To speak of that, a function can be run on a world made
    of the store and the console. *)
Inductive object : Type :=
| ListObj (items : list record)
| FrameObj (df : DataFrame).

Record world : Type := mk_world {
  heap : list object;
  console : list event
}.

Definition Py (A : Type) : Type := world -> result A * world.

Definition py_ret {A : Type} (a : A) : Py A := fun w => (Ok a, w).

Definition py_bind {A B : Type} (m : Py A) (k : A -> Py B) : Py B :=
  fun w =>
    match m w with
    | (Ok a, w') => k a w'
    | (Raised e, w') => (Raised e, w')
    end.

Notation "x <~ m ;; k" := (py_bind m (fun x => k))
  (at level 61, m at next level, right associativity).
Notation "m ~;; k" := (py_bind m (fun _ => k))
  (at level 61, right associativity).

(** A computation that touches the console only. *)
Definition lift {A : Type} (m : M A) : Py A :=
  fun w => let (r, out) := m (console w) in (r, mk_world (heap w) out).

(** [a[i] = x] on a list; out of range it leaves the list as it is. *)
Fixpoint put {A : Type} (a : list A) (i : nat) (x : A) : list A :=
  match a, i with
  | [], _ => []
  | _ :: a', 0 => x :: a'
  | y :: a', S i' => y :: put a' i' x
  end.

(** A new object; its reference is the next free position. *)
Definition new (o : object) : Py nat :=
  fun w => (Ok (List.length (heap w)), mk_world (heap w ++ [o]) (console w)).

Definition load_list (ref : nat) : Py (list record) :=
  fun w =>
    match nth_error (heap w) ref with
    | Some (ListObj items) => (Ok items, w)
    | _ => (Raised (OtherException "TypeError"), w)
    end.

Definition load_frame (ref : nat) : Py DataFrame :=
  fun w =>
    match nth_error (heap w) ref with
    | Some (FrameObj df) => (Ok df, w)
    | _ => (Raised (OtherException "TypeError"), w)
    end.

(** The object at [ref] is changed in place. *)
Definition store_frame (ref : nat) (df : DataFrame) : Py unit :=
  fun w =>
    match nth_error (heap w) ref with
    | Some (FrameObj _) =>
        (Ok tt, mk_world (put (heap w) ref (FrameObj df)) (console w))
    | _ => (Raised (OtherException "TypeError"), w)
    end.

(** ** Aggregates *)

(** [numpy.argmax]: scan from the left and move only to a strictly greater
    entry, so the first occurrence of the maximum is returned. *)
Fixpoint argmax_from {A : Type} (ltb : A -> A -> bool) (best_pos : nat)
    (best : A) (pos : nat) (l : list A) : nat :=
  match l with
  | [] => best_pos
  | x :: l' =>
      if ltb best x
      then argmax_from ltb pos x (S pos) l'
      else argmax_from ltb best_pos best (S pos) l'
  end.

Definition argmax {A : Type} (ltb : A -> A -> bool) (l : list A) : option nat :=
  match l with
  | [] => None
  | x :: l' => Some (argmax_from ltb 0 x 1 l')
  end.

(** With [skipna=True] missing entries take part as minus infinity. *)
Definition nan_to_neg_inf (f : float) : float :=
  match f with
  | S754_nan => S754_infinity true
  | _ => f
  end.

Definition label_at (labels : list nat) (pos : nat) : M nat :=
  match nth_error labels pos with
  | Some lab => ret lab
  | None => raise (OtherException "IndexError")
  end.

(** [s.idxmax()] on a float column: the label of the first row holding the
    maximum; an empty or all-missing column has none. *)
Definition idxmax (labels : list nat) (c : column) : M nat :=
  match c with
  | FloatCol l =>
      if forallb is_nan l
      then raise (ValueError "attempt to get argmax of an empty sequence")
      else match argmax SFltb (map nan_to_neg_inf l) with
           | Some pos => label_at labels pos
           | None => raise (ValueError "attempt to get argmax of an empty sequence")
           end
  | _ => raise (OtherException "idxmax: dtype outside the model")
  end.

(** A row taken out of a frame: a Series of cells indexed by column name. *)
Definition row : Type := list (string * value).

Definition positions_of (label : nat) (labels : list nat) : list nat :=
  map fst (filter (fun pl => Nat.eqb (snd pl) label)
                  (combine (seq 0 (List.length labels)) labels)).

Definition row_at (df : DataFrame) (pos : nat) : row :=
  map (fun kc => (fst kc, nth pos (col_values (snd kc)) VNone)) (columns df).

(** [df.loc[label]] for a label that names one row. *)
Definition loc (df : DataFrame) (label : nat) : M row :=
  match positions_of label (index df) with
  | [] => raise (KeyError (VInt (Z.of_nat label)))
  | [pos] => ret (row_at df pos)
  | _ => raise (OtherException "loc: label shared by several rows")
  end.

(** [series[k]]. *)
Definition row_get (r : row) (k : string) : M value :=
  match assoc k r with
  | Some v => ret v
  | None => raise (KeyError (VStr k))
  end.

Definition as_int_col (c : column) : M (list Z) :=
  match c with
  | IntCol l => ret l
  | _ => raise (OtherException "integer column expected")
  end.

Definition as_float_col (c : column) : M (list float) :=
  match c with
  | FloatCol l => ret l
  | _ => raise (OtherException "float column expected")
  end.

(** Group sizes, keys in order of first appearance (the hash-table pass of
    [value_counts]). *)
Fixpoint bump (k : Z) (counts : list (Z * nat)) : list (Z * nat) :=
  match counts with
  | [] => [(k, 1)]
  | (k', n) :: rest =>
      if Z.eqb k k' then (k', S n) :: rest else (k', n) :: bump k rest
  end.

Definition count_first_seen (l : list Z) : list (Z * nat) :=
  fold_left (fun counts k => bump k counts) l [].

(** [counts[k]], and 0 for a key that is not there. *)
Fixpoint group_size (k : Z) (counts : list (Z * nat)) : nat :=
  match counts with
  | [] => 0
  | (k', n) :: rest => if Z.eqb k k' then n else group_size k rest
  end.

(** [counts.idxmax()] on a Series of group sizes: the key of the first
    largest entry. *)
Definition counts_idxmax (vc : list (Z * nat)) : M Z :=
  match argmax Nat.ltb (map snd vc) with
  | Some pos =>
      match nth_error vc pos with
      | Some (k, _) => ret k
      | None => raise (OtherException "IndexError")
      end
  | None => raise (ValueError "attempt to get argmax of an empty sequence")
  end.

(** [counts.max()]; it is only reached after [counts_idxmax] has succeeded
    on the same counts, so never on an empty Series. *)
Definition counts_max (vc : list (Z * nat)) : nat :=
  fold_left Nat.max (map snd vc) 0.

(** The dict [analyze_data] returns. *)
Record results : Type := mk_results {
  total_entries : nat;
  most_massive_name : value;
  most_massive_mass : value;
  most_frequent_year : Z;
  most_frequent_count : nat
}.

(** ** Plot helpers *)

(** [s.unique()]: distinct values in order of first appearance. *)
Definition unique (l : list Z) : list Z := map fst (count_first_seen l).

Fixpoint insert_sorted (x : Z) (l : list Z) : list Z :=
  match l with
  | [] => [x]
  | y :: l' => if Z.leb x y then x :: l else y :: insert_sorted x l'
  end.

(** [sorted(...)] on integers. *)
Definition sorted (l : list Z) : list Z := fold_right insert_sorted [] l.

(** [range(0, stop, step)]. *)
Definition range_step (stop step : nat) : list nat :=
  map (fun i => i * step) (seq 0 (Nat.div (stop + step - 1) step)).

(** The outlier cut-off of the histogram, 100000 grams. *)
Definition mass_cutoff : float := float_of_Z 100000.

(** ** HTTP *)

Record response : Type := mk_response {
  status_code : Z;
  text : string
}.

(** What [requests.get(url)] comes back with: an exception or a response. *)
Inductive get_outcome : Type :=
| GetRaises (e : exn)
| GetReturns (r : response).

(** [response.raise_for_status()]: HTTPError for a 4xx or 5xx status. *)
Definition raise_for_status (r : response) : M unit :=
  if ((400 <=? status_code r) && (status_code r <? 600))%Z
  then raise (HTTPError (status_code r))
  else ret tt.

(** What the JSON decoder behind [response.json()] does with a body: it
    decodes it; or it rejects it as not being JSON, which [response.json()]
    turns into [requests.exceptions.JSONDecodeError]; or it fails with an
    exception of its own that [response.json()] lets through, such as the
    [RecursionError] of a body nested too deeply. *)
Inductive decoded : Type :=
| Decoded (v : value)
| NotJSON
| DecoderRaises (e : exn).

Definition DATA_URL : string := "https://data.nasa.gov/resource/y77d-th95.json".

(** The list of dicts inside a decoded JSON array of objects. *)
Fixpoint dicts (l : list value) : option (list record) :=
  match l with
  | [] => Some []
  | VDict d :: l' => option_map (cons d) (dicts l')
  | _ => None
  end.

Definition as_records (v : value) : M (list record) :=
  match v with
  | VList l =>
      match dicts l with
      | Some data => ret data
      | None => raise (OtherException "pd.DataFrame: input outside the model")
      end
  | _ => raise (OtherException "pd.DataFrame: input outside the model")
  end.

(** ** Instances of the library routines, for running the model *)

(** Decimal integer literals. *)
Definition digit_of (a : ascii) : option Z :=
  let n := Z.of_nat (nat_of_ascii a) in
  if ((48 <=? n) && (n <=? 57))%Z then Some (n - 48)%Z else None.

Fixpoint digits_value (acc : Z) (s : string) : option Z :=
  match s with
  | EmptyString => Some acc
  | String a s' =>
      match digit_of a with
      | Some d => digits_value (10 * acc + d)%Z s'
      | None => None
      end
  end.

Definition decimal_literal (s : string) : option Z :=
  match s with
  | EmptyString => None
  | _ => digits_value 0 s
  end.

(** Numeric coercion on the values the examples use: numbers as they are,
    strings of decimal digits as the integer they spell, anything else
    NaN. *)
Definition decimal_to_numeric_at (col : list value) (i : nat) : float :=
  match nth i col VNone with
  | VInt z => float_of_Z z
  | VFloat f => f
  | VStr s =>
      match decimal_literal s with
      | Some z => float_of_Z z
      | None => nan
      end
  | _ => nan
  end.

Definition separator_at (s : string) (i : nat) (sep : ascii) : bool :=
  match String.get i s with
  | Some a => Ascii.eqb a sep
  | None => false
  end.

Definition field_at (s : string) (start len : nat) : option Z :=
  decimal_literal (substring start len s).

(** Date parsing on the format the dataset uses,
    [YYYY-MM-DDTHH:MM:SS.mmm]; anything else is read as no date. *)
Definition iso8601 (s : string) : option civil :=
  if Nat.eqb (String.length s) 23
     && separator_at s 4 "-" && separator_at s 7 "-" && separator_at s 10 "T"
     && separator_at s 13 ":" && separator_at s 16 ":" && separator_at s 19 "."
  then
    match field_at s 0 4, field_at s 5 2, field_at s 8 2,
          field_at s 11 2, field_at s 14 2, field_at s 17 2, field_at s 20 3 with
    | Some y, Some mo, Some d, Some h, Some mi, Some sec, Some ms =>
        let c := mk_civil y mo d h mi sec (ms * 1000000)%Z in
        if valid_civil c then Some c else None
    | _, _, _, _, _, _, _ => None
    end
  else None.

Definition iso8601_at (col : list value) (i : nat) : option civil :=
  match nth i col VNone with
  | VStr s => iso8601 s
  | _ => None
  end.

(** Insertion sort of group sizes into descending order.  Entries are
    inserted from the last to the first; [before cx cy] says that a new
    entry of size [cx] goes in front of a present one of size [cy]. *)
Fixpoint insert_by (before : nat -> nat -> bool) (x : Z * nat)
    (l : list (Z * nat)) : list (Z * nat) :=
  match l with
  | [] => [x]
  | y :: l' =>
      if before (snd x) (snd y) then x :: l else y :: insert_by before x l'
  end.

Definition sort_by (before : nat -> nat -> bool) (l : list (Z * nat))
    : list (Z * nat) :=
  fold_right (insert_by before) [] l.

(** Stable: equal sizes stay in their original order. *)
Definition stable_sort_desc : list (Z * nat) -> list (Z * nat) :=
  sort_by (fun cx cy => Nat.leb cy cx).

(** *** The descending sort as pandas and numpy run it

    [Series.sort_values(ascending=False)] goes through [nargsort]
    (pandas/core/sorting.py): the values are reversed, [argsort] with the
    default [kind='quicksort'] orders the reversed values ascending, and
    the order found is reversed again.  For that kind numpy's scalar
    routine is [aquicksort] (npysort/quicksort), an introsort on an array
    [tosort] of positions: a range of more than 17 positions is
    partitioned around the median of its first, middle and last key, and
    a shorter range is finished by insertion sort.  The routine is
    transcribed below for integer keys: [v] is the array of keys and [a]
    the array [tosort]; [pl], [pr], [pm], [pi], [pj] are positions in [a],
    as in the routine. *)

Definition SMALL_QUICKSORT : nat := 16.

Definition tosort_get (a : list nat) (i : nat) : nat := nth i a 0.

(** [INTP_SWAP]: exchange the entries at [i] and [j]. *)
Definition INTP_SWAP (a : list nat) (i j : nat) : list nat :=
  put (put a i (tosort_get a j)) j (tosort_get a i).

(** [v[a[i]]]. *)
Definition key_at (v a : list nat) (i : nat) : nat := nth (tosort_get a i) v 0.

(** [do ++pi; while (v[a[pi]] < vp);] and
    [do --pj; while (vp < v[a[pj]]);].  Both stop inside the range: the
    pivot waits at [pr - 1] and the key at [pl] is not above it. *)
Fixpoint scan_up (fuel : nat) (v a : list nat) (vp pi : nat) : nat :=
  match fuel with
  | 0 => pi
  | S fuel' =>
      if (key_at v a (S pi) <? vp)%nat then scan_up fuel' v a vp (S pi) else S pi
  end.

Fixpoint scan_down (fuel : nat) (v a : list nat) (vp pj : nat) : nat :=
  match fuel with
  | 0 => pj
  | S fuel' =>
      if (vp <? key_at v a (pj - 1))%nat then scan_down fuel' v a vp (pj - 1) else pj - 1
  end.

(** The loop: scan up, scan down, leave when [pi >= pj], else swap the
    entries at [pi] and [pj] and go on.  It returns the array and the
    final [pi]. *)
Fixpoint partition_loop (fuel : nat) (v a : list nat) (vp pi pj : nat)
    : list nat * nat :=
  match fuel with
  | 0 => (a, pi)
  | S fuel' =>
      let pi' := scan_up (List.length a) v a vp pi in
      let pj' := scan_down (List.length a) v a vp pj in
      if (pj' <=? pi')%nat then (a, pi')
      else partition_loop fuel' v (INTP_SWAP a pi' pj') vp pi' pj'
  end.

(** One partition of the range [pl..pr]: median of three, the pivot parked
    at [pr - 1], the loop, the pivot put in its place [pi]. *)
Definition quicksort_partition (v a : list nat) (pl pr : nat) : list nat * nat :=
  let pm := pl + Nat.div (pr - pl) 2 in
  let a := if (key_at v a pm <? key_at v a pl)%nat then INTP_SWAP a pm pl else a in
  let a := if (key_at v a pr <? key_at v a pm)%nat then INTP_SWAP a pr pm else a in
  let a := if (key_at v a pm <? key_at v a pl)%nat then INTP_SWAP a pm pl else a in
  let vp := key_at v a pm in
  let a := INTP_SWAP a pm (pr - 1) in
  let '(a, pi) := partition_loop (List.length a) v a vp pl (pr - 1) in
  (INTP_SWAP a pi (pr - 1), pi).

(** The inner loop of the insertion sort: while [pj > pl] and
    [vp < v[a[pj - 1]]], move the entry at [pj - 1] up to [pj] and step
    [pj] down. *)
Fixpoint shift_up (fuel : nat) (v a : list nat) (pl pj vp : nat)
    : list nat * nat :=
  match fuel with
  | 0 => (a, pj)
  | S fuel' =>
      if ((pl <? pj) && (vp <? key_at v a (pj - 1)))%nat
      then shift_up fuel' v (put a pj (tosort_get a (pj - 1))) pl (pj - 1) vp
      else (a, pj)
  end.

Definition insert_at (v : list nat) (pl : nat) (a : list nat) (pi : nat)
    : list nat :=
  let vi := tosort_get a pi in
  let '(a', pj) := shift_up (List.length a) v a pl pi (nth vi v 0) in
  put a' pj vi.

(** [for (pi = pl + 1; pi <= pr; ++pi) { ... }]. *)
Definition insertion_sort (v a : list nat) (pl pr : nat) : list nat :=
  fold_left (insert_at v pl) (seq (S pl) (pr - pl)) a.

(** The range [pl..pr]: partition while it spans more than
    [SMALL_QUICKSORT] positions, both parts being sorted in turn, then
    insertion sort.  [depth] bounds the nesting of partitions; the routine
    starts from twice the bit length of the array size and falls back on
    heapsort when that is used up, which is not transcribed: [None]. *)
Fixpoint aquicksort_range (depth : nat) (v a : list nat) (pl pr : nat)
    : option (list nat) :=
  if (pr - pl <=? SMALL_QUICKSORT)%nat then Some (insertion_sort v a pl pr)
  else
    match depth with
    | 0 => None
    | S depth' =>
        let '(a', pi) := quicksort_partition v a pl pr in
        match aquicksort_range depth' v a' pl (pi - 1) with
        | Some a'' => aquicksort_range depth' v a'' (S pi) pr
        | None => None
        end
    end.

(** [v.argsort(kind='quicksort')]: the positions of [v] in ascending order
    of their keys. *)
Definition aquicksort (v : list nat) : option (list nat) :=
  let num := List.length v in
  aquicksort_range (2 * Nat.log2 num) v (seq 0 num) 0 (num - 1).

(** [nargsort(items, ascending=False)]: reverse, [argsort], map the
    positions back, reverse. *)
Definition nargsort_desc (items : list nat) : option (list nat) :=
  let n := List.length items in
  match aquicksort (rev items) with
  | Some order => Some (rev (map (fun j => n - 1 - j) order))
  | None => None
  end.

(** [counts.sort_values(ascending=False)] with these routines; no entries
    at all where the transcription gives no order. *)
Definition quicksort_sort_desc (counts : list (Z * nat)) : list (Z * nat) :=
  match nargsort_desc (map snd counts) with
  | Some indexer => map (fun i => nth i counts (0%Z, 0)) indexer
  | None => []
  end.

(** Descending by group size. *)
Definition descending (l : list (Z * nat)) : Prop :=
  forall i j a b, i < j -> nth_error l i = Some a -> nth_error l j = Some b ->
    snd b <= snd a.

(** Mean and median of a float column as numpy computes them on a short
    array: the sum from left to right over the count, and the middle of the
    sorted values (the mean of the two middle ones for an even count); NaN
    on an empty column. *)
Definition float_sum (l : list float) : float :=
  fold_left (SFadd 53 1024) l (S754_zero false).

Definition float_mean (l : list float) : float :=
  SFdiv 53 1024 (float_sum l) (float_of_Z (Z.of_nat (List.length l))).

Fixpoint insert_float (x : float) (l : list float) : list float :=
  match l with
  | [] => [x]
  | y :: l' => if SFleb x y then x :: l else y :: insert_float x l'
  end.

Definition float_median (l : list float) : float :=
  let s := fold_right insert_float [] l in
  let n := List.length s in
  if Nat.eqb n 0 then nan
  else if Nat.odd n then nth (Nat.div n 2) s nan
  else float_mean [nth (Nat.div n 2 - 1) s nan; nth (Nat.div n 2) s nan].

(** A JSON decoder restricted to the documents the examples use: the empty
    array and the array of one empty object; any other text is rejected. *)
Definition sample_json_loads (s : string) : decoded :=
  if String.eqb s "[]" then Decoded (VList [])
  else if String.eqb s "[{}]" then Decoded (VList [VDict []])
  else NotJSON.

(** ** Sample inputs *)

Definition meteorite (name mass year : string) : record :=
  [("name", VStr name); ("mass", VStr mass); ("year", VStr year)].

(** Six records: a good one, one with text for a mass, one from the year
    860, one without a year, and two of 200000 grams. *)
Definition sample_records : list record :=
  [ meteorite "Aachen" "21" "1880-01-01T00:00:00.000";
    meteorite "Abee" "heavy" "1952-01-01T00:00:00.000";
    meteorite "Nogata" "472" "0860-01-01T00:00:00.000";
    [("name", VStr "Acapulco"); ("mass", VStr "1914")];
    meteorite "Adhi Kot" "200000" "1880-01-01T00:00:00.000";
    meteorite "Agen" "200000" "1990-01-01T00:00:00.000" ].

(** Records without a [mass] field. *)
Definition records_without_mass : list record :=
  [ [("name", VStr "Aachen"); ("year", VStr "1880-01-01T00:00:00.000")] ].

(** The cleaned tables of the specification's examples. *)
Definition three_row_table : DataFrame :=
  mk_DataFrame [0; 1; 2]
    [("name", ObjCol [VStr "a"; VStr "b"; VStr "c"]);
     ("mass", FloatCol [float_of_Z 10; float_of_Z 50; float_of_Z 5]);
     ("year", IntCol [2000; 2000; 2001]%Z)].

Definition tie_table : DataFrame :=
  mk_DataFrame [0; 1]
    [("name", ObjCol [VStr "first"; VStr "second"]);
     ("mass", FloatCol [float_of_Z 10; float_of_Z 10]);
     ("year", IntCol [1990; 1991]%Z)].

(** Twenty rows over the eighteen years 2000..2017, one row each in that
    order and then a second row for 2005 and for 2016: two years tie at
    two rows, and 2005 is seen first. *)
Definition crowded_years : list Z :=
  (map (fun i => 2000 + Z.of_nat i) (seq 0 18) ++ [2005; 2016])%Z.

Definition crowded_table : DataFrame :=
  mk_DataFrame (seq 0 20)
    [("name", ObjCol (map (fun i => VStr "stone") (seq 0 20)));
     ("mass", FloatCol (map (fun i => float_of_Z 10) (seq 0 20)));
     ("year", IntCol crowded_years)].

Definition outlier_table : DataFrame :=
  mk_DataFrame [0; 1; 2]
    [("name", ObjCol [VStr "a"; VStr "b"; VStr "c"]);
     ("mass", FloatCol [float_of_Z 300; float_of_Z 200000; float_of_Z 100000]);
     ("year", IntCol [1990; 1991; 1991]%Z)].

(** Networks: a server answering 500, a host that cannot be reached,
    servers answering 200 with a page that is not JSON, with the empty
    array and with an array of one empty object, and a server answering
    300 (Multiple Choices, which [requests] does not follow) with a JSON
    body. *)
Definition server_error (url : string) : get_outcome :=
  GetReturns (mk_response 500 "Internal Server Error").

Definition unreachable (url : string) : get_outcome :=
  GetRaises (ConnectionError "Name or service not known").

Definition html_page (url : string) : get_outcome :=
  GetReturns (mk_response 200 "<html>maintenance</html>").

Definition empty_array_page (url : string) : get_outcome :=
  GetReturns (mk_response 200 "[]").

Definition empty_object_page (url : string) : get_outcome :=
  GetReturns (mk_response 200 "[{}]").

Definition multiple_choices_page (url : string) : get_outcome :=
  GetReturns (mk_response 300 "[{}]").

(** The year the specification names: the first year, in order of first
    appearance, whose group is largest. *)
Definition first_seen_most_frequent (year : list Z) : option Z :=
  let counts := count_first_seen year in
  match argmax Nat.ltb (map snd counts) with
  | Some pos => option_map fst (nth_error counts pos)
  | None => None
  end.

(** ** Further sample inputs *)

(** Figures opened and files saved: the skeleton of a plotting session. *)
Definition is_figure_or_savefig (ev : event) : bool :=
  match ev with
  | Figure _ _ | Savefig _ => true
  | _ => false
  end.

(** JSON text of an array of objects whose values are strings. *)
Definition json_string (s : string) : string :=
  String.append (String "034" EmptyString)
    (String.append s (String "034" EmptyString)).

Definition json_field (kv : string * value) : string :=
  String.append (json_string (fst kv))
    (String.append ": "
       (json_string match snd kv with
                    | VStr s => s
                    | _ => EmptyString
                    end)).

Definition json_object (r : record) : string :=
  String.append "{" (String.append (String.concat ", " (map json_field r)) "}").

Definition json_array (data : list record) : string :=
  String.append "[" (String.append (String.concat ", " (map json_object data)) "]").

(** Records with a mass and a year but no name. *)
Definition records_without_name : list record :=
  [ [("mass", VStr "21"); ("year", VStr "1880-01-01T00:00:00.000")];
    [("mass", VStr "720"); ("year", VStr "1951-01-01T00:00:00.000")] ].

(** A JSON decoder restricted to the text of the two record lists. *)
Definition catalog_json_loads (s : string) : decoded :=
  if String.eqb s (json_array sample_records)
  then Decoded (VList (map VDict sample_records))
  else if String.eqb s (json_array records_without_name)
  then Decoded (VList (map VDict records_without_name))
  else NotJSON.

(** Servers answering 200 with those texts, and a request interrupted from
    the keyboard. *)
Definition catalog_page (url : string) : get_outcome :=
  GetReturns (mk_response 200 (json_array sample_records)).

Definition nameless_page (url : string) : get_outcome :=
  GetReturns (mk_response 200 (json_array records_without_name)).

Definition interrupted (url : string) : get_outcome :=
  GetRaises (OtherException "KeyboardInterrupt").

(** A cleaned table without a [name] column, and one without rows. *)
Definition nameless_table : DataFrame :=
  mk_DataFrame [0; 1]
    [("mass", FloatCol [float_of_Z 21; float_of_Z 720]);
     ("year", IntCol [1880; 1951]%Z)].

Definition rowless_table : DataFrame :=
  mk_DataFrame []
    [("name", ObjCol []); ("mass", FloatCol []); ("year", IntCol [])].

(** * The script *)

Section Pipeline.

(** [pd.to_numeric(col, errors='coerce')]: the float at position [i] of
    the result, given the whole object column; NaN where the entry does
    not parse. *)
Variable to_numeric_at : list value -> nat -> float.

(** The date [pd.to_datetime] reads at position [i] of an object column,
    [None] where it reads none. *)
Variable parse_datetime_at : list value -> nat -> option civil.

(** [Series.sort_values(ascending=False)] on group sizes. *)
Variable sort_values_desc : list (Z * nat) -> list (Z * nat).

(** The network, as seen through [requests.get]. *)
Variable requests_get : string -> get_outcome.

(** The JSON decoder applied to the text of a body. *)
Variable json_loads : string -> decoded.

(** [Series.mean()] and [Series.median()] on floats. *)
Variable mean : list float -> float.
Variable median : list float -> float.

(** [pd.to_numeric(s, errors='coerce')]. *)
Definition pd_to_numeric (c : column) : column :=
  let col := col_values c in
  FloatCol (map (to_numeric_at col) (seq 0 (List.length col))).

(** [pd.to_datetime(s, errors='coerce')]: unreadable entries and dates
    outside the [datetime64[ns]] range become NaT. *)
Definition pd_to_datetime (c : column) : column :=
  let col := col_values c in
  TimeCol (map (fun i => match parse_datetime_at col i with
                         | Some d => timestamp_of_civil d
                         | None => None
                         end)
               (seq 0 (List.length col))).

(** [response.json()]: the decoder's "not JSON" is re-raised as
    [requests.exceptions.JSONDecodeError]; any other exception of the
    decoder passes through unchanged. *)
Definition response_json (r : response) : M value :=
  match json_loads (text r) with
  | Decoded v => ret v
  | NotJSON => raise (JSONDecodeError "Expecting value")
  | DecoderRaises e => raise e
  end.

(** [requests.get(url)]. *)
Definition get (url : string) : M response :=
  match requests_get url with
  | GetRaises e => raise e
  | GetReturns r => ret r
  end.

Definition fetch_data (url : string) : M value :=
  try_except
    (response <- get url ;;
     raise_for_status response ;;;
     response_json response)
    is_RequestException
    (fun e =>
       print [Str "Error fetching data: "; FExn e] ;;;
       ret (VList [])).

Definition clean_data (data : list record) : M DataFrame :=
  let df := pd_DataFrame data in
  if negb (has_column "mass" df) || negb (has_column "year" df) then
    print [Str "Critical columns ('mass', 'year') are missing from the dataset."] ;;;
    ret empty_DataFrame
  else
    mass <- getitem df "mass" ;;
    let df := setitem df "mass" (pd_to_numeric mass) in
    year <- getitem df "year" ;;
    let df := setitem df "year" (pd_to_datetime year) in
    df <- dropna ["mass"; "year"] df ;;
    year <- getitem df "year" ;;
    year <- dt_year year ;;
    ret (setitem df "year" year).

(** [clean_data] once more, with its objects in the store: [data] refers
    to the list of records, [pd.DataFrame(data)] and [df.dropna(...)] each
    make a new DataFrame object, the two assignments [df[...] = ...]
    change the object [df] refers to in place, and a reference to the
    last frame is returned. *)
Definition clean_data_in_store (data : nat) : Py nat :=
  records <~ load_list data ;;
  df <~ new (FrameObj (pd_DataFrame records)) ;;
  frame <~ load_frame df ;;
  if negb (has_column "mass" frame) || negb (has_column "year" frame) then
    lift (print [Str "Critical columns ('mass', 'year') are missing from the dataset."]) ~;;
    new (FrameObj empty_DataFrame)
  else
    frame <~ load_frame df ;;
    mass <~ lift (getitem frame "mass") ;;
    store_frame df (setitem frame "mass" (pd_to_numeric mass)) ~;;
    frame <~ load_frame df ;;
    year <~ lift (getitem frame "year") ;;
    store_frame df (setitem frame "year" (pd_to_datetime year)) ~;;
    frame <~ load_frame df ;;
    dropped <~ lift (dropna ["mass"; "year"] frame) ;;
    df <~ new (FrameObj dropped) ;;
    frame <~ load_frame df ;;
    year <~ lift (getitem frame "year") ;;
    year <~ lift (dt_year year) ;;
    store_frame df (setitem frame "year" year) ~;;
    py_ret df.

(** [s.value_counts()]: group sizes, largest first. *)
Definition value_counts (c : column) : M (list (Z * nat)) :=
  l <- as_int_col c ;;
  ret (sort_values_desc (count_first_seen l)).

Definition analyze_data (df : DataFrame) : M results :=
  let total := List.length (index df) in
  mass <- getitem df "mass" ;;
  label <- idxmax (index df) mass ;;
  most_massive <- loc df label ;;
  name <- row_get most_massive "name" ;;
  m <- row_get most_massive "mass" ;;
  year <- getitem df "year" ;;
  counts <- value_counts year ;;
  most_frequent_year <- counts_idxmax counts ;;
  year <- getitem df "year" ;;
  counts <- value_counts year ;;
  let most_frequent_count := counts_max counts in
  ret (mk_results total name m most_frequent_year most_frequent_count).

Definition visualize_data (df : DataFrame) : M unit :=
  emit (Figure 12 6) ;;;
  year <- getitem df "year" ;;
  x <- as_int_col year ;;
  emit (Countplot x (sorted (unique x))) ;;;
  let years := sorted (unique x) in
  let tick_positions := range_step (List.length years) 5 in
  let tick_labels := map (fun i => nth i years 0%Z) tick_positions in
  emit (Xticks tick_positions tick_labels) ;;;
  emit (Title "Meteorite Counts Per Year") ;;;
  emit (Xlabel "Year") ;;;
  emit (Ylabel "Count") ;;;
  emit TightLayout ;;;
  emit (Savefig "meteorite_counts_per_year.png") ;;;
  emit (Figure 12 6) ;;;
  mass <- getitem df "mass" ;;
  mass <- as_float_col mass ;;
  let filtered_df := df_take (map (fun m => SFleb m mass_cutoff) mass) df in
  filtered_mass <- getitem filtered_df "mass" ;;
  filtered_mass <- as_float_col filtered_mass ;;
  emit (Histplot filtered_mass 100) ;;;
  let mean_mass := mean filtered_mass in
  let median_mass := median filtered_mass in
  emit (Axvline mean_mass [Str "Mean: "; FFixed2 mean_mass; Str "g"]) ;;;
  emit (Axvline median_mass [Str "Median: "; FFixed2 median_mass; Str "g"]) ;;;
  emit Legend ;;;
  emit (Xscale "log") ;;;
  emit (Title "Log-Scaled Distribution of Meteorite Masses (Filtered)") ;;;
  emit (Xlabel "Mass (log scale)") ;;;
  emit (Ylabel "Frequency") ;;;
  emit TightLayout ;;;
  emit (Savefig "meteorite_mass_distribution.png") ;;;
  emit (Figure 12 6) ;;;
  year <- getitem df "year" ;;
  x <- as_int_col year ;;
  mass <- getitem df "mass" ;;
  y <- as_float_col mass ;;
  emit (Scatterplot x y) ;;;
  emit (Title "Meteorite Mass vs. Year") ;;;
  emit (Xlabel "Year") ;;;
  emit (Ylabel "Mass (grams)") ;;;
  emit (Yscale "log") ;;;
  emit TightLayout ;;;
  emit (Savefig "meteorite_scatter_mass_vs_year.png").

(** The orchestrator, with the two later stages as arguments. *)
Definition pipeline_with (analyze : DataFrame -> M results)
    (visualize : DataFrame -> M unit) : M unit :=
  print [Str "Fetching data..."] ;;;
  raw_data <- fetch_data DATA_URL ;;
  if negb (truthy raw_data) then
    print [Str "No data was fetched. Exiting."]
  else
    print [Str "Cleaning data..."] ;;;
    data <- as_records raw_data ;;
    df <- clean_data data ;;
    if df_empty df then
      print [Str "The dataset is empty after cleaning. Exiting."]
    else
      print [Str "Analyzing data..."] ;;;
      results <- analyze df ;;
      print [Str (String "010" "Results:")] ;;;
      print [Str "Total Entries: "; FNat (total_entries results)] ;;;
      print [Str "Most Massive Meteorite: "; FVal (most_massive_name results);
             Str " ("; FVal (most_massive_mass results); Str " grams)"] ;;;
      print [Str "Most Frequent Year: "; FInt (most_frequent_year results);
             Str " ("; FNat (most_frequent_count results); Str " occurrences)"] ;;;
      print [Str (String "010" "Creating visualizations...")] ;;;
      visualize df.

Definition earth_meteorite_landing_data_handling : M unit :=
  pipeline_with analyze_data visualize_data.

(** ** What the claims speak of *)

(** The mass and the year of input row [i] after coercion. *)
Definition coerced_mass (data : list record) (i : nat) : float :=
  to_numeric_at (map (cell_of "mass") data) i.

Definition coerced_year (data : list record) (i : nat) : option Z :=
  match parse_datetime_at (map (cell_of "year") data) i with
  | Some d => timestamp_of_civil d
  | None => None
  end.

(** The calendar year of input row [i], once its date is read. *)
Definition year_of_row (data : list record) (i : nat) : Z :=
  match coerced_year data i with
  | Some ns => year_of_timestamp ns
  | None => 0%Z
  end.

(** Input row [i] passes both coercions. *)
Definition survives (data : list record) (i : nat) : bool :=
  negb (is_nan (coerced_mass data i)) && is_some (coerced_year data i).

(** A table as [clean_data] hands it on: unique row labels, a float
    [mass] column without NaN and an integer [year] column, both as long
    as the index. *)
Definition cleaned_table (df : DataFrame) (mass : list float)
    (year : list Z) : Prop :=
  NoDup (index df)
  /\ assoc "mass" (columns df) = Some (FloatCol mass)
  /\ assoc "year" (columns df) = Some (IntCol year)
  /\ List.length mass = List.length (index df)
  /\ List.length year = List.length (index df)
  /\ (forall f, In f mass -> is_nan f = false).

(** ** Lists, masks and named columns *)

Lemma take_mask_map_filter {A B : Type} (p : A -> bool) (g : A -> B) (l : list A) :
  take_mask (map p l) (map g l) = map g (filter p l).
Proof.
  induction l as [|x l IH]; simpl; [reflexivity|].
  destruct (p x); simpl; now rewrite IH.
Qed.

Lemma take_mask_filter {A : Type} (p : A -> bool) (l : list A) :
  take_mask (map p l) l = filter p l.
Proof.
  rewrite <- (map_id l) at 2. rewrite take_mask_map_filter. apply map_id.
Qed.

Lemma zip_with_map {A B C D : Type} (f : B -> C -> D) (g : A -> B) (h : A -> C)
    (l : list A) :
  zip_with f (map g l) (map h l) = map (fun x => f (g x) (h x)) l.
Proof.
  unfold zip_with. induction l as [|x l IH]; simpl; [reflexivity|].
  now rewrite IH.
Qed.

Lemma map_seq_nth {A : Type} (d : A) (l : list A) :
  map (fun i => nth i l d) (seq 0 (List.length l)) = l.
Proof.
  apply nth_ext with (d := d) (d' := d).
  - now rewrite length_map, length_seq.
  - intros n Hn. rewrite length_map, length_seq in Hn.
    rewrite (nth_indep _ d (nth 0 l d)) by (now rewrite length_map, length_seq).
    rewrite (map_nth (fun i => nth i l d)).
    now rewrite seq_nth.
Qed.

Lemma map_as_seq {A B : Type} (d : A) (g : A -> B) (l : list A) :
  map g l = map (fun i => g (nth i l d)) (seq 0 (List.length l)).
Proof.
  rewrite <- (map_seq_nth d l) at 1. now rewrite map_map.
Qed.

Lemma assoc_set_same {A : Type} (k : string) (a : A) (l : list (string * A)) :
  assoc k (assoc_set k a l) = Some a.
Proof.
  induction l as [|[k' a'] l IH]; simpl.
  - now rewrite String.eqb_refl.
  - destruct (String.eqb k k') eqn:E; simpl; rewrite E; [reflexivity|exact IH].
Qed.

Lemma assoc_set_other {A : Type} (k k' : string) (a : A) (l : list (string * A)) :
  k <> k' -> assoc k (assoc_set k' a l) = assoc k l.
Proof.
  intros Hne. induction l as [|[k2 a2] l IH]; simpl.
  - destruct (String.eqb_spec k k'); [contradiction|reflexivity].
  - destruct (String.eqb_spec k' k2) as [->|Hk]; simpl.
    + destruct (String.eqb_spec k k2); [contradiction|reflexivity].
    + destruct (String.eqb k k2); [reflexivity|exact IH].
Qed.

Lemma assoc_set_names {A : Type} (k : string) (a : A) (l : list (string * A)) :
  mem_string k (map fst l) = true ->
  map fst (assoc_set k a l) = map fst l.
Proof.
  unfold mem_string. induction l as [|[k' a'] l IH]; simpl; [discriminate|].
  destruct (String.eqb k k') eqn:E; simpl; [reflexivity|].
  intros H. now rewrite IH.
Qed.

Lemma assoc_map_snd {A B : Type} (f : A -> B) (k : string) (l : list (string * A)) :
  assoc k (map (fun kc => (fst kc, f (snd kc))) l) = option_map f (assoc k l).
Proof.
  induction l as [|[k' a'] l IH]; simpl; [reflexivity|].
  destruct (String.eqb k k'); [reflexivity|exact IH].
Qed.

Lemma assoc_mem {A : Type} (k : string) (l : list (string * A)) :
  mem_string k (map fst l) = is_some (assoc k l).
Proof.
  unfold mem_string. induction l as [|[k' a'] l IH]; simpl; [reflexivity|].
  destruct (String.eqb k k'); [reflexivity|exact IH].
Qed.

Lemma assoc_tabulate {A : Type} (g : string -> A) (k : string) (keys : list string) :
  assoc k (map (fun k' => (k', g k')) keys)
  = if mem_string k keys then Some (g k) else None.
Proof.
  unfold mem_string. induction keys as [|k' keys IH]; simpl; [reflexivity|].
  destruct (String.eqb_spec k k') as [->|]; [reflexivity|exact IH].
Qed.

Lemma names_tabulate {A : Type} (g : string -> A) (keys : list string) :
  map fst (map (fun k' => (k', g k')) keys) = keys.
Proof.
  rewrite map_map. simpl. apply map_id.
Qed.

(** ** [clean_data] *)

Lemma run_bind {A B : Type} (m : M A) (k : A -> M B) (a : A) (out out' : list event) :
  m out = (Ok a, out') -> bind m k out = k a out'.
Proof. intros H. unfold bind. now rewrite H. Qed.

Lemma getitem_some (df : DataFrame) (k : string) (c : column) (out : list event) :
  assoc k (columns df) = Some c -> getitem df k out = (Ok c, out).
Proof. intros H. unfold getitem. now rewrite H. Qed.

Lemma pd_DataFrame_column (data : list record) (k : string) :
  has_column k (pd_DataFrame data) = true ->
  assoc k (columns (pd_DataFrame data)) = Some (ObjCol (map (cell_of k) data)).
Proof.
  unfold has_column, pd_DataFrame. simpl. rewrite names_tabulate.
  intros H. now rewrite assoc_tabulate, H.
Qed.

Lemma pd_to_numeric_raw (data : list record) :
  pd_to_numeric (ObjCol (map (cell_of "mass") data))
  = FloatCol (map (coerced_mass data) (seq 0 (List.length data))).
Proof. unfold pd_to_numeric. simpl. now rewrite length_map. Qed.

Lemma pd_to_datetime_raw (data : list record) :
  pd_to_datetime (ObjCol (map (cell_of "year") data))
  = TimeCol (map (coerced_year data) (seq 0 (List.length data))).
Proof. unfold pd_to_datetime. simpl. now rewrite length_map. Qed.

Lemma survivors_have_year (data : list record) (l : list nat) :
  forallb is_some (map (coerced_year data) (filter (survives data) l)) = true.
Proof.
  rewrite forallb_forall. intros t Ht.
  apply in_map_iff in Ht. destruct Ht as [i [<- Hi]].
  apply filter_In in Hi. destruct Hi as [_ Hs].
  unfold survives in Hs. now apply andb_prop in Hs.
Qed.

Lemma dropna_run (df : DataFrame) (cm cy : column) (out : list event) :
  assoc "mass" (columns df) = Some cm ->
  assoc "year" (columns df) = Some cy ->
  dropna ["mass"; "year"] df out
  = (Ok (df_take (map negb (zip_with orb (col_isna cm)
                              (zip_with orb (col_isna cy)
                                 (map (fun _ => false) (index df))))) df),
     out).
Proof.
  intros Hm Hy. unfold dropna, subset_isna, bind, getitem.
  rewrite Hm, Hy. reflexivity.
Qed.

Lemma survival_mask (data : list record) (rows : list nat) :
  map negb (zip_with orb (col_isna (FloatCol (map (coerced_mass data) rows)))
              (zip_with orb (col_isna (TimeCol (map (coerced_year data) rows)))
                 (map (fun _ => false) rows)))
  = map (survives data) rows.
Proof.
  unfold col_isna, col_values. rewrite !map_map.
  rewrite !zip_with_map, map_map.
  apply map_ext. intros i. unfold survives. simpl.
  destruct (coerced_year data i); simpl;
    rewrite ?orb_false_r, ?orb_true_r, ?andb_true_r, ?andb_false_r; reflexivity.
Qed.

(** The frame [clean_data] builds when both critical columns are there,
    written out step by step. *)
Lemma clean_data_run (data : list record) (out : list event) :
  has_column "mass" (pd_DataFrame data) = true ->
  has_column "year" (pd_DataFrame data) = true ->
  let rows := seq 0 (List.length data) in
  let kept := filter (survives data) rows in
  let coerced :=
    assoc_set "year" (TimeCol (map (coerced_year data) rows))
      (assoc_set "mass" (FloatCol (map (coerced_mass data) rows))
         (columns (pd_DataFrame data))) in
  clean_data data out
  = (Ok (mk_DataFrame kept
           (assoc_set "year" (IntCol (map (year_of_row data) kept))
              (map (fun kc => (fst kc, col_take (map (survives data) rows) (snd kc)))
                   coerced))),
     out).
Proof.
  intros Hm Hy rows kept coerced.
  unfold clean_data. rewrite Hm, Hy.
  change (negb true || negb true) with false. cbv iota.
  rewrite (run_bind _ _ _ _ _ (getitem_some _ _ _ _ (pd_DataFrame_column _ _ Hm))).
  rewrite pd_to_numeric_raw.
  assert (Hy1 : assoc "year" (columns (setitem (pd_DataFrame data) "mass"
                  (FloatCol (map (coerced_mass data) rows))))
                = Some (ObjCol (map (cell_of "year") data))).
  { unfold setitem. simpl columns. rewrite assoc_set_other by discriminate.
    now apply pd_DataFrame_column. }
  rewrite (run_bind _ _ _ _ _ (getitem_some _ _ _ _ Hy1)).
  rewrite pd_to_datetime_raw. fold rows.
  assert (Hm2 : assoc "mass" coerced = Some (FloatCol (map (coerced_mass data) rows))).
  { unfold coerced. rewrite assoc_set_other by discriminate. apply assoc_set_same. }
  assert (Hy2 : assoc "year" coerced = Some (TimeCol (map (coerced_year data) rows))).
  { unfold coerced. apply assoc_set_same. }
  unfold setitem at 2 3. simpl index. simpl columns. fold coerced.
  rewrite (run_bind _ _ _ _ _
             (dropna_run (mk_DataFrame rows coerced) _ _ _ Hm2 Hy2)).
  simpl index. rewrite survival_mask.
  assert (Hy3 : assoc "year" (columns (df_take (map (survives data) rows)
                                         (mk_DataFrame rows coerced)))
                = Some (TimeCol (map (coerced_year data) kept))).
  { unfold df_take. simpl columns. rewrite assoc_map_snd, Hy2. simpl.
    now rewrite take_mask_map_filter. }
  rewrite (run_bind _ _ _ _ _ (getitem_some _ _ _ _ Hy3)).
  unfold dt_year. unfold kept at 1. rewrite survivors_have_year.
  unfold bind, ret. rewrite take_mask_filter.
  unfold df_take. simpl columns. fold kept.
  do 3 f_equal. f_equal. rewrite map_map. reflexivity.
Qed.

Lemma cell_pd_DataFrame (data : list record) (c : string) (i : nat) :
  has_column c (pd_DataFrame data) = true -> i < List.length data ->
  cell (pd_DataFrame data) c i = Some (cell_of c (nth i data [])).
Proof.
  intros Hc Hi. unfold cell. rewrite (pd_DataFrame_column _ _ Hc). simpl.
  rewrite nth_error_map, (nth_error_nth' data [] Hi). reflexivity.
Qed.

Lemma cell_missing_column (df : DataFrame) (c : string) (i : nat) :
  has_column c df = false -> cell df c i = None.
Proof.
  unfold has_column, cell. rewrite assoc_mem.
  destruct (assoc c (columns df)); [discriminate|reflexivity].
Qed.

Lemma kept_rows_in_range (data : list record) (i : nat) :
  In i (filter (survives data) (seq 0 (List.length data))) <->
  i < List.length data /\ survives data i = true.
Proof.
  rewrite filter_In, in_seq. simpl. intuition lia.
Qed.

Lemma filter_seq_increasing (p : nat -> bool) (n s j k a b : nat) :
  j < k ->
  nth_error (filter p (seq s n)) j = Some a ->
  nth_error (filter p (seq s n)) k = Some b ->
  a < b.
Proof.
  revert s j k. induction n as [|n IH]; intros s j k Hjk Ha Hb; simpl in *.
  - destruct j; discriminate.
  - destruct (p s).
    + destruct k as [|k]; [lia|]. simpl in Hb.
      assert (Hb' : S s <= b).
      { apply nth_error_In in Hb. apply filter_In in Hb.
        destruct Hb as [Hb _]. apply in_seq in Hb. lia. }
      destruct j as [|j]; simpl in Ha.
      * inversion Ha. lia.
      * apply (IH (S s) j k); [lia|assumption|assumption].
    + apply (IH (S s) j k); assumption.
Qed.

(** C1.  When the loaded table has both a [mass] and a [year] column,
    [clean_data] returns (without printing or raising) a frame whose rows
    are exactly the input rows that pass both coercions: a row is kept if
    and only if its mass is not NaN after numeric coercion and its year is
    not NaT after date coercion.  The kept rows stand in their input order,
    no column is added or lost, and every cell outside [mass] and [year]
    is the cell the loaded table had in that row. *)
Theorem clean_data_stable_filter (data : list record) (out : list event) :
  has_column "mass" (pd_DataFrame data) = true ->
  has_column "year" (pd_DataFrame data) = true ->
  exists df,
    clean_data data out = (Ok df, out)
    /\ index df = filter (survives data) (seq 0 (List.length data))
    /\ (forall i, In i (index df) <->
                  i < List.length data
                  /\ is_nan (coerced_mass data i) = false
                  /\ coerced_year data i <> None)
    /\ (forall j k a b, j < k ->
          nth_error (index df) j = Some a -> nth_error (index df) k = Some b ->
          a < b)
    /\ map fst (columns df) = map fst (columns (pd_DataFrame data))
    /\ (forall c k, c <> "mass" -> c <> "year" ->
          cell df c k = match nth_error (index df) k with
                        | Some i => cell (pd_DataFrame data) c i
                        | None => None
                        end).
Proof.
  intros Hm Hy. eexists. split; [apply (clean_data_run data out Hm Hy)|].
  simpl index. split; [reflexivity|]. split; [|split; [|split]].
  - intros i. rewrite kept_rows_in_range. unfold survives.
    rewrite andb_true_iff, negb_true_iff.
    destruct (coerced_year data i); simpl; intuition congruence.
  - intros j k a b. apply filter_seq_increasing.
  - simpl columns. rewrite assoc_set_names.
    + rewrite map_map. simpl.
      rewrite assoc_set_names.
      * apply assoc_set_names. exact Hm.
      * rewrite assoc_set_names by exact Hm. exact Hy.
    + rewrite map_map. simpl.
      rewrite assoc_set_names.
      * rewrite assoc_set_names by exact Hm. exact Hy.
      * rewrite assoc_set_names by exact Hm. exact Hy.
  - intros c k Hcm Hcy. unfold cell at 1. cbn [columns].
    rewrite assoc_set_other by exact Hcy.
    rewrite assoc_map_snd.
    rewrite !assoc_set_other by assumption.
    destruct (has_column c (pd_DataFrame data)) eqn:Hc.
    + rewrite (pd_DataFrame_column _ _ Hc). simpl.
      rewrite (map_as_seq ([] : record) (cell_of c) data).
      rewrite take_mask_map_filter, nth_error_map.
      destruct (nth_error _ k) as [i|] eqn:Hk; simpl; [|reflexivity].
      apply nth_error_In, kept_rows_in_range in Hk.
      symmetry. apply cell_pd_DataFrame; [exact Hc|apply Hk].
    + assert (Hnone : assoc c (columns (pd_DataFrame data)) = None).
      { unfold has_column in Hc. rewrite assoc_mem in Hc.
        destruct (assoc c _); [discriminate|reflexivity]. }
      rewrite Hnone. simpl.
      destruct (nth_error _ k); [|reflexivity].
      symmetry. now apply cell_missing_column.
Qed.

Lemma add_keys_In (k : string) (ks seen : list string) :
  In k (fold_left add_key ks seen) <-> In k seen \/ In k ks.
Proof.
  revert seen. induction ks as [|k' ks IH]; intros seen; simpl.
  - tauto.
  - rewrite IH. unfold add_key, mem_string.
    destruct (existsb (String.eqb k') seen) eqn:E.
    + apply existsb_exists in E. destruct E as [x [Hx Heq]].
      apply String.eqb_eq in Heq. subst x. intuition (subst; auto).
    + rewrite in_app_iff. simpl. tauto.
Qed.

Lemma union_keys_In (k : string) (data : list record) :
  In k (union_keys data) <-> exists r, In r data /\ In k (map fst r).
Proof.
  unfold union_keys.
  assert (H : forall seen,
             In k (fold_left (fun seen r => fold_left add_key (map fst r) seen)
                             data seen)
             <-> In k seen \/ exists r, In r data /\ In k (map fst r)).
  { induction data as [|r data IH]; intros seen; simpl.
    - split; [tauto|]. intros [H|[r [[] _]]]. exact H.
    - rewrite IH, add_keys_In. split.
      + intros [[H|H]|[r' [H1 H2]]]; eauto.
      + intros [H|[r' [[->|H1] H2]]]; eauto. }
  rewrite H. simpl. split; [intros [[]|H']; exact H'|auto].
Qed.

Lemma assoc_none_iff {A : Type} (k : string) (l : list (string * A)) :
  assoc k l = None <-> ~ In k (map fst l).
Proof.
  induction l as [|[k' a] l IH]; simpl; [tauto|].
  destruct (String.eqb_spec k k') as [->|Hne].
  - split; [discriminate|]. intros H. exfalso. apply H. now left.
  - rewrite IH. split; [intros H [H'|H']; [congruence|tauto]|tauto].
Qed.

(** A column is missing from the loaded table exactly when no record has
    the field. *)
Lemma column_missing_iff (k : string) (data : list record) :
  has_column k (pd_DataFrame data) = false <->
  forall r, In r data -> assoc k r = None.
Proof.
  unfold has_column, pd_DataFrame. simpl. rewrite names_tabulate.
  unfold mem_string. split.
  - intros H r Hr. apply assoc_none_iff. intros Hk.
    assert (Hin : In k (union_keys data)) by (apply union_keys_In; eauto).
    assert (Ht : existsb (String.eqb k) (union_keys data) = true).
    { apply existsb_exists. exists k. split; [exact Hin|apply String.eqb_refl]. }
    congruence.
  - intros H. destruct (existsb _ _) eqn:E; [|reflexivity].
    apply existsb_exists in E. destruct E as [x [Hx Heq]].
    apply String.eqb_eq in Heq. subst x.
    apply union_keys_In in Hx. destruct Hx as [r [Hr Hk]].
    specialize (H r Hr). apply assoc_none_iff in H. contradiction.
Qed.

Lemma clean_data_abort (data : list record) (out : list event) :
  has_column "mass" (pd_DataFrame data) = false
  \/ has_column "year" (pd_DataFrame data) = false ->
  clean_data data out
  = (Ok empty_DataFrame,
     out ++ [Print [Str "Critical columns ('mass', 'year') are missing from the dataset."]]).
Proof.
  intros H. unfold clean_data.
  assert (Hc : negb (has_column "mass" (pd_DataFrame data))
               || negb (has_column "year" (pd_DataFrame data)) = true).
  { destruct H as [-> | ->]; [reflexivity|apply orb_true_r]. }
  rewrite Hc. reflexivity.
Qed.

(** C2.  When the loaded table lacks the [mass] column or lacks the [year]
    column, [clean_data] prints the critical-columns message and returns
    the empty frame; it raises nothing. *)
Theorem clean_data_missing_columns (data : list record) (out : list event) :
  has_column "mass" (pd_DataFrame data) = false
  \/ has_column "year" (pd_DataFrame data) = false ->
  clean_data data out
  = (Ok empty_DataFrame,
     out ++ [Print [Str "Critical columns ('mass', 'year') are missing from the dataset."]])
  /\ df_empty empty_DataFrame = true.
Proof.
  intros H. split; [now apply clean_data_abort|reflexivity].
Qed.

(** The same in terms of the records: no record with a [mass] field, or no
    record with a [year] field, gives the empty frame. *)
Corollary clean_data_no_field (data : list record) (out : list event) :
  (forall r, In r data -> assoc "mass" r = None)
  \/ (forall r, In r data -> assoc "year" r = None) ->
  exists out', clean_data data out = (Ok empty_DataFrame, out').
Proof.
  intros H. eexists. apply clean_data_abort.
  destruct H as [H|H]; [left|right]; now apply column_missing_iff.
Qed.

(** ** [clean_data] and the objects it touches *)

Lemma py_run_bind {A B : Type} (m : Py A) (k : A -> Py B) (a : A) (w w' : world) :
  m w = (Ok a, w') -> py_bind m k w = k a w'.
Proof. intros H. unfold py_bind. now rewrite H. Qed.

Lemma lift_run {A : Type} (m : M A) (a : A) (h : list object)
    (out out' : list event) :
  m out = (Ok a, out') -> lift m (mk_world h out) = (Ok a, mk_world h out').
Proof. intros H. unfold lift. simpl. now rewrite H. Qed.

Lemma nth_error_last {A : Type} (h : list A) (x : A) :
  nth_error (h ++ [x]) (List.length h) = Some x.
Proof. rewrite nth_error_app2, Nat.sub_diag by lia. reflexivity. Qed.

Lemma put_last {A : Type} (h : list A) (x y : A) :
  put (h ++ [x]) (List.length h) y = h ++ [y].
Proof. induction h as [|z h IH]; simpl; [reflexivity|now rewrite IH]. Qed.

Lemma load_frame_last (h : list object) (df : DataFrame) (out : list event) :
  load_frame (List.length h) (mk_world (h ++ [FrameObj df]) out)
  = (Ok df, mk_world (h ++ [FrameObj df]) out).
Proof. unfold load_frame. simpl. now rewrite nth_error_last. Qed.

Lemma store_frame_last (h : list object) (df df' : DataFrame) (out : list event) :
  store_frame (List.length h) df' (mk_world (h ++ [FrameObj df]) out)
  = (Ok tt, mk_world (h ++ [FrameObj df']) out).
Proof. unfold store_frame. simpl. now rewrite nth_error_last, put_last. Qed.

(** The outcome of [clean_data] does not depend on what was printed
    before. *)
Lemma clean_data_result_any_console (data : list record) (out1 out2 : list event) :
  fst (clean_data data out1) = fst (clean_data data out2).
Proof.
  destruct (has_column "mass" (pd_DataFrame data)) eqn:Hm;
    [destruct (has_column "year" (pd_DataFrame data)) eqn:Hy|].
  - now rewrite (clean_data_run data out1 Hm Hy), (clean_data_run data out2 Hm Hy).
  - rewrite (clean_data_abort data out1 (or_intror Hy)).
    now rewrite (clean_data_abort data out2 (or_intror Hy)).
  - rewrite (clean_data_abort data out1 (or_introl Hm)).
    now rewrite (clean_data_abort data out2 (or_introl Hm)).
Qed.

(** One call, object by object: the store gains two DataFrame objects, the
    frame that was loaded and coerced in place and the frame that is
    returned, and no object that was there before is changed.  The frame
    returned is the one [clean_data] computes from the records. *)
Lemma clean_data_in_store_run (data : nat) (records : list record) (w : world) :
  nth_error (heap w) data = Some (ListObj records) ->
  exists (loaded df : DataFrame) (out' : list event),
    clean_data records (console w) = (Ok df, out')
    /\ clean_data_in_store data w
       = (Ok (S (List.length (heap w))),
          mk_world (heap w ++ [FrameObj loaded; FrameObj df]) out').
Proof.
  destruct w as [h out]. simpl. intros Hdata.
  assert (Hload : load_list data (mk_world h out) = (Ok records, mk_world h out)).
  { unfold load_list. simpl. now rewrite Hdata. }
  assert (Hsnoc : forall x y : object, (h ++ [x]) ++ [y] = h ++ [x; y]).
  { intros x y. now rewrite <- app_assoc. }
  assert (Hlen : forall x : object, List.length (h ++ [x]) = S (List.length h)).
  { intros x. rewrite length_app. simpl. lia. }
  unfold clean_data_in_store.
  rewrite (py_run_bind _ _ _ _ _ Hload).
  unfold new at 1. unfold py_bind at 1. cbn [heap console].
  rewrite (py_run_bind _ _ _ _ _ (load_frame_last h _ out)).
  destruct (has_column "mass" (pd_DataFrame records)) eqn:Hm;
    [destruct (has_column "year" (pd_DataFrame records)) eqn:Hy|].
  - change (negb true || negb true) with false. cbv iota.
    set (rows := seq 0 (List.length records)).
    set (kept := filter (survives records) rows).
    set (coerced :=
           assoc_set "year" (TimeCol (map (coerced_year records) rows))
             (assoc_set "mass" (FloatCol (map (coerced_mass records) rows))
                (columns (pd_DataFrame records)))).
    exists (mk_DataFrame rows coerced). eexists. exists out.
    split; [exact (clean_data_run records out Hm Hy)|].
    rewrite (py_run_bind _ _ _ _ _ (load_frame_last h _ out)).
    rewrite (py_run_bind _ _ _ _ _
               (lift_run _ _ _ _ _
                  (getitem_some _ _ _ out (pd_DataFrame_column _ _ Hm)))).
    rewrite pd_to_numeric_raw. fold rows.
    rewrite (py_run_bind _ _ _ _ _ (store_frame_last h _ _ out)).
    rewrite (py_run_bind _ _ _ _ _ (load_frame_last h _ out)).
    assert (Hy1 : assoc "year" (columns (setitem (pd_DataFrame records) "mass"
                    (FloatCol (map (coerced_mass records) rows))))
                  = Some (ObjCol (map (cell_of "year") records))).
    { unfold setitem. simpl columns. rewrite assoc_set_other by discriminate.
      now apply pd_DataFrame_column. }
    rewrite (py_run_bind _ _ _ _ _
               (lift_run _ _ _ _ _ (getitem_some _ _ _ out Hy1))).
    rewrite pd_to_datetime_raw. fold rows.
    rewrite (py_run_bind _ _ _ _ _ (store_frame_last h _ _ out)).
    rewrite (py_run_bind _ _ _ _ _ (load_frame_last h _ out)).
    assert (Hm2 : assoc "mass" coerced
                  = Some (FloatCol (map (coerced_mass records) rows))).
    { unfold coerced. rewrite assoc_set_other by discriminate. apply assoc_set_same. }
    assert (Hy2 : assoc "year" coerced
                  = Some (TimeCol (map (coerced_year records) rows))).
    { unfold coerced. apply assoc_set_same. }
    unfold setitem at 1 2. simpl index. simpl columns. fold coerced.
    rewrite (py_run_bind _ _ _ _ _
               (lift_run _ _ _ _ _
                  (dropna_run (mk_DataFrame rows coerced) _ _ out Hm2 Hy2))).
    simpl index. rewrite survival_mask.
    unfold new at 1. unfold py_bind at 1. cbn [heap console].
    rewrite Hlen, Hsnoc.
    assert (Hlast : forall (x y : object),
               h ++ [x; y] = (h ++ [x]) ++ [y]) by (intros; now rewrite Hsnoc).
    assert (Hloadf : forall (x : object) (df : DataFrame),
               load_frame (S (List.length h)) (mk_world (h ++ [x; FrameObj df]) out)
               = (Ok df, mk_world (h ++ [x; FrameObj df]) out)).
    { intros x df. rewrite Hlast, <- (Hlen x). apply load_frame_last. }
    assert (Hstoref : forall (x : object) (df df' : DataFrame),
               store_frame (S (List.length h)) df'
                 (mk_world (h ++ [x; FrameObj df]) out)
               = (Ok tt, mk_world (h ++ [x; FrameObj df']) out)).
    { intros x df df'. rewrite !Hlast, <- (Hlen x). apply store_frame_last. }
    rewrite (py_run_bind _ _ _ _ _ (Hloadf _ _)).
    assert (Hy3 : assoc "year" (columns (df_take (map (survives records) rows)
                                           (mk_DataFrame rows coerced)))
                  = Some (TimeCol (map (coerced_year records) kept))).
    { unfold df_take. simpl columns. rewrite assoc_map_snd, Hy2. simpl.
      now rewrite take_mask_map_filter. }
    rewrite (py_run_bind _ _ _ _ _
               (lift_run _ _ _ _ _ (getitem_some _ _ _ out Hy3))).
    assert (Hdt : dt_year (TimeCol (map (coerced_year records) kept)) out
                  = (Ok (IntCol (map (year_of_row records) kept)), out)).
    { unfold dt_year. unfold kept at 1. rewrite survivors_have_year.
      unfold ret. rewrite map_map. reflexivity. }
    rewrite (py_run_bind _ _ _ _ _ (lift_run _ _ _ _ _ Hdt)).
    rewrite (py_run_bind _ _ _ _ _ (Hstoref _ _ _)).
    unfold py_ret. unfold df_take, setitem. simpl index. simpl columns.
    rewrite take_mask_filter. reflexivity.
  - change (negb true || negb false) with true. cbv iota.
    exists (pd_DataFrame records), empty_DataFrame. eexists.
    split; [exact (clean_data_abort records out (or_intror Hy))|].
    unfold py_bind, lift, print, emit, new. cbn [heap console].
    now rewrite Hlen, Hsnoc.
  - change (negb false) with true. cbv iota. rewrite orb_true_l.
    exists (pd_DataFrame records), empty_DataFrame. eexists.
    split; [exact (clean_data_abort records out (or_introl Hm))|].
    unfold py_bind, lift, print, emit, new. cbn [heap console].
    now rewrite Hlen, Hsnoc.
Qed.


(** ** The range of [datetime64[ns]] *)

Lemma days_before_month_bounds (leap : bool) (m : Z) :
  (0 <= days_before_month leap m <= 335)%Z.
Proof.
  unfold days_before_month.
  destruct leap; destruct m as [|p|p]; try lia;
    do 4 (try destruct p as [p|p|]); lia.
Qed.

Lemma days_in_month_bounds (leap : bool) (m : Z) :
  (28 <= days_in_month leap m <= 31)%Z.
Proof.
  unfold days_in_month.
  destruct leap; destruct m as [|p|p]; try lia;
    do 4 (try destruct p as [p|p|]); lia.
Qed.

Lemma valid_civil_bounds (d : civil) :
  valid_civil d = true ->
  (1 <= c_day d <= 31
   /\ 0 <= c_hour d < 24 /\ 0 <= c_minute d < 60 /\ 0 <= c_second d < 60
   /\ 0 <= c_nanosecond d < 1000000000)%Z.
Proof.
  unfold valid_civil. rewrite !andb_true_iff.
  pose proof (days_in_month_bounds (is_leap (c_year d)) (c_month d)).
  lia.
Qed.

Lemma days_from_civil_early (y m d : Z) :
  (y <= 1676 -> d <= 31 -> days_from_civil y m d <= -107014)%Z.
Proof.
  intros Hy Hd. unfold days_from_civil, leaps.
  pose proof (days_before_month_bounds (is_leap y) m).
  Z.div_mod_to_equations. lia.
Qed.

Lemma days_from_civil_late (y m d : Z) :
  (2263 <= y -> 1 <= d -> 107014 <= days_from_civil y m d)%Z.
Proof.
  intros Hy Hd. unfold days_from_civil, leaps.
  pose proof (days_before_month_bounds (is_leap y) m).
  Z.div_mod_to_equations. lia.
Qed.

Lemma days_from_civil_middle (y m d : Z) :
  (1678 <= y <= 2261 -> 1 <= d <= 31 ->
   -106700 <= days_from_civil y m d <= 106700)%Z.
Proof.
  intros Hy Hd. unfold days_from_civil, leaps.
  pose proof (days_before_month_bounds (is_leap y) m).
  Z.div_mod_to_equations. lia.
Qed.

(** A valid date in a year up to 1676 or from 2263 on does not fit a
    Timestamp. *)
Lemma timestamp_out_of_bounds (d : civil) :
  valid_civil d = true ->
  (c_year d <= 1676 \/ 2263 <= c_year d)%Z ->
  timestamp_of_civil d = None.
Proof.
  intros Hv Hy. apply valid_civil_bounds in Hv.
  assert (H : (ns_of_civil d < timestamp_min \/ timestamp_max < ns_of_civil d)%Z).
  { unfold ns_of_civil, timestamp_min, timestamp_max, ns_per_day.
    destruct Hy as [Hy|Hy].
    - pose proof (days_from_civil_early (c_year d) (c_month d) (c_day d) Hy).
      left. lia.
    - pose proof (days_from_civil_late (c_year d) (c_month d) (c_day d) Hy).
      right. lia. }
  unfold timestamp_of_civil.
  destruct ((timestamp_min <=? ns_of_civil d)%Z
            && (ns_of_civil d <=? timestamp_max)%Z) eqn:E; [|reflexivity].
  apply andb_true_iff in E. destruct E as [E1 E2].
  apply Z.leb_le in E1. apply Z.leb_le in E2. lia.
Qed.

(** A valid date in the years 1678 to 2261 does. *)
Lemma timestamp_in_bounds (d : civil) :
  valid_civil d = true ->
  (1678 <= c_year d <= 2261)%Z ->
  timestamp_of_civil d = Some (ns_of_civil d).
Proof.
  intros Hv Hy. apply valid_civil_bounds in Hv.
  unfold timestamp_of_civil.
  assert (H : (timestamp_min <= ns_of_civil d <= timestamp_max)%Z).
  { unfold ns_of_civil, timestamp_min, timestamp_max, ns_per_day.
    pose proof (days_from_civil_middle (c_year d) (c_month d) (c_day d) Hy).
    lia. }
  destruct H as [H1 H2].
  apply Z.leb_le in H1. apply Z.leb_le in H2. now rewrite H1, H2.
Qed.

(** C9.  A row whose [year] is read as a valid calendar date in a year
    outside the [datetime64[ns]] range (1676 or earlier, 2263 or later)
    is coerced to NaT and is not among the rows of the cleaned table. *)
Theorem clean_data_drops_out_of_range_year (data : list record)
    (out : list event) (i : nat) (d : civil) :
  has_column "mass" (pd_DataFrame data) = true ->
  has_column "year" (pd_DataFrame data) = true ->
  i < List.length data ->
  parse_datetime_at (map (cell_of "year") data) i = Some d ->
  valid_civil d = true ->
  (c_year d <= 1676 \/ 2263 <= c_year d)%Z ->
  coerced_year data i = None
  /\ exists df, clean_data data out = (Ok df, out) /\ ~ In i (index df).
Proof.
  intros Hm Hy Hi Hp Hv Hr.
  assert (Hc : coerced_year data i = None).
  { unfold coerced_year. rewrite Hp. now apply timestamp_out_of_bounds. }
  split; [exact Hc|].
  eexists. split; [apply (clean_data_run data out Hm Hy)|].
  simpl index. rewrite kept_rows_in_range. unfold survives. rewrite Hc.
  rewrite andb_false_r. intros [_ H]. discriminate.
Qed.

(** ** The order of floats *)

Ltac float_order :=
  unfold SFltb, SFcompare;
  repeat match goal with
         | s : bool |- _ => destruct s
         end;
  try discriminate; try reflexivity;
  repeat match goal with
         | |- context [Z.compare ?x ?y] =>
             destruct (Z.compare_spec x y); try subst
         | |- context [Pos.compare_cont Eq ?x ?y] =>
             change (Pos.compare_cont Eq x y) with (Pos.compare x y);
             destruct (Pos.compare_spec x y); try subst
         end;
  simpl; try discriminate; try reflexivity; try lia.

Lemma SFltb_irrefl (a : float) : SFltb a a = false.
Proof.
  destruct a; float_order.
Qed.

Lemma SFltb_trans (a b c : float) :
  SFltb a b = true -> SFltb b c = true -> SFltb a c = true.
Proof.
  destruct a, b, c; float_order.
Qed.

Lemma SFltb_negtrans (a b c : float) :
  is_nan a = false -> is_nan b = false -> is_nan c = false ->
  SFltb a b = false -> SFltb b c = false -> SFltb a c = false.
Proof.
  destruct a, b, c; simpl; try discriminate; intros _ _ _; float_order.
Qed.

(** ** [argmax] returns the first maximum *)

Section ArgmaxSpec.
Context {A : Type} (ltb : A -> A -> bool) (P : A -> Prop).
Hypothesis ltb_irrefl : forall a, ltb a a = false.
Hypothesis ltb_trans :
  forall a b c, ltb a b = true -> ltb b c = true -> ltb a c = true.
Hypothesis ltb_negtrans :
  forall a b c, P a -> P b -> P c ->
    ltb a b = false -> ltb b c = false -> ltb a c = false.

Lemma argmax_from_spec (d : A) (l : list A) :
  forall (pre : list A) (best_pos : nat) (best : A),
    (forall x, In x (pre ++ l) -> P x) ->
    best_pos < List.length pre ->
    nth best_pos pre d = best ->
    (forall j, j < List.length pre -> ltb best (nth j pre d) = false) ->
    (forall j, j < best_pos -> ltb (nth j pre d) best = true) ->
    let p := argmax_from ltb best_pos best (List.length pre) l in
    p < List.length (pre ++ l)
    /\ (forall j, j < List.length (pre ++ l) ->
          ltb (nth p (pre ++ l) d) (nth j (pre ++ l) d) = false)
    /\ (forall j, j < p -> ltb (nth j (pre ++ l) d) (nth p (pre ++ l) d) = true).
Proof.
  induction l as [|x l IH]; intros pre best_pos best HP Hpos Hbest Hmax Hfirst; simpl.
  - rewrite app_nil_r. subst best. auto.
  - assert (Hlen : List.length (pre ++ [x]) = S (List.length pre)).
    { rewrite length_app. simpl. lia. }
    assert (Happ : pre ++ x :: l = (pre ++ [x]) ++ l).
    { now rewrite <- app_assoc. }
    assert (Hx : nth (List.length pre) (pre ++ [x]) d = x).
    { rewrite app_nth2 by lia. now rewrite Nat.sub_diag. }
    assert (Hold : forall j, j < List.length pre ->
                             nth j (pre ++ [x]) d = nth j pre d).
    { intros j Hj. now apply app_nth1. }
    assert (Pbest : P best).
    { apply HP. apply in_or_app. left. subst best. now apply nth_In. }
    assert (Px : P x).
    { apply HP. apply in_or_app. right. now left. }
    assert (Ppre : forall j, j < List.length pre -> P (nth j pre d)).
    { intros j Hj. apply HP. apply in_or_app. left. now apply nth_In. }
    rewrite Happ. rewrite <- Hlen.
    destruct (ltb best x) eqn:E.
    + apply (IH (pre ++ [x]) (List.length pre) x).
      * now rewrite <- Happ.
      * lia.
      * exact Hx.
      * intros j Hj. rewrite Hlen in Hj.
        destruct (Nat.eq_dec j (List.length pre)) as [->|Hne].
        -- rewrite Hx. apply ltb_irrefl.
        -- rewrite Hold by lia.
           destruct (ltb x (nth j pre d)) eqn:E2; [|reflexivity].
           pose proof (ltb_trans _ _ _ E E2) as Ht.
           rewrite (Hmax j ltac:(lia)) in Ht. discriminate.
      * intros j Hj. rewrite Hold by lia.
        destruct (ltb (nth j pre d) x) eqn:E2; [reflexivity|].
        rewrite (ltb_negtrans best (nth j pre d) x Pbest (Ppre j Hj) Px
                   (Hmax j Hj) E2) in E.
        discriminate.
    + apply (IH (pre ++ [x]) best_pos best).
      * now rewrite <- Happ.
      * lia.
      * rewrite Hold by lia. exact Hbest.
      * intros j Hj. rewrite Hlen in Hj.
        destruct (Nat.eq_dec j (List.length pre)) as [->|Hne].
        -- now rewrite Hx.
        -- rewrite Hold by lia. apply Hmax. lia.
      * intros j Hj. rewrite Hold by lia. now apply Hfirst.
Qed.

Lemma argmax_spec (d : A) (l : list A) :
  l <> [] -> (forall x, In x l -> P x) ->
  exists p, argmax ltb l = Some p
    /\ p < List.length l
    /\ (forall j, j < List.length l -> ltb (nth p l d) (nth j l d) = false)
    /\ (forall j, j < p -> ltb (nth j l d) (nth p l d) = true).
Proof.
  intros Hne HP. destruct l as [|x l]; [contradiction|].
  eexists. split; [reflexivity|].
  apply (argmax_from_spec d l [x] 0 x).
  - exact HP.
  - simpl. lia.
  - reflexivity.
  - intros j Hj. simpl in Hj. assert (j = 0) by lia. subst j. apply ltb_irrefl.
  - intros j Hj. lia.
Qed.
End ArgmaxSpec.

(** ** Group sizes *)

Lemma bump_group_size (k k' : Z) (counts : list (Z * nat)) :
  group_size k' (bump k counts)
  = group_size k' counts + (if Z.eqb k' k then 1 else 0).
Proof.
  induction counts as [|[k2 n] rest IH]; simpl.
  - destruct (Z.eqb k' k); reflexivity.
  - destruct (Z.eqb_spec k k2) as [->|Hne]; simpl.
    + destruct (Z.eqb k' k2); lia.
    + destruct (Z.eqb_spec k' k2) as [->|Hne2].
      * destruct (Z.eqb_spec k2 k); [congruence|lia].
      * exact IH.
Qed.

Lemma bump_keys (k k' : Z) (counts : list (Z * nat)) :
  In k' (map fst (bump k counts)) <-> k' = k \/ In k' (map fst counts).
Proof.
  induction counts as [|[k2 n] rest IH]; simpl.
  - intuition.
  - destruct (Z.eqb_spec k k2) as [->|Hne]; simpl; [intuition|].
    rewrite IH. intuition.
Qed.

Lemma bump_NoDup (k : Z) (counts : list (Z * nat)) :
  NoDup (map fst counts) -> NoDup (map fst (bump k counts)).
Proof.
  induction counts as [|[k2 n] rest IH]; simpl; intros H.
  - constructor; [intros []|constructor].
  - inversion H as [|? ? Hnot Hrest]; subst.
    destruct (Z.eqb_spec k k2) as [->|Hne]; simpl.
    + now constructor.
    + constructor; [|now apply IH].
      rewrite bump_keys. intros [->|Hin]; [congruence|contradiction].
Qed.

Lemma bump_positive (k : Z) (counts : list (Z * nat)) :
  (forall e, In e counts -> 0 < snd e) ->
  forall e, In e (bump k counts) -> 0 < snd e.
Proof.
  induction counts as [|[k2 n] rest IH]; simpl; intros H e He.
  - destruct He as [<-|[]]. simpl. lia.
  - destruct (Z.eqb k k2); simpl in He.
    + destruct He as [<-|He]; [simpl; lia|apply H; now right].
    + destruct He as [<-|He]; [apply (H (k2, n)); now left|].
      apply IH; [|exact He]. intros e' He'. apply H. now right.
Qed.

Lemma group_size_In (k : Z) (n : nat) (counts : list (Z * nat)) :
  NoDup (map fst counts) -> In (k, n) counts -> group_size k counts = n.
Proof.
  induction counts as [|[k2 n2] rest IH]; simpl; intros Hnd Hin; [contradiction|].
  inversion Hnd as [|? ? Hnot Hrest]; subst.
  destruct Hin as [Heq|Hin].
  - inversion Heq; subst. now rewrite Z.eqb_refl.
  - destruct (Z.eqb_spec k k2) as [->|Hne]; [|now apply IH].
    exfalso. apply Hnot. apply in_map_iff. exists (k2, n). auto.
Qed.

Lemma group_size_positive (k : Z) (counts : list (Z * nat)) :
  0 < group_size k counts -> In (k, group_size k counts) counts.
Proof.
  induction counts as [|[k2 n2] rest IH]; simpl; intros H; [lia|].
  destruct (Z.eqb_spec k k2) as [->|Hne]; [now left|right; now apply IH].
Qed.

Lemma fold_bump (l : list Z) :
  forall counts,
    NoDup (map fst counts) ->
    (forall e, In e counts -> 0 < snd e) ->
    let counts' := fold_left (fun counts k => bump k counts) l counts in
    NoDup (map fst counts')
    /\ (forall e, In e counts' -> 0 < snd e)
    /\ (forall k, group_size k counts'
                  = group_size k counts + count_occ Z.eq_dec l k).
Proof.
  induction l as [|x l IH]; intros counts Hnd Hpos; simpl.
  - repeat split; auto.
  - destruct (IH (bump x counts) (bump_NoDup x counts Hnd)
                 (bump_positive x counts Hpos)) as [H1 [H2 H3]].
    repeat split; auto.
    intros k. rewrite H3, bump_group_size.
    destruct (Z.eq_dec x k) as [->|Hne].
    + rewrite Z.eqb_refl. lia.
    + destruct (Z.eqb_spec k x); [congruence|lia].
Qed.

(** The entries of the first pass of [value_counts]: each distinct value
    once, with the number of its occurrences. *)
Lemma count_first_seen_spec (l : list Z) (k : Z) (n : nat) :
  In (k, n) (count_first_seen l) <-> n = count_occ Z.eq_dec l k /\ 0 < n.
Proof.
  destruct (fold_bump l [] (NoDup_nil _) (fun e (H : In e []) => match H with end))
    as [Hnd [Hpos Hsize]].
  fold (count_first_seen l) in Hnd, Hpos, Hsize. simpl in Hsize.
  split.
  - intros Hin. split.
    + rewrite <- Hsize. symmetry. now apply group_size_In.
    + apply (Hpos (k, n) Hin).
  - intros [-> Hn]. rewrite <- Hsize in *. now apply group_size_positive.
Qed.

Lemma count_first_seen_nonempty (l : list Z) :
  l <> [] -> count_first_seen l <> [].
Proof.
  destruct l as [|x l]; [contradiction|]. intros _ Hnil.
  assert (Hin : In (x, count_occ Z.eq_dec (x :: l) x) (count_first_seen (x :: l))).
  { apply count_first_seen_spec. split; [reflexivity|].
    simpl. destruct (Z.eq_dec x x); [lia|contradiction]. }
  rewrite Hnil in Hin. contradiction.
Qed.

Lemma fold_max_spec (l : list nat) :
  forall a, let m := fold_left Nat.max l a in
    a <= m /\ (forall c, In c l -> c <= m) /\ (m = a \/ In m l).
Proof.
  induction l as [|x l IH]; intros a; simpl.
  - repeat split; auto. intros c [].
  - destruct (IH (Nat.max a x)) as [H1 [H2 H3]].
    repeat split.
    + lia.
    + intros c [<-|Hc]; [lia|now apply H2].
    + destruct H3 as [H3|H3]; [|now right; right].
      destruct (Nat.max_spec a x) as [[_ E]|[_ E]]; rewrite H3, E.
      * right. left. reflexivity.
      * left. reflexivity.
Qed.

(** ** [analyze_data] *)

Lemma positions_from (lab : nat) (labels : list nat) :
  forall s p, NoDup labels -> nth_error labels p = Some lab ->
    map fst (filter (fun pl => Nat.eqb (snd pl) lab)
                    (combine (seq s (List.length labels)) labels))
    = [s + p].
Proof.
  induction labels as [|x labels IH]; intros s p Hnd Hp.
  - destruct p; discriminate.
  - inversion Hnd as [|? ? Hnot Hrest]; subst. simpl.
    destruct p as [|p]; simpl in Hp.
    + inversion Hp; subst. rewrite Nat.eqb_refl. simpl.
      rewrite Nat.add_0_r. f_equal.
      assert (Hnone : forall s', filter (fun pl => Nat.eqb (snd pl) lab)
                                   (combine (seq s' (List.length labels)) labels) = []).
      { intros s'. clear IH Hnd Hrest.
        revert s'. induction labels as [|y labels IHl]; intros s'; simpl; [reflexivity|].
        destruct (Nat.eqb_spec y lab) as [->|Hne].
        - exfalso. apply Hnot. now left.
        - apply IHl. intros H. apply Hnot. now right. }
      now rewrite Hnone.
    + destruct (Nat.eqb_spec x lab) as [->|Hne].
      * exfalso. apply Hnot. eapply nth_error_In. exact Hp.
      * rewrite (IH (S s) p Hrest Hp). f_equal. lia.
Qed.

Lemma positions_of_unique (lab : nat) (labels : list nat) (p : nat) :
  NoDup labels -> nth_error labels p = Some lab ->
  positions_of lab labels = [p].
Proof.
  intros Hnd Hp. unfold positions_of. now rewrite (positions_from lab labels 0 p).
Qed.

Lemma row_at_get (df : DataFrame) (p : nat) (k : string) :
  assoc k (row_at df p)
  = option_map (fun c => nth p (col_values c) VNone) (assoc k (columns df)).
Proof.
  unfold row_at.
  apply (assoc_map_snd (fun c => nth p (col_values c) VNone)).
Qed.

Lemma no_nan_skipna (mass : list float) :
  (forall f, In f mass -> is_nan f = false) -> map nan_to_neg_inf mass = mass.
Proof.
  intros H. rewrite <- (map_id mass) at 2. apply map_ext_in.
  intros f Hf. specialize (H f Hf). now destruct f.
Qed.

Lemma no_nan_not_all (mass : list float) :
  mass <> [] -> (forall f, In f mass -> is_nan f = false) ->
  forallb is_nan mass = false.
Proof.
  destruct mass as [|f mass]; [contradiction|]. intros _ H. simpl.
  now rewrite (H f (or_introl eq_refl)).
Qed.

Lemma nonempty_length {A : Type} (l : list A) : 0 < List.length l -> l <> [].
Proof. destruct l; simpl; [lia|discriminate]. Qed.

(** The run of [analyze_data] on a non-empty cleaned table that has a
    [name] column, written out: [p] is what [argmax] finds on the masses
    and [pos] what it finds on the sorted group sizes. *)
Lemma analyze_data_run (df : DataFrame) (mass : list float) (year : list Z)
    (names : column) (out : list event) :
  (forall l, Permutation (sort_values_desc l) l) ->
  cleaned_table df mass year ->
  index df <> [] ->
  assoc "name" (columns df) = Some names ->
  let counts := sort_values_desc (count_first_seen year) in
  exists p pos k c,
    argmax SFltb mass = Some p
    /\ p < List.length mass
    /\ argmax Nat.ltb (map snd counts) = Some pos
    /\ nth_error counts pos = Some (k, c)
    /\ analyze_data df out
       = (Ok (mk_results (List.length (index df))
                         (nth p (col_values names) VNone)
                         (VFloat (nth p mass nan))
                         k (counts_max counts)),
          out).
Proof.
  intros Hsort [Hnd [Hmass [Hyear [Hlm [Hly Hnan]]]]] Hne Hname counts.
  assert (Hmne : mass <> []).
  { apply nonempty_length. rewrite Hlm. destruct (index df); [contradiction|simpl; lia]. }
  assert (Hyne : year <> []).
  { apply nonempty_length. rewrite Hly. destruct (index df); [contradiction|simpl; lia]. }
  destruct (argmax_spec SFltb (fun f => is_nan f = false) SFltb_irrefl SFltb_trans
              SFltb_negtrans nan mass Hmne Hnan) as [p [Hp [Hplt _]]].
  assert (Hplt' : p < List.length (index df)) by (rewrite <- Hlm; exact Hplt).
  assert (Hcne : map snd counts <> []).
  { intros Hnil. apply map_eq_nil in Hnil.
    apply (count_first_seen_nonempty year Hyne).
    apply Permutation_nil. rewrite <- Hnil. unfold counts. apply Hsort. }
  destruct (argmax_spec Nat.ltb (fun _ => True)) with (d := 0) (l := map snd counts)
    as [pos [Hpos [Hposlt _]]]; auto.
  { intros a. apply Nat.ltb_irrefl. }
  { intros a b c. rewrite !Nat.ltb_lt. lia. }
  { intros a b c _ _ _. rewrite !Nat.ltb_ge. lia. }
  rewrite length_map in Hposlt.
  destruct (nth_error counts pos) as [[k c]|] eqn:Hkc;
    [|apply nth_error_None in Hkc; exfalso; lia].
  destruct (nth_error (index df) p) as [lab|] eqn:Hlab;
    [|apply nth_error_None in Hlab; exfalso; lia].
  exists p, pos, k, c. repeat split; auto.
  unfold analyze_data.
  rewrite (run_bind _ _ _ _ _ (getitem_some _ _ _ _ Hmass)).
  assert (Hidx : idxmax (index df) (FloatCol mass) out = (Ok lab, out)).
  { unfold idxmax. rewrite (no_nan_not_all mass Hmne Hnan).
    rewrite (no_nan_skipna mass Hnan), Hp. unfold label_at. now rewrite Hlab. }
  rewrite (run_bind _ _ _ _ _ Hidx).
  assert (Hloc : loc df lab out = (Ok (row_at df p), out)).
  { unfold loc. now rewrite (positions_of_unique lab (index df) p Hnd Hlab). }
  rewrite (run_bind _ _ _ _ _ Hloc).
  assert (Hrn : row_get (row_at df p) "name" out
                = (Ok (nth p (col_values names) VNone), out)).
  { unfold row_get. now rewrite row_at_get, Hname. }
  rewrite (run_bind _ _ _ _ _ Hrn).
  assert (Hrm : row_get (row_at df p) "mass" out
                = (Ok (VFloat (nth p mass nan)), out)).
  { unfold row_get. rewrite row_at_get, Hmass. simpl.
    rewrite (nth_indep _ VNone (VFloat nan)) by (now rewrite length_map).
    now rewrite (map_nth VFloat). }
  rewrite (run_bind _ _ _ _ _ Hrm).
  rewrite (run_bind _ _ _ _ _ (getitem_some _ _ _ _ Hyear)).
  assert (Hvc : value_counts (IntCol year) out = (Ok counts, out)) by reflexivity.
  rewrite (run_bind _ _ _ _ _ Hvc).
  assert (Hci : counts_idxmax counts out = (Ok k, out)).
  { unfold counts_idxmax. now rewrite Hpos, Hkc. }
  rewrite (run_bind _ _ _ _ _ Hci).
  rewrite (run_bind _ _ _ _ _ (getitem_some _ _ _ _ Hyear)).
  rewrite (run_bind _ _ _ _ _ Hvc).
  reflexivity.
Qed.

Lemma SFleb_of_not_ltb (a b : float) :
  is_nan a = false -> is_nan b = false -> SFltb a b = false -> SFleb b a = true.
Proof.
  destruct a, b; simpl; try discriminate; intros _ _; unfold SFleb; float_order.
Qed.

(** C3.  On a non-empty cleaned table with a [name] column, [analyze_data]
    returns (given that sorting the group sizes only permutes them) the
    name and the mass of the row at position [p], where the mass at [p] is
    a maximum of the [mass] column and every row before [p] has a strictly
    smaller mass: among rows sharing the maximum, the first in table order
    is chosen. *)
Theorem analyze_data_most_massive (df : DataFrame) (mass : list float)
    (year : list Z) (names : column) (out : list event) :
  (forall l, Permutation (sort_values_desc l) l) ->
  cleaned_table df mass year ->
  index df <> [] ->
  assoc "name" (columns df) = Some names ->
  exists res p,
    analyze_data df out = (Ok res, out)
    /\ p < List.length mass
    /\ (forall j, j < List.length mass ->
          SFleb (nth j mass nan) (nth p mass nan) = true)
    /\ (forall j, j < p -> SFltb (nth j mass nan) (nth p mass nan) = true)
    /\ most_massive_name res = nth p (col_values names) VNone
    /\ most_massive_mass res = VFloat (nth p mass nan).
Proof.
  intros Hsort Hct Hne Hname.
  destruct (analyze_data_run df mass year names out Hsort Hct Hne Hname)
    as [p [pos [k [c [Hp [Hplt [_ [_ Hrun]]]]]]]].
  destruct Hct as [_ [_ [_ [_ [_ Hnan]]]]].
  assert (Hmne : mass <> []) by (apply nonempty_length; lia).
  destruct (argmax_spec SFltb (fun f => is_nan f = false) SFltb_irrefl SFltb_trans
              SFltb_negtrans nan mass Hmne Hnan) as [p' [Hp' [_ [Hmax Hfirst]]]].
  assert (p' = p) by congruence. subst p'.
  eexists. exists p. split; [exact Hrun|]. simpl.
  repeat split; auto.
  intros j Hj. apply SFleb_of_not_ltb.
  - apply Hnan. now apply nth_In.
  - apply Hnan. now apply nth_In.
  - now apply Hmax.
Qed.

(** C4, as the code has it.  On a non-empty cleaned table with a [name]
    column, and given that sorting the group sizes only permutes them,
    [analyze_data] returns as [most_frequent_year] a year of the table and
    as [most_frequent_count] the number of rows with that year, and no
    year has more rows.  Among years sharing the largest group size the
    one returned is the one that the library's sort of the group sizes
    puts first: every entry before it in the sorted counts is strictly
    smaller. *)
Theorem analyze_data_most_frequent (df : DataFrame) (mass : list float)
    (year : list Z) (names : column) (out : list event) :
  (forall l, Permutation (sort_values_desc l) l) ->
  cleaned_table df mass year ->
  index df <> [] ->
  assoc "name" (columns df) = Some names ->
  exists res pos,
    analyze_data df out = (Ok res, out)
    /\ In (most_frequent_year res) year
    /\ most_frequent_count res
       = count_occ Z.eq_dec year (most_frequent_year res)
    /\ (forall y, count_occ Z.eq_dec year y <= most_frequent_count res)
    /\ nth_error (sort_values_desc (count_first_seen year)) pos
       = Some (most_frequent_year res, most_frequent_count res)
    /\ (forall j e, j < pos ->
          nth_error (sort_values_desc (count_first_seen year)) j = Some e ->
          snd e < most_frequent_count res).
Proof.
  intros Hsort Hct Hne Hname.
  destruct (analyze_data_run df mass year names out Hsort Hct Hne Hname)
    as [p [pos [k [c [_ [_ [Hpos [Hkc Hrun]]]]]]]].
  set (counts := sort_values_desc (count_first_seen year)) in *.
  assert (Hcne : map snd counts <> []).
  { intros Hnil. apply map_eq_nil in Hnil. rewrite Hnil in Hkc.
    destruct pos; discriminate. }
  destruct (argmax_spec Nat.ltb (fun _ => True)) with (d := 0) (l := map snd counts)
    as [pos' [Hpos' [Hposlt [Hmax Hfirst]]]]; auto.
  { intros a. apply Nat.ltb_irrefl. }
  { intros a b c0. rewrite !Nat.ltb_lt. lia. }
  { intros a b c0 _ _ _. rewrite !Nat.ltb_ge. lia. }
  assert (pos' = pos) by congruence. subst pos'.
  assert (Hnth : forall j e, nth_error counts j = Some e ->
                             nth j (map snd counts) 0 = snd e).
  { intros j e He. apply nth_error_nth. now rewrite nth_error_map, He. }
  assert (Hc : nth pos (map snd counts) 0 = c) by (apply (Hnth pos (k, c) Hkc)).
  rewrite Hc in Hmax, Hfirst.
  assert (Hle : forall e, In e counts -> snd e <= c).
  { intros e He. apply In_nth_error in He. destruct He as [j Hj].
    assert (Hjlt : j < List.length (map snd counts)).
    { rewrite length_map. apply nth_error_Some. congruence. }
    specialize (Hmax j Hjlt). rewrite (Hnth j e Hj) in Hmax.
    apply Nat.ltb_ge in Hmax. exact Hmax. }
  assert (Hin : In (k, c) counts) by (eapply nth_error_In; exact Hkc).
  assert (Hm : counts_max counts = c).
  { unfold counts_max.
    destruct (fold_max_spec (map snd counts) 0) as [_ [Hall Hsome]].
    assert (H1 : c <= fold_left Nat.max (map snd counts) 0).
    { apply Hall. apply in_map_iff. exists (k, c). auto. }
    destruct Hsome as [H0|Hmem]; [lia|].
    apply in_map_iff in Hmem. destruct Hmem as [e [He1 He2]].
    specialize (Hle e He2). lia. }
  assert (Hspec : c = count_occ Z.eq_dec year k /\ 0 < c).
  { apply count_first_seen_spec. apply (Permutation_in _ (Hsort _)). exact Hin. }
  eexists. exists pos. split; [exact Hrun|]. simpl. rewrite Hm.
  destruct Hspec as [Hc1 Hc2].
  split; [|split; [|split; [|split]]].
  - apply (count_occ_In Z.eq_dec). lia.
  - exact Hc1.
  - intros y. destruct (Nat.eq_dec (count_occ Z.eq_dec year y) 0) as [->|Hnz]; [lia|].
    apply (Hle (y, count_occ Z.eq_dec year y)).
    apply (Permutation_in _ (Permutation_sym (Hsort _))).
    apply count_first_seen_spec. split; [reflexivity|lia].
  - exact Hkc.
  - intros j e Hj He. specialize (Hfirst j Hj). rewrite (Hnth j e He) in Hfirst.
    now apply Nat.ltb_lt in Hfirst.
Qed.

(** ** The stable sort *)

Lemma insert_by_perm (before : nat -> nat -> bool) (x : Z * nat) (l : list (Z * nat)) :
  Permutation (insert_by before x l) (x :: l).
Proof.
  induction l as [|y l IH]; simpl; [reflexivity|].
  destruct (before (snd x) (snd y)); [reflexivity|].
  rewrite IH. apply perm_swap.
Qed.

Lemma sort_by_perm (before : nat -> nat -> bool) (l : list (Z * nat)) :
  Permutation (sort_by before l) l.
Proof.
  induction l as [|x l IH]; simpl; [reflexivity|].
  rewrite insert_by_perm. now constructor.
Qed.

Lemma insert_by_sorted (before : nat -> nat -> bool) (x : Z * nat) (l : list (Z * nat)) :
  (forall cx cy, before cx cy = true -> cy <= cx) ->
  (forall cx cy, before cx cy = false -> cx <= cy) ->
  StronglySorted (fun a b => snd b <= snd a) l ->
  StronglySorted (fun a b => snd b <= snd a) (insert_by before x l).
Proof.
  intros Ht Hf. induction l as [|y l IH]; intros Hs; simpl.
  - constructor; [constructor|constructor].
  - inversion Hs as [|? ? Hs' Hall]; subst.
    destruct (before (snd x) (snd y)) eqn:E.
    + constructor; [exact Hs|]. apply Ht in E.
      constructor; [exact E|].
      eapply Forall_impl; [|exact Hall]. simpl. intros a Ha. lia.
    + constructor; [now apply IH|]. apply Hf in E.
      apply (Permutation_Forall (Permutation_sym (insert_by_perm before x l))).
      constructor; assumption.
Qed.

Lemma sort_by_sorted (before : nat -> nat -> bool) (l : list (Z * nat)) :
  (forall cx cy, before cx cy = true -> cy <= cx) ->
  (forall cx cy, before cx cy = false -> cx <= cy) ->
  StronglySorted (fun a b => snd b <= snd a) (sort_by before l).
Proof.
  intros Ht Hf. induction l as [|x l IH]; simpl; [constructor|].
  now apply insert_by_sorted.
Qed.

Lemma sorted_descending (l : list (Z * nat)) :
  StronglySorted (fun a b => snd b <= snd a) l -> descending l.
Proof.
  induction 1 as [|x l Hs IH Hall]; intros i j a b Hij Ha Hb.
  - destruct i; discriminate.
  - destruct j as [|j]; [lia|]. simpl in Hb.
    destruct i as [|i]; simpl in Ha.
    + inversion Ha; subst. rewrite Forall_forall in Hall.
      apply Hall. eapply nth_error_In. exact Hb.
    + apply (IH i j a b); [lia|assumption|assumption].
Qed.

Lemma stable_sort_desc_perm (l : list (Z * nat)) :
  Permutation (stable_sort_desc l) l.
Proof. apply sort_by_perm. Qed.

Lemma stable_sort_desc_descending (l : list (Z * nat)) :
  descending (stable_sort_desc l).
Proof.
  apply sorted_descending, sort_by_sorted.
  - intros cx cy H. now apply Nat.leb_le in H.
  - intros cx cy H. apply Nat.leb_gt in H. lia.
Qed.

(** ** What [clean_data] hands on is a cleaned table *)

Lemma clean_data_cleaned_table (data : list record) (out : list event) :
  has_column "mass" (pd_DataFrame data) = true ->
  has_column "year" (pd_DataFrame data) = true ->
  exists df mass year,
    clean_data data out = (Ok df, out) /\ cleaned_table df mass year.
Proof.
  intros Hm Hy.
  set (rows := seq 0 (List.length data)).
  set (kept := filter (survives data) rows).
  eexists. exists (map (coerced_mass data) kept), (map (year_of_row data) kept).
  split; [apply (clean_data_run data out Hm Hy)|].
  unfold cleaned_table. cbn [index columns]. fold rows. fold kept.
  split; [|split; [|split; [|split; [|split]]]].
  - apply NoDup_filter, seq_NoDup.
  - rewrite assoc_set_other by discriminate.
    rewrite assoc_map_snd, assoc_set_other by discriminate.
    rewrite assoc_set_same. simpl. now rewrite take_mask_map_filter.
  - apply assoc_set_same.
  - apply length_map.
  - apply length_map.
  - intros f Hf. apply in_map_iff in Hf. destruct Hf as [i [<- Hi]].
    apply filter_In in Hi. destruct Hi as [_ Hs]. unfold survives in Hs.
    apply andb_prop in Hs. destruct Hs as [Hs _]. now apply negb_true_iff in Hs.
Qed.

(** ** [fetch_data] *)

(** C5, as the code has it.  When [requests.get] raises a
    [RequestException] [e] (a transport error), or the response carries a
    4xx or 5xx status, for which [raise_for_status] raises the [HTTPError]
    [e] of that status, [fetch_data] prints one line, "Error fetching
    data: " followed by that very [e], and returns the empty list; nothing
    is raised to the caller.  Statuses outside 400..599 are no failure for
    the code. *)
Theorem fetch_data_soft_fail (url : string) (e : exn) (out : list event) :
  (requests_get url = GetRaises e /\ is_RequestException e = true)
  \/ (exists r, requests_get url = GetReturns r
                /\ (400 <= status_code r < 600)%Z
                /\ e = HTTPError (status_code r)) ->
  fetch_data url out
  = (Ok (VList []), out ++ [Print [Str "Error fetching data: "; FExn e]]).
Proof.
  intros [[Hget He]|[r [Hget [Hs ->]]]].
  - unfold fetch_data, try_except, bind, get. rewrite Hget.
    unfold raise. now rewrite He.
  - unfold fetch_data, try_except, bind, get, raise_for_status. rewrite Hget.
    assert (Hb : ((400 <=? status_code r) && (status_code r <? 600))%Z = true).
    { apply andb_true_iff. split; [apply Z.leb_le|apply Z.ltb_lt]; lia. }
    unfold ret at 1. rewrite Hb. reflexivity.
Qed.

Lemma not_error_status (r : response) :
  (status_code r < 400 \/ 600 <= status_code r)%Z ->
  ((400 <=? status_code r) && (status_code r <? 600))%Z = false.
Proof.
  intros Hs. apply andb_false_iff.
  destruct Hs; [left; apply Z.leb_gt|right; apply Z.ltb_ge]; lia.
Qed.

(** A status below 400 is no failure for [raise_for_status]: the body is
    decoded and returned. *)
Lemma fetch_data_success (url : string) (r : response) (v : value)
    (out : list event) :
  requests_get url = GetReturns r ->
  (status_code r < 400 \/ 600 <= status_code r)%Z ->
  json_loads (text r) = Decoded v ->
  fetch_data url out = (Ok v, out).
Proof.
  intros Hget Hs Hj.
  unfold fetch_data, try_except, bind, get, raise_for_status, response_json.
  rewrite Hget. unfold ret at 1.
  rewrite (not_error_status r Hs), Hj. reflexivity.
Qed.

(** C10, as the code has it.  When the request succeeds but the body is
    not valid JSON, [response.json()] raises
    [requests.exceptions.JSONDecodeError]; that class is a
    [RequestException], so the handler of [fetch_data] catches it: the
    error is printed and the empty list is returned. *)
Theorem fetch_data_invalid_json (url : string) (r : response)
    (out : list event) :
  requests_get url = GetReturns r ->
  (status_code r < 400 \/ 600 <= status_code r)%Z ->
  json_loads (text r) = NotJSON ->
  fetch_data url out
  = (Ok (VList []),
     out ++ [Print [Str "Error fetching data: ";
                    FExn (JSONDecodeError "Expecting value")]]).
Proof.
  intros Hget Hs Hj.
  unfold fetch_data, try_except, bind, get, raise_for_status, response_json.
  rewrite Hget. unfold ret at 1.
  rewrite (not_error_status r Hs), Hj. reflexivity.
Qed.

(** An exception of the decoder that is no [RequestException] is not
    caught: it leaves [fetch_data], and nothing is printed. *)
Lemma fetch_data_decoder_failure (url : string) (r : response) (e : exn)
    (out : list event) :
  requests_get url = GetReturns r ->
  (status_code r < 400 \/ 600 <= status_code r)%Z ->
  json_loads (text r) = DecoderRaises e ->
  is_RequestException e = false ->
  fetch_data url out = (Raised e, out).
Proof.
  intros Hget Hs Hj He.
  unfold fetch_data, try_except, bind, get, raise_for_status, response_json.
  rewrite Hget. unfold ret at 1.
  rewrite (not_error_status r Hs). unfold ret at 1. rewrite Hj.
  unfold raise. now rewrite He.
Qed.

(** Only an exception outside [RequestException] leaves [fetch_data]. *)
Lemma fetch_data_raises_only_foreign (url : string) (e : exn)
    (out out' : list event) :
  fetch_data url out = (Raised e, out') -> is_RequestException e = false.
Proof.
  unfold fetch_data, try_except, bind, get, raise_for_status, response_json.
  destruct (requests_get url) as [e0|r].
  - unfold raise. destruct (is_RequestException e0) eqn:E.
    + unfold print, emit, ret. discriminate.
    + intros H. inversion H; subst. exact E.
  - unfold ret at 1.
    destruct ((400 <=? status_code r) && (status_code r <? 600))%Z.
    + unfold raise. simpl. unfold print, emit, ret. discriminate.
    + unfold ret at 1. destruct (json_loads (text r)) as [v0| |e0].
      * unfold ret. discriminate.
      * unfold raise. simpl. unfold print, emit, ret. discriminate.
      * unfold raise. destruct (is_RequestException e0) eqn:E.
        -- unfold print, emit, ret. discriminate.
        -- intros H. inversion H; subst. exact E.
Qed.

(** [fetch_data] adds nothing but console lines to the trace. *)
Lemma fetch_data_prints (url : string) (res : result value)
    (out out' : list event) :
  fetch_data url out = (res, out') ->
  exists msgs, out' = out ++ msgs /\ forallb is_print msgs = true.
Proof.
  unfold fetch_data, try_except, bind, get, raise_for_status, response_json.
  destruct (requests_get url) as [e0|r].
  - unfold raise. destruct (is_RequestException e0).
    + unfold print, emit, ret. intros H. inversion H. eexists. split; reflexivity.
    + intros H. inversion H. exists []. now rewrite app_nil_r.
  - unfold ret at 1.
    destruct ((400 <=? status_code r) && (status_code r <? 600))%Z.
    + unfold raise. simpl. unfold print, emit, ret. intros H. inversion H.
      eexists. split; reflexivity.
    + unfold ret at 1. destruct (json_loads (text r)) as [v0| |e0].
      * unfold ret. intros H. inversion H. exists []. now rewrite app_nil_r.
      * unfold raise. simpl. unfold print, emit, ret. intros H. inversion H.
        eexists. split; reflexivity.
      * unfold raise. destruct (is_RequestException e0).
        -- unfold print, emit, ret. intros H. inversion H.
           eexists. split; reflexivity.
        -- intros H. inversion H. exists []. now rewrite app_nil_r.
Qed.

(** So does [clean_data]. *)
Lemma clean_data_prints (data : list record) (res : result DataFrame)
    (out out' : list event) :
  clean_data data out = (res, out') ->
  exists msgs, out' = out ++ msgs /\ forallb is_print msgs = true.
Proof.
  destruct (has_column "mass" (pd_DataFrame data)) eqn:Hm;
    [destruct (has_column "year" (pd_DataFrame data)) eqn:Hy|].
  - rewrite (clean_data_run data out Hm Hy). intros H. inversion H.
    exists []. now rewrite app_nil_r.
  - rewrite (clean_data_abort data out (or_intror Hy)). intros H. inversion H.
    eexists. split; reflexivity.
  - rewrite (clean_data_abort data out (or_introl Hm)). intros H. inversion H.
    eexists. split; reflexivity.
Qed.

(** ** The orchestrator *)

(** C6.  When [fetch_data] returns an empty list (or any falsy value), the
    run prints "No data was fetched. Exiting." and stops; when the fetched
    records clean to an empty frame, it prints "The dataset is empty after
    cleaning. Exiting." and stops.  In both cases the run ends normally,
    everything it added to the trace is a console line, so no figure is
    plotted or saved, and the outcome is the same whatever the analysis
    and plotting stages are: neither of them is called. *)
Theorem pipeline_early_exit (analyze : DataFrame -> M results)
    (visualize : DataFrame -> M unit) (out out1 : list event) (raw : value) :
  fetch_data DATA_URL (out ++ [Print [Str "Fetching data..."]]) = (Ok raw, out1) ->
  (truthy raw = false ->
     exists msgs,
       pipeline_with analyze visualize out
       = (Ok tt, out ++ msgs ++ [Print [Str "No data was fetched. Exiting."]])
       /\ forallb is_print msgs = true)
  /\ (forall l data df out2,
        raw = VList l ->
        truthy raw = true ->
        dicts l = Some data ->
        clean_data data (out1 ++ [Print [Str "Cleaning data..."]]) = (Ok df, out2) ->
        df_empty df = true ->
        exists msgs,
          pipeline_with analyze visualize out
          = (Ok tt,
             out ++ msgs ++ [Print [Str "The dataset is empty after cleaning. Exiting."]])
          /\ forallb is_print msgs = true).
Proof.
  intros Hfetch.
  destruct (fetch_data_prints _ _ _ _ Hfetch) as [m1 [Hm1 Hp1]].
  assert (Hstart :
             pipeline_with analyze visualize out
             = (if negb (truthy raw) then print [Str "No data was fetched. Exiting."]
                else
                  print [Str "Cleaning data..."] ;;;
                  data <- as_records raw ;;
                  df <- clean_data data ;;
                  if df_empty df then
                    print [Str "The dataset is empty after cleaning. Exiting."]
                  else
                    print [Str "Analyzing data..."] ;;;
                    results <- analyze df ;;
                    print [Str (String "010" "Results:")] ;;;
                    print [Str "Total Entries: "; FNat (total_entries results)] ;;;
                    print [Str "Most Massive Meteorite: ";
                           FVal (most_massive_name results);
                           Str " ("; FVal (most_massive_mass results);
                           Str " grams)"] ;;;
                    print [Str "Most Frequent Year: ";
                           FInt (most_frequent_year results);
                           Str " ("; FNat (most_frequent_count results);
                           Str " occurrences)"] ;;;
                    print [Str (String "010" "Creating visualizations...")] ;;;
                    visualize df) out1).
  { unfold pipeline_with. unfold bind at 1. unfold print at 1, emit at 1.
    unfold bind at 1. rewrite Hfetch. reflexivity. }
  rewrite Hstart. clear Hstart.
  split.
  - intros Hfalsy. rewrite Hfalsy. change (negb false) with true. cbv iota.
    exists ([Print [Str "Fetching data..."]] ++ m1). split.
    + unfold print, emit. rewrite Hm1. now rewrite <- !app_assoc.
    + simpl. exact Hp1.
  - intros l data df out2 Hraw Htruthy Hd Hclean Hempty.
    rewrite Htruthy. change (negb true) with false. cbv iota.
    destruct (clean_data_prints _ _ _ _ Hclean) as [m2 [Hm2 Hp2]].
    exists ([Print [Str "Fetching data..."]] ++ m1
            ++ [Print [Str "Cleaning data..."]] ++ m2).
    split.
    + unfold bind at 1. unfold print at 1, emit at 1.
      unfold bind at 1. unfold as_records. rewrite Hraw, Hd. unfold ret at 1.
      unfold bind at 1. rewrite Hclean, Hempty.
      unfold print, emit. rewrite Hm2, Hm1. now rewrite <- !app_assoc.
    + simpl. rewrite forallb_app, Hp1. simpl. exact Hp2.
Qed.

(** ** [visualize_data] *)

(** The calls [visualize_data] makes on a frame with a float [mass]
    column and an integer [year] column, in order. *)
Lemma visualize_data_run (df : DataFrame) (mass : list float) (year : list Z)
    (out : list event) :
  assoc "mass" (columns df) = Some (FloatCol mass) ->
  assoc "year" (columns df) = Some (IntCol year) ->
  let filtered := filter (fun m => SFleb m mass_cutoff) mass in
  let years := sorted (unique year) in
  let ticks := range_step (List.length years) 5 in
  visualize_data df out
  = (Ok tt,
     out ++
     [Figure 12 6;
      Countplot year years;
      Xticks ticks (map (fun i => nth i years 0%Z) ticks);
      Title "Meteorite Counts Per Year";
      Xlabel "Year";
      Ylabel "Count";
      TightLayout;
      Savefig "meteorite_counts_per_year.png";
      Figure 12 6;
      Histplot filtered 100;
      Axvline (mean filtered) [Str "Mean: "; FFixed2 (mean filtered); Str "g"];
      Axvline (median filtered)
              [Str "Median: "; FFixed2 (median filtered); Str "g"];
      Legend;
      Xscale "log";
      Title "Log-Scaled Distribution of Meteorite Masses (Filtered)";
      Xlabel "Mass (log scale)";
      Ylabel "Frequency";
      TightLayout;
      Savefig "meteorite_mass_distribution.png";
      Figure 12 6;
      Scatterplot year mass;
      Title "Meteorite Mass vs. Year";
      Xlabel "Year";
      Ylabel "Mass (grams)";
      Yscale "log";
      TightLayout;
      Savefig "meteorite_scatter_mass_vs_year.png"]).
Proof.
  intros Hmass Hyear filtered years ticks.
  assert (Hf : assoc "mass"
                 (columns (df_take (map (fun m => SFleb m mass_cutoff) mass) df))
               = Some (FloatCol filtered)).
  { unfold df_take. cbn [columns]. rewrite assoc_map_snd, Hmass. simpl.
    now rewrite take_mask_filter. }
  unfold visualize_data, bind, emit, getitem, as_int_col, as_float_col, ret.
  rewrite Hyear, Hmass, Hf.
  repeat rewrite <- app_assoc. reflexivity.
Qed.

Lemma over_cutoff_200000 : SFleb (float_of_Z 200000) mass_cutoff = false.
Proof. reflexivity. Qed.

(** C7.  On every cleaned table the histogram is drawn from, and its mean
    and median lines are computed on, exactly the masses that are at most
    100000, while the scatter plot gets the year and mass of every row.
    A row whose mass exceeds 100000, such as 200000, is therefore among
    the points of the scatter plot but not among the values behind the
    histogram, its mean and its median. *)
Theorem visualize_data_histogram_filter (df : DataFrame) (mass : list float)
    (year : list Z) (out : list event) :
  cleaned_table df mass year ->
  let filtered := filter (fun m => SFleb m mass_cutoff) mass in
  exists tr,
    visualize_data df out = (Ok tt, out ++ tr)
    /\ (forall x bins, In (Histplot x bins) tr <-> x = filtered /\ bins = 100)
    /\ (forall x label, In (Axvline x label) tr <->
          (x = mean filtered
           /\ label = [Str "Mean: "; FFixed2 (mean filtered); Str "g"])
          \/ (x = median filtered
              /\ label = [Str "Median: "; FFixed2 (median filtered); Str "g"]))
    /\ (forall x y, In (Scatterplot x y) tr <-> x = year /\ y = mass)
    /\ (forall m, In m filtered <-> In m mass /\ SFleb m mass_cutoff = true)
    /\ (forall m, In m mass -> SFleb m mass_cutoff = false -> ~ In m filtered)
    /\ SFleb (float_of_Z 200000) mass_cutoff = false.
Proof.
  intros [_ [Hmass [Hyear _]]] filtered.
  eexists. split; [apply (visualize_data_run df mass year out Hmass Hyear)|].
  fold filtered.
  split; [|split; [|split; [|split; [|split]]]].
  - intros x bins. split.
    + intros H. simpl in H.
      repeat (destruct H as [H|H]; [try discriminate|]);
        try contradiction; inversion H; auto.
    + intros [-> ->]. simpl. tauto.
  - intros x label. split.
    + intros H. simpl in H.
      repeat (destruct H as [H|H]; [try discriminate|]);
        try contradiction; inversion H; auto.
    + intros [[-> ->]|[-> ->]]; simpl; tauto.
  - intros x y. split.
    + intros H. simpl in H.
      repeat (destruct H as [H|H]; [try discriminate|]);
        try contradiction; inversion H; auto.
    + intros [-> ->]. simpl. tauto.
  - intros m. unfold filtered.
    apply (filter_In (fun m => SFleb m mass_cutoff)).
  - intros m _ Hover Hin. unfold filtered in Hin.
    apply (filter_In (fun m => SFleb m mass_cutoff)) in Hin.
    destruct Hin as [_ Hin]. congruence.
  - exact over_cutoff_200000.
Qed.

(** * Further properties of the script *)

(** Proofs about plain list functions start by setting the library
    routines aside. *)
Ltac set_libraries_aside :=
  try clear mean; try clear median; try clear json_loads;
  try clear requests_get; try clear sort_values_desc;
  try clear parse_datetime_at; try clear to_numeric_at.


(** ** [fetch_data], case by case *)

(** X1.  An exception leaves [fetch_data] only if it is no
    [RequestException] and it was raised either by [requests.get] itself
    or, on a response whose status is no error status, by the JSON decoder
    inside [response.json()] (a [RecursionError], say); nothing is printed
    on the way.  [raise_for_status] cannot make [fetch_data] raise, and a
    body that merely is not JSON cannot either. *)
Theorem fetch_data_raised_inv (url : string) (e : exn) (out out' : list event) :
  fetch_data url out = (Raised e, out') ->
  is_RequestException e = false
  /\ out' = out
  /\ (requests_get url = GetRaises e
      \/ exists r, requests_get url = GetReturns r
                   /\ (status_code r < 400 \/ 600 <= status_code r)%Z
                   /\ json_loads (text r) = DecoderRaises e).
Proof.
  unfold fetch_data, try_except, bind, get, raise_for_status, response_json.
  destruct (requests_get url) as [e0|r].
  - unfold raise. destruct (is_RequestException e0) eqn:E.
    + unfold print, emit, ret. discriminate.
    + intros H. inversion H; subst. auto.
  - unfold ret at 1.
    destruct ((400 <=? status_code r) && (status_code r <? 600))%Z eqn:Hs.
    + unfold raise. simpl. unfold print, emit, ret. discriminate.
    + unfold ret at 1. destruct (json_loads (text r)) as [v0| |e0] eqn:Hj.
      * unfold ret. discriminate.
      * unfold raise. simpl. unfold print, emit, ret. discriminate.
      * unfold raise. destruct (is_RequestException e0) eqn:E.
        -- unfold print, emit, ret. discriminate.
        -- intros H. inversion H; subst. split; [exact E|].
           split; [reflexivity|]. right. exists r.
           split; [reflexivity|]. split; [|exact Hj].
           apply andb_false_iff in Hs.
           destruct Hs as [Hs|Hs];
             [left; apply Z.leb_gt in Hs|right; apply Z.ltb_ge in Hs]; lia.
Qed.

(** X2.  What [fetch_data] returns is either the decoded body of a response
    whose status is no error status, returned without a word on the
    console, or the empty list together with exactly one error line.  So a
    non-empty result is always what the server sent. *)
Theorem fetch_data_returned_inv (url : string) (v : value)
    (out out' : list event) :
  fetch_data url out = (Ok v, out') ->
  (exists r, requests_get url = GetReturns r
             /\ (status_code r < 400 \/ 600 <= status_code r)%Z
             /\ json_loads (text r) = Decoded v
             /\ out' = out)
  \/ (v = VList []
      /\ exists e, is_RequestException e = true
                   /\ out' = out ++ [Print [Str "Error fetching data: "; FExn e]]).
Proof.
  unfold fetch_data, try_except, bind, get, raise_for_status, response_json.
  destruct (requests_get url) as [e0|r].
  - unfold raise. destruct (is_RequestException e0) eqn:E.
    + unfold print, emit, ret. intros H. inversion H; subst.
      right. split; [reflexivity|]. exists e0. auto.
    + discriminate.
  - unfold ret at 1.
    destruct ((400 <=? status_code r) && (status_code r <? 600))%Z eqn:Hs.
    + unfold raise. simpl. unfold print, emit, ret. intros H. inversion H; subst.
      right. split; [reflexivity|]. exists (HTTPError (status_code r)). auto.
    + unfold ret at 1. destruct (json_loads (text r)) as [v0| |e0] eqn:Hj.
      * unfold ret. intros H. inversion H; subst. left. exists r.
        repeat split; auto.
        apply andb_false_iff in Hs.
        destruct Hs as [Hs|Hs]; [left; apply Z.leb_gt in Hs|right; apply Z.ltb_ge in Hs];
          lia.
      * unfold raise. simpl. unfold print, emit, ret. intros H. inversion H; subst.
        right. split; [reflexivity|]. exists (JSONDecodeError "Expecting value"). auto.
      * unfold raise. destruct (is_RequestException e0) eqn:E.
        -- unfold print, emit, ret. intros H. inversion H; subst.
           right. split; [reflexivity|]. exists e0. auto.
        -- discriminate.
Qed.

(** ** What every cleaned table satisfies *)

Lemma year_of_timestamp_range (ns : Z) :
  (timestamp_min <= ns <= timestamp_max)%Z ->
  (1677 <= year_of_timestamp ns <= 2262)%Z.
Proof using.
  set_libraries_aside.
  unfold timestamp_min, timestamp_max, year_of_timestamp, ns_per_day, year_of_days.
  intros Hns. cbv zeta.
  assert (Hdays : (-106752 <= ns / 86400000000000 <= 106751)%Z).
  { Z.div_mod_to_equations. lia. }
  revert Hdays. generalize (ns / 86400000000000)%Z. clear ns Hns. intros days Hdays.
  match goal with |- context [if ?c then _ else _] => destruct c eqn:E end;
    (apply Z.ltb_lt in E || apply Z.ltb_ge in E);
    Z.div_mod_to_equations; lia.
Qed.

Lemma timestamp_of_civil_range (d : civil) (ns : Z) :
  timestamp_of_civil d = Some ns -> (timestamp_min <= ns <= timestamp_max)%Z.
Proof using.
  set_libraries_aside.
  unfold timestamp_of_civil.
  destruct ((timestamp_min <=? ns_of_civil d)%Z
            && (ns_of_civil d <=? timestamp_max)%Z) eqn:E; [|discriminate].
  intros H. inversion H; subst.
  apply andb_true_iff in E. destruct E as [E1 E2].
  apply Z.leb_le in E1. apply Z.leb_le in E2. lia.
Qed.

(** X3.  Whenever both critical columns are there, what [clean_data]
    returns is a cleaned table: the row labels are distinct, the [mass]
    column is a float column without NaN, the [year] column is an integer
    column, both are as long as the index, and every year in it lies
    between 1677 and 2262, the years a Timestamp can hold. *)
Theorem clean_data_output_invariant (data : list record) (out : list event) :
  has_column "mass" (pd_DataFrame data) = true ->
  has_column "year" (pd_DataFrame data) = true ->
  exists df mass year,
    clean_data data out = (Ok df, out)
    /\ cleaned_table df mass year
    /\ (forall y, In y year -> (1677 <= y <= 2262)%Z).
Proof.
  intros Hm Hy.
  destruct (clean_data_cleaned_table data out Hm Hy)
    as [df [mass [year [Hclean Hct]]]].
  exists df, mass, year. split; [exact Hclean|]. split; [exact Hct|].
  pose proof (clean_data_run data out Hm Hy) as Hrun. cbv zeta in Hrun.
  rewrite Hrun in Hclean. inversion Hclean as [Hdf].
  destruct Hct as [_ [_ [Hyear _]]]. rewrite <- Hdf in Hyear. cbn [columns] in Hyear.
  rewrite assoc_set_same in Hyear. inversion Hyear as [Hy'].
  intros y Hin. apply in_map_iff in Hin. destruct Hin as [i [<- Hi]].
  apply filter_In in Hi. destruct Hi as [_ Hs]. unfold survives in Hs.
  apply andb_prop in Hs. destruct Hs as [_ Hs].
  unfold year_of_row. destruct (coerced_year data i) as [ns|] eqn:Hc; [|discriminate].
  apply year_of_timestamp_range.
  unfold coerced_year in Hc.
  destruct (parse_datetime_at (map (cell_of "year") data) i) as [d|]; [|discriminate].
  now apply (timestamp_of_civil_range d).
Qed.

(** ** The year that [clean_data] stores *)

Lemma is_leap_cases (y : Z) :
  (is_leap y = true
   /\ (y mod 4 = 0)%Z /\ ((y mod 100 <> 0)%Z \/ (y mod 400 = 0)%Z))
  \/ (is_leap y = false
      /\ ((y mod 4 <> 0)%Z \/ ((y mod 100 = 0)%Z /\ (y mod 400 <> 0)%Z))).
Proof using.
  set_libraries_aside.
  unfold is_leap.
  destruct (Z.eqb_spec (y mod 4) 0), (Z.eqb_spec (y mod 100) 0),
           (Z.eqb_spec (y mod 400) 0);
    simpl;
    try (left; split; [reflexivity|]; Z.div_mod_to_equations; lia);
    try (right; split; [reflexivity|]; Z.div_mod_to_equations; lia).
Qed.

(** Reading the year back from a day count gives the year of the date, in
    every year of the proleptic Gregorian calendar. *)
Lemma year_of_days_from_civil (y m d : Z) :
  (1 <= m <= 12)%Z -> (1 <= d <= days_in_month (is_leap y) m)%Z ->
  year_of_days (days_from_civil y m d) = y.
Proof using.
  set_libraries_aside.
  intros Hm Hd.
  assert (Hcases : (m = 1 \/ m = 2 \/ m = 3 \/ m = 4 \/ m = 5 \/ m = 6 \/ m = 7
                    \/ m = 8 \/ m = 9 \/ m = 10 \/ m = 11 \/ m = 12)%Z) by lia.
  unfold year_of_days, days_from_civil, leaps. cbv zeta.
  destruct (is_leap_cases y) as [[Hl Hy]|[Hl Hy]]; rewrite Hl in *;
    repeat (destruct Hcases as [Hc|Hcases]; [subst m|]); try subst m;
    simpl days_before_month; simpl days_in_month in Hd;
    match goal with |- (if ?c then _ else _) = _ => destruct c eqn:E end;
    (apply Z.ltb_lt in E || apply Z.ltb_ge in E);
    Z.div_mod_to_equations; lia.
Qed.

Lemma valid_civil_date (d : civil) :
  valid_civil d = true ->
  (1 <= c_month d <= 12)%Z
  /\ (1 <= c_day d <= days_in_month (is_leap (c_year d)) (c_month d))%Z.
Proof using.
  set_libraries_aside.
  unfold valid_civil. rewrite !andb_true_iff. lia.
Qed.

(** [.dt.year] of the Timestamp of a valid date is the year of that date. *)
Lemma year_of_timestamp_of_civil (d : civil) :
  valid_civil d = true -> year_of_timestamp (ns_of_civil d) = c_year d.
Proof using.
  set_libraries_aside.
  intros Hv. destruct (valid_civil_date d Hv) as [Hm Hd].
  apply valid_civil_bounds in Hv.
  unfold year_of_timestamp.
  replace (ns_of_civil d / ns_per_day)%Z
    with (days_from_civil (c_year d) (c_month d) (c_day d)).
  - now apply year_of_days_from_civil.
  - apply (Z.div_unique _ _ _
             (((c_hour d * 60 + c_minute d) * 60 + c_second d) * 1000000000
              + c_nanosecond d)%Z).
    + left. unfold ns_per_day. lia.
    + unfold ns_of_civil, ns_per_day. lia.
Qed.

(** X4.  A row whose mass coerces to a number and whose year is read as a
    valid date in the years 1678 to 2261 is kept, and in the cleaned table
    its [mass] cell is the coerced mass and its [year] cell is the calendar
    year of that date, month and day dropped. *)
Theorem clean_data_keeps_in_range_row (data : list record) (out : list event)
    (i : nat) (d : civil) :
  has_column "mass" (pd_DataFrame data) = true ->
  has_column "year" (pd_DataFrame data) = true ->
  i < List.length data ->
  is_nan (coerced_mass data i) = false ->
  parse_datetime_at (map (cell_of "year") data) i = Some d ->
  valid_civil d = true ->
  (1678 <= c_year d <= 2261)%Z ->
  exists df k,
    clean_data data out = (Ok df, out)
    /\ nth_error (index df) k = Some i
    /\ cell df "mass" k = Some (VFloat (coerced_mass data i))
    /\ cell df "year" k = Some (VInt (c_year d)).
Proof.
  intros Hm Hy Hi Hmass Hp Hv Hr.
  assert (Hc : coerced_year data i = Some (ns_of_civil d)).
  { unfold coerced_year. rewrite Hp. now apply timestamp_in_bounds. }
  assert (Hs : survives data i = true).
  { unfold survives. now rewrite Hmass, Hc. }
  assert (Hin : In i (filter (survives data) (seq 0 (List.length data)))).
  { apply kept_rows_in_range. auto. }
  apply In_nth_error in Hin. destruct Hin as [k Hk].
  eexists. exists k. split; [apply (clean_data_run data out Hm Hy)|].
  cbn [index]. split; [exact Hk|]. unfold cell. cbn [columns]. split.
  - rewrite assoc_set_other by discriminate.
    rewrite assoc_map_snd, assoc_set_other by discriminate.
    rewrite assoc_set_same. simpl.
    rewrite take_mask_map_filter, !nth_error_map, Hk. reflexivity.
  - rewrite assoc_set_same. simpl.
    rewrite !nth_error_map, Hk. simpl. unfold year_of_row. rewrite Hc.
    now rewrite year_of_timestamp_of_civil.
Qed.

Lemma assoc_set_not_nil {A : Type} (k : string) (a : A) (l : list (string * A)) :
  assoc_set k a l <> [].
Proof using.
  set_libraries_aside.
  destruct l as [|[k' a'] l]; simpl; [discriminate|].
  destruct (String.eqb k k'); discriminate.
Qed.

(** The frame of [clean_data_run] is empty exactly when no row is kept. *)
Lemma df_empty_kept (kept : list nat) (c : column)
    (cols : list (string * column)) :
  df_empty (mk_DataFrame kept (assoc_set "year" c cols)) = true <-> kept = [].
Proof using.
  set_libraries_aside.
  unfold df_empty. cbn [index columns].
  pose proof (assoc_set_not_nil "year" c cols) as Hne.
  destruct kept as [|i kept]; [tauto|].
  destruct (assoc_set "year" c cols); [contradiction|].
  split; discriminate.
Qed.

(** X5.  [clean_data] never raises, and the frame it returns is empty
    exactly when a critical column is missing or no row passes both
    coercions. *)
Theorem clean_data_empty_iff (data : list record) (out : list event) :
  exists df out',
    clean_data data out = (Ok df, out')
    /\ (df_empty df = true <->
        has_column "mass" (pd_DataFrame data) = false
        \/ has_column "year" (pd_DataFrame data) = false
        \/ forall i, i < List.length data -> survives data i = false).
Proof.
  destruct (has_column "mass" (pd_DataFrame data)) eqn:Hm;
    [destruct (has_column "year" (pd_DataFrame data)) eqn:Hy|].
  - eexists. eexists. split; [apply (clean_data_run data out Hm Hy)|].
    rewrite df_empty_kept. split.
    + intros Hk. right. right. intros i Hi.
      destruct (survives data i) eqn:Hs; [|reflexivity].
      assert (Hin : In i (filter (survives data) (seq 0 (List.length data)))).
      { apply kept_rows_in_range. auto. }
      rewrite Hk in Hin. contradiction.
    + intros [H|[H|H]]; try discriminate.
      destruct (filter (survives data) (seq 0 (List.length data))) as [|i0 kept] eqn:Hk;
        [reflexivity|exfalso].
      assert (Hin : In i0 (filter (survives data) (seq 0 (List.length data)))).
      { rewrite Hk. now left. }
      apply kept_rows_in_range in Hin. destruct Hin as [Hi0 Hs0].
      rewrite (H i0 Hi0) in Hs0. discriminate.
  - eexists. eexists. split; [apply (clean_data_abort data out (or_intror Hy))|].
    split; [auto|reflexivity].
  - eexists. eexists. split; [apply (clean_data_abort data out (or_introl Hm))|].
    split; [auto|reflexivity].
Qed.

(** ** [analyze_data] at and beyond its precondition *)

(** X6.  On a non-empty cleaned table with a [name] column,
    [total_entries] is the number of rows and [most_frequent_count] lies
    between 1 and [total_entries]. *)
Theorem analyze_data_count_bounds (df : DataFrame) (mass : list float)
    (year : list Z) (names : column) (out : list event) :
  (forall l, Permutation (sort_values_desc l) l) ->
  cleaned_table df mass year ->
  index df <> [] ->
  assoc "name" (columns df) = Some names ->
  exists res,
    analyze_data df out = (Ok res, out)
    /\ total_entries res = List.length (index df)
    /\ 1 <= most_frequent_count res <= total_entries res.
Proof.
  intros Hsort Hct Hne Hname.
  destruct (analyze_data_run df mass year names out Hsort Hct Hne Hname)
    as [p [pos [k [c [_ [_ [_ [Hkc Hrun]]]]]]]].
  destruct Hct as [_ [_ [_ [_ [Hly _]]]]].
  set (counts := sort_values_desc (count_first_seen year)) in *.
  eexists. split; [exact Hrun|]. simpl. split; [reflexivity|].
  assert (Hin : In (k, c) counts) by (eapply nth_error_In; exact Hkc).
  assert (Hentry : forall e, In e counts ->
                             1 <= snd e <= List.length (index df)).
  { intros [k' c'] He. apply (Permutation_in _ (Hsort _)) in He.
    apply count_first_seen_spec in He. destruct He as [-> Hpos]. simpl.
    split; [lia|]. rewrite <- Hly. apply count_occ_bound. }
  unfold counts_max.
  destruct (fold_max_spec (map snd counts) 0) as [_ [Hall Hsome]].
  assert (H1 : c <= fold_left Nat.max (map snd counts) 0).
  { apply Hall. apply in_map_iff. exists (k, c). auto. }
  pose proof (Hentry (k, c) Hin) as Hc. simpl in Hc.
  destruct Hsome as [H0|Hmem]; [lia|].
  apply in_map_iff in Hmem. destruct Hmem as [e [He1 He2]].
  pose proof (Hentry e He2). lia.
Qed.

Lemma idxmax_cleaned (df : DataFrame) (mass : list float) (year : list Z)
    (out : list event) :
  cleaned_table df mass year ->
  index df <> [] ->
  exists p lab,
    p < List.length mass
    /\ nth_error (index df) p = Some lab
    /\ idxmax (index df) (FloatCol mass) out = (Ok lab, out)
    /\ loc df lab out = (Ok (row_at df p), out).
Proof.
  intros [Hnd [Hmass [Hyear [Hlm [Hly Hnan]]]]] Hne.
  assert (Hmne : mass <> []).
  { apply nonempty_length. rewrite Hlm. destruct (index df); [contradiction|simpl; lia]. }
  destruct (argmax_spec SFltb (fun f => is_nan f = false) SFltb_irrefl SFltb_trans
              SFltb_negtrans nan mass Hmne Hnan) as [p [Hp [Hplt _]]].
  assert (Hplt' : p < List.length (index df)) by (rewrite <- Hlm; exact Hplt).
  destruct (nth_error (index df) p) as [lab|] eqn:Hlab;
    [|apply nth_error_None in Hlab; exfalso; lia].
  exists p, lab. repeat split; auto.
  - unfold idxmax. rewrite (no_nan_not_all mass Hmne Hnan).
    rewrite (no_nan_skipna mass Hnan), Hp. unfold label_at. now rewrite Hlab.
  - unfold loc. now rewrite (positions_of_unique lab (index df) p Hnd Hlab).
Qed.

(** X7.  On a non-empty cleaned table that has no [name] column,
    [analyze_data] raises [KeyError('name')]: [clean_data] does not make
    sure the column is there. *)
Theorem analyze_data_missing_name (df : DataFrame) (mass : list float)
    (year : list Z) (out : list event) :
  cleaned_table df mass year ->
  index df <> [] ->
  assoc "name" (columns df) = None ->
  analyze_data df out = (Raised (KeyError (VStr "name")), out).
Proof.
  intros Hct Hne Hname.
  destruct (idxmax_cleaned df mass year out Hct Hne) as [p [lab [_ [_ [Hidx Hloc]]]]].
  destruct Hct as [_ [Hmass _]].
  unfold analyze_data.
  rewrite (run_bind _ _ _ _ _ (getitem_some _ _ _ _ Hmass)).
  rewrite (run_bind _ _ _ _ _ Hidx).
  rewrite (run_bind _ _ _ _ _ Hloc).
  unfold bind, row_get. rewrite row_at_get, Hname. reflexivity.
Qed.

(** X8.  On a table whose [mass] column has no entry, [analyze_data]
    raises the [ValueError] of [idxmax] on an empty sequence; this is the
    call the orchestrator's [df.empty] test keeps from happening. *)
Theorem analyze_data_no_rows (df : DataFrame) (out : list event) :
  assoc "mass" (columns df) = Some (FloatCol []) ->
  analyze_data df out
  = (Raised (ValueError "attempt to get argmax of an empty sequence"), out).
Proof.
  intros Hmass. unfold analyze_data.
  rewrite (run_bind _ _ _ _ _ (getitem_some _ _ _ _ Hmass)).
  reflexivity.
Qed.

(** ** The orchestrator past the two exits *)

Lemma pipeline_reaches_analysis (analyze : DataFrame -> M results)
    (visualize : DataFrame -> M unit) (out out1 out2 : list event)
    (l : list value) (data : list record) (df : DataFrame) :
  fetch_data DATA_URL (out ++ [Print [Str "Fetching data..."]])
  = (Ok (VList l), out1) ->
  l <> [] ->
  dicts l = Some data ->
  clean_data data (out1 ++ [Print [Str "Cleaning data..."]]) = (Ok df, out2) ->
  df_empty df = false ->
  pipeline_with analyze visualize out
  = (results <- analyze df ;;
     print [Str (String "010" "Results:")] ;;;
     print [Str "Total Entries: "; FNat (total_entries results)] ;;;
     print [Str "Most Massive Meteorite: "; FVal (most_massive_name results);
            Str " ("; FVal (most_massive_mass results); Str " grams)"] ;;;
     print [Str "Most Frequent Year: "; FInt (most_frequent_year results);
            Str " ("; FNat (most_frequent_count results); Str " occurrences)"] ;;;
     print [Str (String "010" "Creating visualizations...")] ;;;
     visualize df) (out2 ++ [Print [Str "Analyzing data..."]]).
Proof.
  intros Hfetch Hl Hd Hclean Hempty.
  unfold pipeline_with. unfold bind at 1. unfold print at 1, emit at 1.
  unfold bind at 1. rewrite Hfetch.
  assert (Ht : truthy (VList l) = true) by (destruct l; [contradiction|reflexivity]).
  rewrite Ht. change (negb true) with false. cbv iota.
  unfold bind at 1. unfold print at 1, emit at 1.
  unfold bind at 1. unfold as_records. rewrite Hd. unfold ret at 1.
  unfold bind at 1. rewrite Hclean, Hempty.
  unfold bind at 1. unfold print at 1, emit at 1. reflexivity.
Qed.

(** X9.  Nothing guards the analysis: if it raises on the cleaned table,
    the run ends with that exception right after "Analyzing data...", no
    result line is printed, and whatever the plotting stage is, it is not
    called. *)
Theorem pipeline_analysis_failure (analyze : DataFrame -> M results)
    (visualize : DataFrame -> M unit) (out out1 out2 out3 : list event)
    (l : list value) (data : list record) (df : DataFrame) (e : exn) :
  fetch_data DATA_URL (out ++ [Print [Str "Fetching data..."]])
  = (Ok (VList l), out1) ->
  l <> [] ->
  dicts l = Some data ->
  clean_data data (out1 ++ [Print [Str "Cleaning data..."]]) = (Ok df, out2) ->
  df_empty df = false ->
  analyze df (out2 ++ [Print [Str "Analyzing data..."]]) = (Raised e, out3) ->
  pipeline_with analyze visualize out = (Raised e, out3).
Proof.
  intros Hfetch Hl Hd Hclean Hempty Han.
  rewrite (pipeline_reaches_analysis analyze visualize out out1 out2 l data df
             Hfetch Hl Hd Hclean Hempty).
  unfold bind at 1. now rewrite Han.
Qed.

Lemma pipeline_success (analyze : DataFrame -> M results)
    (visualize : DataFrame -> M unit) (out out1 out2 out3 : list event)
    (l : list value) (data : list record) (df : DataFrame) (res : results) :
  fetch_data DATA_URL (out ++ [Print [Str "Fetching data..."]])
  = (Ok (VList l), out1) ->
  l <> [] ->
  dicts l = Some data ->
  clean_data data (out1 ++ [Print [Str "Cleaning data..."]]) = (Ok df, out2) ->
  df_empty df = false ->
  analyze df (out2 ++ [Print [Str "Analyzing data..."]]) = (Ok res, out3) ->
  pipeline_with analyze visualize out
  = visualize df
      (out3 ++
       [Print [Str (String "010" "Results:")];
        Print [Str "Total Entries: "; FNat (total_entries res)];
        Print [Str "Most Massive Meteorite: "; FVal (most_massive_name res);
               Str " ("; FVal (most_massive_mass res); Str " grams)"];
        Print [Str "Most Frequent Year: "; FInt (most_frequent_year res);
               Str " ("; FNat (most_frequent_count res); Str " occurrences)"];
        Print [Str (String "010" "Creating visualizations...")]]).
Proof.
  intros Hfetch Hl Hd Hclean Hempty Han.
  rewrite (pipeline_reaches_analysis analyze visualize out out1 out2 l data df
             Hfetch Hl Hd Hclean Hempty).
  unfold bind at 1. rewrite Han.
  unfold bind, print, emit. repeat rewrite <- app_assoc. reflexivity.
Qed.

(** X10.  The whole run on a good day.  If the server answers with a
    non-error status and a body that decodes to a non-empty list of records
    having [name], [mass] and [year] fields, and at least one record passes
    both coercions, then the script ends normally and its output is, in
    this order: the three progress lines, the four lines of the summary,
    the line announcing the charts, and the plotting calls, which open
    three figures and save the three image files.  The number of entries
    printed is the number of records that passed. *)
Theorem run_prints_summary_then_plots (out : list event) (r : response)
    (l : list value) (data : list record) :
  (forall counts, Permutation (sort_values_desc counts) counts) ->
  requests_get DATA_URL = GetReturns r ->
  (status_code r < 400 \/ 600 <= status_code r)%Z ->
  json_loads (text r) = Decoded (VList l) ->
  l <> [] ->
  dicts l = Some data ->
  has_column "name" (pd_DataFrame data) = true ->
  has_column "mass" (pd_DataFrame data) = true ->
  has_column "year" (pd_DataFrame data) = true ->
  (exists i, i < List.length data /\ survives data i = true) ->
  exists res charts,
    earth_meteorite_landing_data_handling out
    = (Ok tt,
       out ++
       [Print [Str "Fetching data..."];
        Print [Str "Cleaning data..."];
        Print [Str "Analyzing data..."];
        Print [Str (String "010" "Results:")];
        Print [Str "Total Entries: "; FNat (total_entries res)];
        Print [Str "Most Massive Meteorite: "; FVal (most_massive_name res);
               Str " ("; FVal (most_massive_mass res); Str " grams)"];
        Print [Str "Most Frequent Year: "; FInt (most_frequent_year res);
               Str " ("; FNat (most_frequent_count res); Str " occurrences)"];
        Print [Str (String "010" "Creating visualizations...")]] ++ charts)
    /\ total_entries res
       = List.length (filter (survives data) (seq 0 (List.length data)))
    /\ filter is_figure_or_savefig charts
       = [Figure 12 6; Savefig "meteorite_counts_per_year.png";
          Figure 12 6; Savefig "meteorite_mass_distribution.png";
          Figure 12 6; Savefig "meteorite_scatter_mass_vs_year.png"].
Proof.
  intros Hsort Hget Hs Hj Hl Hd Hn Hm Hy [i [Hi Hsurv]].
  pose proof (fetch_data_success DATA_URL r (VList l)
                (out ++ [Print [Str "Fetching data..."]]) Hget Hs Hj) as Hfetch.
  set (o1 := (out ++ [Print [Str "Fetching data..."]])
             ++ [Print [Str "Cleaning data..."]]).
  destruct (clean_data_cleaned_table data o1 Hm Hy)
    as [df [mass [year [Hclean Hct]]]].
  pose proof (clean_data_run data o1 Hm Hy) as Hrun. cbv zeta in Hrun.
  assert (Hidx : index df = filter (survives data) (seq 0 (List.length data))).
  { rewrite Hrun in Hclean. inversion Hclean. reflexivity. }
  assert (Hname : exists names, assoc "name" (columns df) = Some names).
  { rewrite Hrun in Hclean. inversion Hclean. cbn [columns].
    rewrite assoc_set_other by discriminate.
    rewrite assoc_map_snd.
    rewrite (assoc_set_other "name" "year") by discriminate.
    rewrite (assoc_set_other "name" "mass") by discriminate.
    change (map (fun k : string => (k, ObjCol (map (cell_of k) data)))
                (union_keys data))
      with (columns (pd_DataFrame data)).
    rewrite (pd_DataFrame_column _ _ Hn). simpl. eauto. }
  destruct Hname as [names Hname].
  assert (Hne : index df <> []).
  { rewrite Hidx. intros Hnil.
    assert (Hin : In i (filter (survives data) (seq 0 (List.length data)))).
    { apply kept_rows_in_range. auto. }
    rewrite Hnil in Hin. contradiction. }
  assert (Hempty : df_empty df = false).
  { destruct (df_empty df) eqn:E; [|reflexivity].
    rewrite Hrun in Hclean. inversion Hclean as [Hdf]. rewrite <- Hdf in E.
    apply df_empty_kept in E. exfalso. apply Hne. rewrite Hidx. exact E. }
  destruct (analyze_data_run df mass year names
              (o1 ++ [Print [Str "Analyzing data..."]]) Hsort Hct Hne Hname)
    as [p [pos [k [c [_ [_ [_ [_ Han]]]]]]]].
  destruct Hct as [_ [Hmass [Hyear _]]].
  eexists. eexists. split; [|split].
  - unfold earth_meteorite_landing_data_handling.
    rewrite (pipeline_success analyze_data visualize_data out _ _ _ l data df _
               Hfetch Hl Hd Hclean Hempty Han).
    rewrite (visualize_data_run df mass year _ Hmass Hyear).
    unfold o1. repeat rewrite <- app_assoc. reflexivity.
  - simpl. now rewrite Hidx.
  - reflexivity.
Qed.

(** ** [visualize_data], chart by chart *)

(** X11.  On every cleaned table [visualize_data] returns normally,
    opens exactly three figures and saves exactly three files, each chart
    being saved under its fixed name before the next figure is opened. *)
Theorem visualize_data_files (df : DataFrame) (mass : list float)
    (year : list Z) (out : list event) :
  cleaned_table df mass year ->
  exists tr,
    visualize_data df out = (Ok tt, out ++ tr)
    /\ filter is_figure_or_savefig tr
       = [Figure 12 6; Savefig "meteorite_counts_per_year.png";
          Figure 12 6; Savefig "meteorite_mass_distribution.png";
          Figure 12 6; Savefig "meteorite_scatter_mass_vs_year.png"].
Proof.
  intros [_ [Hmass [Hyear _]]].
  eexists. split; [apply (visualize_data_run df mass year out Hmass Hyear)|].
  reflexivity.
Qed.

Lemma bump_key_mem (k k' : Z) (counts : list (Z * nat)) :
  In k' (map fst (bump k counts)) <-> k' = k \/ In k' (map fst counts).
Proof using.
  set_libraries_aside.
  induction counts as [|[k2 n] rest IH]; simpl.
  - split; [intros [H|[]]; left; symmetry; exact H|].
    intros [H|[]]. left. symmetry. exact H.
  - destruct (Z.eqb_spec k k2) as [Heq|Hne]; simpl.
    + split; [intros H; right; exact H|].
      intros [H|H]; [left; rewrite H; symmetry; exact Heq|exact H].
    + rewrite IH. split.
      * intros [H|[H|H]]; [right; left; exact H|left; exact H|right; right; exact H].
      * intros [H|[H|H]]; [right; left; exact H|left; exact H|right; right; exact H].
Qed.

Lemma bump_keeps_keys_distinct (k : Z) (counts : list (Z * nat)) :
  NoDup (map fst counts) -> NoDup (map fst (bump k counts)).
Proof using.
  set_libraries_aside.
  induction counts as [|[k2 n] rest IH]; simpl; intros H.
  - constructor; [intros []|constructor].
  - apply NoDup_cons_iff in H. simpl in H. destruct H as [Hnot Hrest].
    destruct (Z.eqb_spec k k2) as [Heq|Hne]; simpl.
    + constructor; assumption.
    + constructor; [|apply IH; exact Hrest].
      intros Hin. apply bump_key_mem in Hin. destruct Hin as [Hin|Hin].
      * apply Hne. symmetry. exact Hin.
      * apply Hnot. exact Hin.
Qed.

Lemma fold_bump_keys (l : list Z) :
  forall counts,
    NoDup (map fst counts) ->
    NoDup (map fst (fold_left (fun counts k => bump k counts) l counts))
    /\ (forall y, In y (map fst (fold_left (fun counts k => bump k counts) l counts))
                   <-> In y (map fst counts) \/ In y l).
Proof using.
  set_libraries_aside.
  induction l as [|x l IH]; intros counts Hnd; simpl.
  - split; [exact Hnd|]. intros y. tauto.
  - destruct (IH (bump x counts) (bump_keeps_keys_distinct x counts Hnd)) as [H1 H2].
    split; [exact H1|]. intros y. rewrite H2, bump_key_mem. split.
    + intros [[Hy|Hy]|Hy]; auto.
    + intros [Hy|[Hy|Hy]]; auto.
Qed.

(** [unique] lists each value of the column once. *)
Lemma unique_spec (l : list Z) :
  NoDup (unique l) /\ forall y, In y (unique l) <-> In y l.
Proof using.
  set_libraries_aside.
  unfold unique, count_first_seen.
  destruct (fold_bump_keys l [] (NoDup_nil _)) as [H1 H2].
  split; [exact H1|]. intros y. rewrite H2. simpl. tauto.
Qed.

Lemma insert_sorted_perm (x : Z) (l : list Z) :
  Permutation (insert_sorted x l) (x :: l).
Proof using.
  set_libraries_aside.
  induction l as [|y l IH]; simpl; [reflexivity|].
  destruct (Z.leb x y); [reflexivity|].
  rewrite IH. apply perm_swap.
Qed.

Lemma sorted_perm (l : list Z) : Permutation (sorted l) l.
Proof using.
  set_libraries_aside.
  unfold sorted. induction l as [|x l IH]; simpl; [reflexivity|].
  rewrite insert_sorted_perm. now constructor.
Qed.

Lemma insert_sorted_increasing (x : Z) (l : list Z) :
  ~ In x l -> StronglySorted Z.lt l -> StronglySorted Z.lt (insert_sorted x l).
Proof using.
  set_libraries_aside.
  induction l as [|y l IH]; intros Hx Hs; simpl.
  - constructor; constructor.
  - inversion Hs as [|? ? Hs' Hall]; subst.
    assert (Hxy : x <> y) by (intros ->; apply Hx; now left).
    destruct (Z.leb_spec x y) as [Hle|Hgt].
    + constructor; [exact Hs|].
      constructor; [lia|].
      eapply Forall_impl; [|exact Hall]. simpl. intros a Ha. lia.
    + constructor.
      * apply IH; [|exact Hs']. intros H. apply Hx. now right.
      * apply (Permutation_Forall (Permutation_sym (insert_sorted_perm x l))).
        constructor; [lia|exact Hall].
Qed.

Lemma sorted_increasing (l : list Z) :
  NoDup l -> StronglySorted Z.lt (sorted l).
Proof using.
  set_libraries_aside.
  unfold sorted. induction 1 as [|x l Hx Hnd IH]; simpl; [constructor|].
  apply insert_sorted_increasing; [|exact IH].
  intros H. apply Hx. apply (Permutation_in _ (sorted_perm l)). exact H.
Qed.

Lemma range_step_spec (stop i : nat) :
  In i (range_step stop 5) <-> i < stop /\ Nat.modulo i 5 = 0.
Proof using.
  set_libraries_aside.
  unfold range_step. rewrite in_map_iff. split.
  - intros [k [<- Hk]]. apply in_seq in Hk.
    split; [|apply Nat.Div0.mod_mul].
    destruct Hk as [_ Hk]. rewrite Nat.add_0_l in Hk.
    pose proof (Nat.Div0.mul_div_le (stop + 5 - 1) 5). 
    pose proof (Nat.Div0.mod_le (stop + 5 - 1) 5).
    pose proof (Nat.div_mod_eq (stop + 5 - 1) 5).
    pose proof (Nat.mod_upper_bound (stop + 5 - 1) 5 ltac:(lia)).
    lia.
  - intros [Hi Hmod]. exists (Nat.div i 5). split.
    + pose proof (Nat.div_mod_eq i 5). lia.
    + apply in_seq. split; [lia|]. rewrite Nat.add_0_l.
      apply Nat.Div0.div_lt_upper_bound.
      pose proof (Nat.div_mod_eq (stop + 5 - 1) 5).
      pose proof (Nat.mod_upper_bound (stop + 5 - 1) 5 ltac:(lia)).
      lia.
Qed.

(** X12.  The bar chart has one bar per distinct year of the table, in
    ascending order: the [order] handed to [countplot] is strictly
    increasing and holds exactly the years that occur in the [year]
    column. *)
Theorem visualize_data_bar_order (df : DataFrame) (mass : list float)
    (year : list Z) (out : list event) :
  cleaned_table df mass year ->
  exists tr order,
    visualize_data df out = (Ok tt, out ++ tr)
    /\ (forall x o, In (Countplot x o) tr <-> x = year /\ o = order)
    /\ StronglySorted Z.lt order
    /\ (forall y, In y order <-> In y year).
Proof.
  intros [_ [Hmass [Hyear _]]].
  destruct (unique_spec year) as [Hnd Hin].
  eexists. exists (sorted (unique year)).
  split; [apply (visualize_data_run df mass year out Hmass Hyear)|].
  split; [|split].
  - intros x o. split.
    + intros H. simpl in H.
      repeat (destruct H as [H|H]; [try discriminate|]);
        try contradiction; inversion H; auto.
    + intros [-> ->]. simpl. tauto.
  - now apply sorted_increasing.
  - intros y. rewrite <- Hin. split; apply Permutation_in.
    + apply sorted_perm.
    + apply Permutation_sym, sorted_perm.
Qed.

(** X13.  The bar chart labels every fifth bar: the tick positions are
    exactly the multiples of 5 below the number of bars, and the label at
    each tick is the year of the bar at that position. *)
Theorem visualize_data_ticks (df : DataFrame) (mass : list float)
    (year : list Z) (out : list event) :
  cleaned_table df mass year ->
  exists tr order ticks labels,
    visualize_data df out = (Ok tt, out ++ tr)
    /\ In (Countplot year order) tr
    /\ (forall t lb, In (Xticks t lb) tr <-> t = ticks /\ lb = labels)
    /\ (forall i, In i ticks <-> i < List.length order /\ Nat.modulo i 5 = 0)
    /\ List.length labels = List.length ticks
    /\ (forall j i, nth_error ticks j = Some i ->
                    nth_error labels j = nth_error order i).
Proof.
  intros [_ [Hmass [Hyear _]]].
  set (order := sorted (unique year)).
  set (ticks := range_step (List.length order) 5).
  eexists. exists order, ticks, (map (fun i => nth i order 0%Z) ticks).
  split; [apply (visualize_data_run df mass year out Hmass Hyear)|].
  fold order. fold ticks.
  split; [|split; [|split; [|split]]].
  - simpl. tauto.
  - intros t lb. split.
    + intros H. simpl in H.
      repeat (destruct H as [H|H]; [try discriminate|]);
        try contradiction; inversion H; auto.
    + intros [-> ->]. simpl. tauto.
  - intros i. apply range_step_spec.
  - apply length_map.
  - intros j i Hj. rewrite nth_error_map, Hj. simpl.
    assert (Hi : In i ticks) by (eapply nth_error_In; exact Hj).
    apply range_step_spec in Hi. destruct Hi as [Hi _].
    symmetry. now apply nth_error_nth'.
Qed.

End Pipeline.

(** * With a stable sort the first-seen year wins *)

Lemma first_max_unique (cs : list nat) (p q : nat) :
  p < List.length cs -> q < List.length cs ->
  (forall j, j < List.length cs -> Nat.ltb (nth p cs 0) (nth j cs 0) = false) ->
  (forall j, j < q -> Nat.ltb (nth j cs 0) (nth q cs 0) = true) ->
  (forall j, j < List.length cs -> Nat.ltb (nth q cs 0) (nth j cs 0) = false) ->
  (forall j, j < p -> Nat.ltb (nth j cs 0) (nth p cs 0) = true) ->
  p = q.
Proof.
  intros Hp Hq Hmaxp Hfirstq Hmaxq Hfirstp.
  destruct (Nat.lt_trichotomy p q) as [Hlt|[Heq|Hgt]]; [|exact Heq|].
  - specialize (Hfirstq p Hlt). specialize (Hmaxp q Hq).
    apply Nat.ltb_lt in Hfirstq. apply Nat.ltb_ge in Hmaxp. lia.
  - specialize (Hfirstp q Hgt). specialize (Hmaxq p Hp).
    apply Nat.ltb_lt in Hfirstp. apply Nat.ltb_ge in Hmaxq. lia.
Qed.

Lemma argmax_nat_spec (cs : list nat) :
  cs <> [] ->
  exists p, argmax Nat.ltb cs = Some p
    /\ p < List.length cs
    /\ (forall j, j < List.length cs -> Nat.ltb (nth p cs 0) (nth j cs 0) = false)
    /\ (forall j, j < p -> Nat.ltb (nth j cs 0) (nth p cs 0) = true).
Proof.
  intros Hne.
  apply (argmax_spec Nat.ltb (fun _ => True)); auto.
  - intros a. apply Nat.ltb_irrefl.
  - intros a b c. rewrite !Nat.ltb_lt. lia.
  - intros a b c _ _ _. rewrite !Nat.ltb_ge. lia.
Qed.

(** The first maximum of [c :: cs] is [c] unless the first maximum of [cs]
    is strictly greater. *)
Lemma argmax_cons (c : nat) (cs : list nat) :
  argmax Nat.ltb (c :: cs)
  = Some (match argmax Nat.ltb cs with
          | None => 0
          | Some q => if Nat.leb (nth q cs 0) c then 0 else S q
          end).
Proof.
  destruct (argmax_nat_spec (c :: cs) ltac:(discriminate))
    as [p [Hp [Hplt [Hmax Hfirst]]]].
  rewrite Hp. f_equal.
  destruct cs as [|c' cs'].
  - simpl in *. lia.
  - destruct (argmax_nat_spec (c' :: cs') ltac:(discriminate))
      as [q [Hq [Hqlt [Hmaxq Hfirstq]]]].
    rewrite Hq. remember (c' :: cs') as cs eqn:Hcs. clear Hcs.
    destruct (Nat.leb_spec (nth q cs 0) c) as [Hle|Hgt].
    + destruct p as [|p]; [reflexivity|exfalso].
      specialize (Hfirst 0 ltac:(lia)). simpl in Hfirst.
      apply Nat.ltb_lt in Hfirst.
      assert (Hp' : p < List.length cs) by (simpl in Hplt; lia).
      specialize (Hmaxq p Hp'). apply Nat.ltb_ge in Hmaxq. lia.
    + destruct p as [|p].
      * exfalso. specialize (Hmax (S q) ltac:(simpl; lia)). simpl in Hmax.
        apply Nat.ltb_ge in Hmax. lia.
      * f_equal. simpl in Hplt.
        apply (first_max_unique cs p q); try lia.
        -- intros j Hj. apply (Hmax (S j)). simpl. lia.
        -- exact Hfirstq.
        -- exact Hmaxq.
        -- intros j Hj. apply (Hfirst (S j)). lia.
Qed.

(** The stable sort puts the first largest group in front. *)
Lemma stable_sort_desc_head (l : list (Z * nat)) :
  hd_error (stable_sort_desc l)
  = match argmax Nat.ltb (map snd l) with
    | Some p => nth_error l p
    | None => None
    end.
Proof.
  induction l as [|x l IH]; [reflexivity|].
  change (map snd (x :: l)) with (snd x :: map snd l).
  rewrite argmax_cons.
  change (stable_sort_desc (x :: l))
    with (insert_by (fun cx cy => Nat.leb cy cx) x (stable_sort_desc l)).
  destruct (stable_sort_desc l) as [|y s] eqn:Hs.
  - simpl in IH. destruct (argmax Nat.ltb (map snd l)) as [q|] eqn:Hq.
    + destruct l as [|x' l']; [discriminate|].
      exfalso.
      assert (Hperm := stable_sort_desc_perm (x' :: l')). rewrite Hs in Hperm.
      apply Permutation_nil in Hperm. discriminate.
    + reflexivity.
  - simpl in IH. destruct (argmax Nat.ltb (map snd l)) as [q|] eqn:Hq;
      [|discriminate].
    assert (Hy : nth q (map snd l) 0 = snd y).
    { apply nth_error_nth. rewrite nth_error_map, <- IH. reflexivity. }
    rewrite Hy. simpl. destruct (Nat.leb (snd y) (snd x)); simpl; [reflexivity|].
    exact IH.
Qed.

(** In a descending list the first maximum is the head. *)
Lemma argmax_descending (s : list (Z * nat)) :
  s <> [] -> descending s -> argmax Nat.ltb (map snd s) = Some 0.
Proof.
  intros Hne Hd.
  destruct (argmax_nat_spec (map snd s)) as [p [Hp [Hplt [_ Hfirst]]]].
  { intros H. apply map_eq_nil in H. contradiction. }
  rewrite Hp. f_equal. destruct p as [|p]; [reflexivity|exfalso].
  specialize (Hfirst 0 ltac:(lia)). apply Nat.ltb_lt in Hfirst.
  rewrite length_map in Hplt.
  destruct (nth_error s 0) as [a|] eqn:Ha; [|apply nth_error_None in Ha; lia].
  destruct (nth_error s (S p)) as [b|] eqn:Hb; [|apply nth_error_None in Hb; lia].
  assert (Hle := Hd 0 (S p) a b ltac:(lia) Ha Hb).
  rewrite (nth_error_nth (map snd s) 0 0 (x := snd a)) in Hfirst
    by (now rewrite nth_error_map, Ha).
  rewrite (nth_error_nth (map snd s) (S p) 0 (x := snd b)) in Hfirst
    by (now rewrite nth_error_map, Hb).
  lia.
Qed.

(** X14.  When [value_counts] sorts stably, [analyze_data] returns the year the
    specification names: the first-seen year among those with the largest
    group. *)
Lemma analyze_data_first_seen_with_stable_sort (df : DataFrame)
    (mass : list float) (year : list Z) (names : column) (out : list event) :
  cleaned_table df mass year ->
  index df <> [] ->
  assoc "name" (columns df) = Some names ->
  exists res,
    analyze_data stable_sort_desc df out = (Ok res, out)
    /\ Some (most_frequent_year res) = first_seen_most_frequent year.
Proof.
  intros Hct Hne Hname.
  destruct (analyze_data_run stable_sort_desc df mass year names out
              stable_sort_desc_perm Hct Hne Hname)
    as [p [pos [k [c [_ [_ [Hpos [Hkc Hrun]]]]]]]].
  eexists. split; [exact Hrun|]. simpl.
  assert (Hsne : stable_sort_desc (count_first_seen year) <> []).
  { intros H. rewrite H in Hkc. destruct pos; discriminate. }
  rewrite (argmax_descending _ Hsne (stable_sort_desc_descending _)) in Hpos.
  inversion Hpos; subst pos.
  unfold first_seen_most_frequent.
  pose proof (stable_sort_desc_head (count_first_seen year)) as Hhead.
  destruct (stable_sort_desc (count_first_seen year)) as [|e s]; [contradiction|].
  simpl in Hkc, Hhead. inversion Hkc; subst e.
  destruct (argmax Nat.ltb (map snd (count_first_seen year))) as [q|];
    [|discriminate].
  rewrite <- Hhead. reflexivity.
Qed.

(** * The script on the sample inputs *)

(** The specification's three-row example. *)
Example analyze_three_rows :
  analyze_data stable_sort_desc three_row_table []
  = (Ok (mk_results 3 (VStr "b") (VFloat (float_of_Z 50)) 2000 2), []).
Proof. reflexivity. Qed.

(** The sample records clean to rows 0, 4 and 5. *)
Example clean_sample_records :
  clean_data decimal_to_numeric_at iso8601_at sample_records []
  = (Ok (mk_DataFrame [0; 4; 5]
           [("name", ObjCol [VStr "Aachen"; VStr "Adhi Kot"; VStr "Agen"]);
            ("mass", FloatCol [float_of_Z 21; float_of_Z 200000; float_of_Z 200000]);
            ("year", IntCol [1880; 1880; 1990]%Z)]),
     []).
Proof. reflexivity. Qed.

Lemma three_row_table_cleaned :
  cleaned_table three_row_table
    [float_of_Z 10; float_of_Z 50; float_of_Z 5] [2000; 2000; 2001]%Z.
Proof.
  unfold cleaned_table. simpl.
  repeat split; try reflexivity.
  - repeat constructor; simpl; intuition lia.
  - intros f [<-|[<-|[<-|[]]]]; reflexivity.
Qed.

Lemma tie_table_cleaned :
  cleaned_table tie_table [float_of_Z 10; float_of_Z 10] [1990; 1991]%Z.
Proof.
  unfold cleaned_table. simpl.
  repeat split; try reflexivity.
  - repeat constructor; simpl; intuition lia.
  - intros f [<-|[<-|[]]]; reflexivity.
Qed.

Lemma outlier_table_cleaned :
  cleaned_table outlier_table
    [float_of_Z 300; float_of_Z 200000; float_of_Z 100000] [1990; 1991; 1991]%Z.
Proof.
  unfold cleaned_table. simpl.
  repeat split; try reflexivity.
  - repeat constructor; simpl; intuition lia.
  - intros f [<-|[<-|[<-|[]]]]; reflexivity.
Qed.

(** C1 on the sample records. *)
Lemma clean_data_stable_filter_witness :
  has_column "mass" (pd_DataFrame sample_records) = true
  /\ has_column "year" (pd_DataFrame sample_records) = true
  /\ exists df,
       clean_data decimal_to_numeric_at iso8601_at sample_records [] = (Ok df, [])
       /\ index df = [0; 4; 5]
       /\ cell df "name" 1 = Some (VStr "Adhi Kot").
Proof.
  split; [reflexivity|]. split; [reflexivity|].
  destruct (clean_data_stable_filter decimal_to_numeric_at iso8601_at
              sample_records [] eq_refl eq_refl)
    as [df [Hrun [Hidx [_ [_ [_ Hcell]]]]]].
  exists df. split; [exact Hrun|]. split; [rewrite Hidx; reflexivity|].
  rewrite Hcell by discriminate. rewrite Hidx. reflexivity.
Defined.

(** C2 on records without a [mass] field. *)
Lemma clean_data_missing_columns_witness :
  (has_column "mass" (pd_DataFrame records_without_mass) = false
   \/ has_column "year" (pd_DataFrame records_without_mass) = false)
  /\ clean_data decimal_to_numeric_at iso8601_at records_without_mass []
     = (Ok empty_DataFrame,
        [Print [Str "Critical columns ('mass', 'year') are missing from the dataset."]]).
Proof.
  split; [left; reflexivity|].
  apply (clean_data_missing_columns decimal_to_numeric_at iso8601_at
           records_without_mass [] (or_introl eq_refl)).
Defined.

(** C3 on the specification's tie example: the first row wins. *)
Lemma analyze_data_most_massive_witness :
  (forall l, Permutation (stable_sort_desc l) l)
  /\ cleaned_table tie_table [float_of_Z 10; float_of_Z 10] [1990; 1991]%Z
  /\ index tie_table <> []
  /\ assoc "name" (columns tie_table) = Some (ObjCol [VStr "first"; VStr "second"])
  /\ exists res,
       analyze_data stable_sort_desc tie_table [] = (Ok res, [])
       /\ most_massive_name res = VStr "first"
       /\ most_massive_mass res = VFloat (float_of_Z 10).
Proof.
  split; [exact stable_sort_desc_perm|].
  split; [exact tie_table_cleaned|].
  split; [discriminate|]. split; [reflexivity|].
  destruct (analyze_data_most_massive stable_sort_desc tie_table
              [float_of_Z 10; float_of_Z 10] [1990; 1991]%Z
              (ObjCol [VStr "first"; VStr "second"]) []
              stable_sort_desc_perm tie_table_cleaned
              ltac:(discriminate) eq_refl)
    as [res [p [Hrun [Hp [_ [Hfirst [Hname Hmass]]]]]]].
  exists res. split; [exact Hrun|].
  destruct p as [|[|p]].
  - split; [exact Hname|exact Hmass].
  - specialize (Hfirst 0 ltac:(lia)). discriminate.
  - simpl in Hp. lia.
Defined.

(** C4, as the code has it, on the three-row example. *)
Lemma analyze_data_most_frequent_witness :
  (forall l, Permutation (stable_sort_desc l) l)
  /\ cleaned_table three_row_table
       [float_of_Z 10; float_of_Z 50; float_of_Z 5] [2000; 2000; 2001]%Z
  /\ index three_row_table <> []
  /\ assoc "name" (columns three_row_table)
     = Some (ObjCol [VStr "a"; VStr "b"; VStr "c"])
  /\ exists res,
       analyze_data stable_sort_desc three_row_table [] = (Ok res, [])
       /\ most_frequent_count res
          = count_occ Z.eq_dec [2000; 2000; 2001]%Z (most_frequent_year res)
       /\ 2 <= most_frequent_count res.
Proof.
  split; [exact stable_sort_desc_perm|].
  split; [exact three_row_table_cleaned|].
  split; [discriminate|]. split; [reflexivity|].
  destruct (analyze_data_most_frequent stable_sort_desc three_row_table
              [float_of_Z 10; float_of_Z 50; float_of_Z 5] [2000; 2000; 2001]%Z
              (ObjCol [VStr "a"; VStr "b"; VStr "c"]) []
              stable_sort_desc_perm three_row_table_cleaned
              ltac:(discriminate) eq_refl)
    as [res [pos [Hrun [_ [Hcount [Hmax _]]]]]].
  exists res. split; [exact Hrun|]. split; [exact Hcount|].
  exact (Hmax 2000%Z).
Defined.

(** The order in which pandas' descending sort, run on numpy's quicksort,
    hands back the eighteen group sizes of the crowded table: the two
    groups of two rows come first, the later-seen 2016 ahead of 2005. *)
Example crowded_value_counts :
  map fst (quicksort_sort_desc (count_first_seen crowded_years))
  = [2016; 2005; 2000; 2010; 2015; 2014; 2013; 2012; 2011; 2009; 2001; 2008;
     2007; 2006; 2004; 2003; 2002; 2017]%Z
  /\ map snd (quicksort_sort_desc (count_first_seen crowded_years))
     = [2; 2; 1; 1; 1; 1; 1; 1; 1; 1; 1; 1; 1; 1; 1; 1; 1; 1].
Proof. split; vm_compute; reflexivity. Qed.

Lemma crowded_table_cleaned :
  cleaned_table crowded_table (map (fun i => float_of_Z 10) (seq 0 20))
    crowded_years.
Proof.
  unfold cleaned_table.
  split; [apply seq_NoDup|]. repeat split; try reflexivity.
  intros f Hf. apply in_map_iff in Hf. destruct Hf as [i [<- _]]. reflexivity.
Qed.

(** C4 as stated fails: [value_counts] sorts the group sizes with numpy's
    quicksort, which does not keep equal sizes in order of first
    appearance once there are more than seventeen of them.  On the crowded
    table the years 2005 and 2016 tie at two rows, 2005 is seen first, and
    the year returned is 2016. *)
Lemma most_frequent_year_tie_not_first_seen :
  ~ (forall df mass year res out,
       cleaned_table df mass year ->
       index df <> [] ->
       analyze_data quicksort_sort_desc df out = (Ok res, out) ->
       Some (most_frequent_year res) = first_seen_most_frequent year).
Proof.
  intros H.
  specialize (H crowded_table _ _
                (mk_results 20 (VStr "stone") (VFloat (float_of_Z 10)) 2016 2) []
                crowded_table_cleaned ltac:(discriminate) ltac:(vm_compute; reflexivity)).
  vm_compute in H. discriminate H.
Qed.

(** Short tables are sorted by insertion alone, and there the first-seen
    year does win: the two-row tie and the three-row example under the
    same routines. *)
Example tie_with_quicksort :
  analyze_data quicksort_sort_desc tie_table []
  = (Ok (mk_results 2 (VStr "first") (VFloat (float_of_Z 10)) 1990 1), []).
Proof. reflexivity. Qed.

Example three_rows_with_quicksort :
  analyze_data quicksort_sort_desc three_row_table []
  = (Ok (mk_results 3 (VStr "b") (VFloat (float_of_Z 50)) 2000 2), []).
Proof. reflexivity. Qed.

(** On the two-row tie the stable sort gives the first year. *)
Example tie_with_stable_sort :
  analyze_data stable_sort_desc tie_table []
  = (Ok (mk_results 2 (VStr "first") (VFloat (float_of_Z 10)) 1990 1), []).
Proof. reflexivity. Qed.

(** C5 as stated fails: a status outside 200..299 is not always treated
    as a failure.  The server that answers 300 with a JSON body gets its
    body returned as data, and nothing is printed. *)
Lemma fetch_data_returns_body_of_status_300 :
  ~ (forall (requests_get : string -> get_outcome)
            (json_loads : string -> decoded) (url : string) (r : response)
            (out : list event),
       requests_get url = GetReturns r ->
       ~ (200 <= status_code r < 300)%Z ->
       exists out', fetch_data requests_get json_loads url out
                    = (Ok (VList []), out')).
Proof.
  intros H.
  destruct (H multiple_choices_page sample_json_loads DATA_URL
              (mk_response 300 "[{}]") []
              eq_refl ltac:(simpl; lia)) as [out' Hrun].
  discriminate Hrun.
Qed.

(** What the code does with that answer. *)
Example fetch_data_status_300 :
  fetch_data multiple_choices_page sample_json_loads DATA_URL []
  = (Ok (VList [VDict []]), []).
Proof. reflexivity. Qed.

(** C5, as the code has it, against a server answering HTTP 500. *)
Lemma fetch_data_soft_fail_witness :
  ((server_error DATA_URL = GetRaises (HTTPError 500)
    /\ is_RequestException (HTTPError 500) = true)
   \/ (exists r, server_error DATA_URL = GetReturns r
                 /\ (400 <= status_code r < 600)%Z
                 /\ HTTPError 500 = HTTPError (status_code r)))
  /\ fetch_data server_error sample_json_loads DATA_URL []
     = (Ok (VList []),
        [Print [Str "Error fetching data: "; FExn (HTTPError 500)]]).
Proof.
  assert (H : (server_error DATA_URL = GetRaises (HTTPError 500)
               /\ is_RequestException (HTTPError 500) = true)
              \/ (exists r, server_error DATA_URL = GetReturns r
                            /\ (400 <= status_code r < 600)%Z
                            /\ HTTPError 500 = HTTPError (status_code r))).
  { right. exists (mk_response 500 "Internal Server Error").
    split; [reflexivity|]. split; [simpl; lia|reflexivity]. }
  split; [exact H|].
  exact (fetch_data_soft_fail server_error sample_json_loads DATA_URL
           (HTTPError 500) [] H).
Defined.

(** The same for a host that cannot be reached. *)
Example fetch_data_unreachable :
  fetch_data unreachable sample_json_loads DATA_URL []
  = (Ok (VList []),
     [Print [Str "Error fetching data: ";
             FExn (ConnectionError "Name or service not known")]]).
Proof. reflexivity. Qed.

(** C6 on a failed fetch and on a fetch whose records clean to nothing:
    with stages that would raise if they were called, the run still ends
    normally after the exit message. *)
Lemma pipeline_early_exit_witness :
  fetch_data server_error sample_json_loads DATA_URL
    ([] ++ [Print [Str "Fetching data..."]])
  = (Ok (VList []),
     [Print [Str "Fetching data..."];
      Print [Str "Error fetching data: "; FExn (HTTPError 500)]])
  /\ (exists msgs,
        pipeline_with decimal_to_numeric_at iso8601_at server_error sample_json_loads
          (fun _ => raise (OtherException "analyze_data called"))
          (fun _ => raise (OtherException "visualize_data called")) []
        = (Ok tt, [] ++ msgs ++ [Print [Str "No data was fetched. Exiting."]])
        /\ forallb is_print msgs = true)
  /\ (exists msgs,
        pipeline_with decimal_to_numeric_at iso8601_at empty_object_page
          sample_json_loads
          (fun _ => raise (OtherException "analyze_data called"))
          (fun _ => raise (OtherException "visualize_data called")) []
        = (Ok tt,
           [] ++ msgs ++ [Print [Str "The dataset is empty after cleaning. Exiting."]])
        /\ forallb is_print msgs = true).
Proof.
  split; [reflexivity|]. split.
  - apply (proj1 (pipeline_early_exit decimal_to_numeric_at iso8601_at server_error
                    sample_json_loads
                    (fun _ => raise (OtherException "analyze_data called"))
                    (fun _ => raise (OtherException "visualize_data called"))
                    [] _ (VList []) eq_refl)).
    reflexivity.
  - apply (proj2 (pipeline_early_exit decimal_to_numeric_at iso8601_at
                    empty_object_page sample_json_loads
                    (fun _ => raise (OtherException "analyze_data called"))
                    (fun _ => raise (OtherException "visualize_data called"))
                    [] _ (VList [VDict []]) eq_refl)
             [VDict []] [[]] empty_DataFrame _ eq_refl eq_refl eq_refl eq_refl eq_refl).
Defined.

(** The whole script against the server answering 500. *)
Example run_against_server_error :
  earth_meteorite_landing_data_handling decimal_to_numeric_at iso8601_at
    stable_sort_desc server_error sample_json_loads float_mean float_median []
  = (Ok tt,
     [Print [Str "Fetching data..."];
      Print [Str "Error fetching data: "; FExn (HTTPError 500)];
      Print [Str "No data was fetched. Exiting."]]).
Proof. reflexivity. Qed.

(** C7 on a table with a row of 200000 grams. *)
Lemma visualize_data_histogram_filter_witness :
  cleaned_table outlier_table
    [float_of_Z 300; float_of_Z 200000; float_of_Z 100000] [1990; 1991; 1991]%Z
  /\ exists tr,
       visualize_data float_mean float_median outlier_table [] = (Ok tt, tr)
       /\ In (Histplot [float_of_Z 300; float_of_Z 100000] 100) tr
       /\ In (Scatterplot [1990; 1991; 1991]%Z
                [float_of_Z 300; float_of_Z 200000; float_of_Z 100000]) tr.
Proof.
  split; [exact outlier_table_cleaned|].
  destruct (visualize_data_histogram_filter float_mean float_median outlier_table
              [float_of_Z 300; float_of_Z 200000; float_of_Z 100000]
              [1990; 1991; 1991]%Z [] outlier_table_cleaned)
    as [tr [Hrun [Hhist [_ [Hscatter _]]]]].
  exists tr. split; [exact Hrun|]. split.
  - apply Hhist. split; reflexivity.
  - apply Hscatter. split; reflexivity.
Defined.

(** C9 on the sample record dated in the year 860. *)
Lemma clean_data_drops_out_of_range_year_witness :
  has_column "mass" (pd_DataFrame sample_records) = true
  /\ has_column "year" (pd_DataFrame sample_records) = true
  /\ 2 < List.length sample_records
  /\ iso8601_at (map (cell_of "year") sample_records) 2
     = Some (mk_civil 860 1 1 0 0 0 0)
  /\ valid_civil (mk_civil 860 1 1 0 0 0 0) = true
  /\ (c_year (mk_civil 860 1 1 0 0 0 0) <= 1676
      \/ 2263 <= c_year (mk_civil 860 1 1 0 0 0 0))%Z
  /\ coerced_year iso8601_at sample_records 2 = None
  /\ exists df,
       clean_data decimal_to_numeric_at iso8601_at sample_records [] = (Ok df, [])
       /\ ~ In 2 (index df).
Proof.
  split; [reflexivity|]. split; [reflexivity|]. split; [simpl; lia|].
  split; [reflexivity|]. split; [reflexivity|]. split; [left; simpl; lia|].
  apply (clean_data_drops_out_of_range_year decimal_to_numeric_at iso8601_at
           sample_records [] 2 (mk_civil 860 1 1 0 0 0 0)
           eq_refl eq_refl ltac:(simpl; lia) eq_refl eq_refl
           ltac:(left; simpl; lia)).
Defined.

(** The years just inside the range are kept: a date in 1678 and one in
    2261 both fit a Timestamp. *)
Example timestamps_at_the_edges :
  timestamp_of_civil (mk_civil 1678 1 1 0 0 0 0) = Some (-9214560000000000000)%Z
  /\ timestamp_of_civil (mk_civil 2261 12 31 23 59 59 0) = Some 9214646399000000000%Z
  /\ timestamp_of_civil (mk_civil 1677 1 1 0 0 0 0) = None
  /\ timestamp_of_civil (mk_civil 2262 12 31 0 0 0 0) = None.
Proof. repeat split; reflexivity. Qed.

(** C10 as stated fails: a 200 response whose body is an HTML page makes
    [response.json()] raise, and [fetch_data] does not let that exception
    out; it prints the error and returns the empty list. *)
Lemma fetch_data_catches_json_error :
  ~ (forall (requests_get : string -> get_outcome)
            (json_loads : string -> decoded) (url : string) (r : response)
            (out : list event),
       requests_get url = GetReturns r ->
       (200 <= status_code r < 300)%Z ->
       json_loads (text r) = NotJSON ->
       exists e out', fetch_data requests_get json_loads url out = (Raised e, out')).
Proof.
  intros H.
  destruct (H html_page sample_json_loads DATA_URL
              (mk_response 200 "<html>maintenance</html>") []
              eq_refl ltac:(simpl; lia) eq_refl) as [e [out' Hrun]].
  discriminate Hrun.
Qed.

(** C10, as the code has it, on the same response. *)
Lemma fetch_data_invalid_json_witness :
  html_page DATA_URL = GetReturns (mk_response 200 "<html>maintenance</html>")
  /\ (status_code (mk_response 200 "<html>maintenance</html>") < 400
      \/ 600 <= status_code (mk_response 200 "<html>maintenance</html>"))%Z
  /\ sample_json_loads (text (mk_response 200 "<html>maintenance</html>")) = NotJSON
  /\ fetch_data html_page sample_json_loads DATA_URL []
     = (Ok (VList []),
        [Print [Str "Error fetching data: ";
                FExn (JSONDecodeError "Expecting value")]]).
Proof.
  split; [reflexivity|]. split; [left; simpl; lia|]. split; [reflexivity|].
  apply (fetch_data_invalid_json html_page sample_json_loads DATA_URL
           (mk_response 200 "<html>maintenance</html>") []
           eq_refl ltac:(left; simpl; lia) eq_refl).
Defined.

(** * The further properties on the sample inputs *)

Lemma nameless_table_cleaned :
  cleaned_table nameless_table [float_of_Z 21; float_of_Z 720] [1880; 1951]%Z.
Proof.
  unfold cleaned_table. simpl.
  repeat split; try reflexivity.
  - repeat constructor; simpl; intuition lia.
  - intros f [<-|[<-|[]]]; reflexivity.
Qed.

(** X1 on a request interrupted from the keyboard. *)
Lemma fetch_data_raised_inv_witness :
  fetch_data interrupted catalog_json_loads DATA_URL []
  = (Raised (OtherException "KeyboardInterrupt"), [])
  /\ is_RequestException (OtherException "KeyboardInterrupt") = false
  /\ ([] : list event) = []
  /\ (interrupted DATA_URL = GetRaises (OtherException "KeyboardInterrupt")
      \/ exists r, interrupted DATA_URL = GetReturns r
                   /\ (status_code r < 400 \/ 600 <= status_code r)%Z
                   /\ catalog_json_loads (text r)
                      = DecoderRaises (OtherException "KeyboardInterrupt")).
Proof.
  split; [reflexivity|].
  exact (fetch_data_raised_inv interrupted catalog_json_loads DATA_URL
           (OtherException "KeyboardInterrupt") [] [] eq_refl).
Defined.

(** X2 on the page holding an array of one empty object. *)
Lemma fetch_data_returned_inv_witness :
  fetch_data empty_object_page sample_json_loads DATA_URL []
  = (Ok (VList [VDict []]), [])
  /\ ((exists r, empty_object_page DATA_URL = GetReturns r
                 /\ (status_code r < 400 \/ 600 <= status_code r)%Z
                 /\ sample_json_loads (text r) = Decoded (VList [VDict []])
                 /\ [] = ([] : list event))
      \/ (VList [VDict []] = VList []
          /\ exists e, is_RequestException e = true
                       /\ [] = [] ++ [Print [Str "Error fetching data: "; FExn e]])).
Proof.
  split; [reflexivity|].
  exact (fetch_data_returned_inv empty_object_page sample_json_loads DATA_URL
           (VList [VDict []]) [] [] eq_refl).
Defined.

(** X3 on the sample records. *)
Lemma clean_data_output_invariant_witness :
  has_column "mass" (pd_DataFrame sample_records) = true
  /\ has_column "year" (pd_DataFrame sample_records) = true
  /\ exists df mass year,
       clean_data decimal_to_numeric_at iso8601_at sample_records [] = (Ok df, [])
       /\ cleaned_table df mass year
       /\ (forall y, In y year -> (1677 <= y <= 2262)%Z).
Proof.
  split; [reflexivity|]. split; [reflexivity|].
  exact (clean_data_output_invariant decimal_to_numeric_at iso8601_at
           sample_records [] eq_refl eq_refl).
Defined.

(** X4 on the first sample record, dated 1880. *)
Lemma clean_data_keeps_in_range_row_witness :
  has_column "mass" (pd_DataFrame sample_records) = true
  /\ has_column "year" (pd_DataFrame sample_records) = true
  /\ 0 < List.length sample_records
  /\ is_nan (coerced_mass decimal_to_numeric_at sample_records 0) = false
  /\ iso8601_at (map (cell_of "year") sample_records) 0
     = Some (mk_civil 1880 1 1 0 0 0 0)
  /\ valid_civil (mk_civil 1880 1 1 0 0 0 0) = true
  /\ (1678 <= c_year (mk_civil 1880 1 1 0 0 0 0) <= 2261)%Z
  /\ exists df k,
       clean_data decimal_to_numeric_at iso8601_at sample_records [] = (Ok df, [])
       /\ nth_error (index df) k = Some 0
       /\ cell df "mass" k
          = Some (VFloat (coerced_mass decimal_to_numeric_at sample_records 0))
       /\ cell df "year" k = Some (VInt 1880).
Proof.
  split; [reflexivity|]. split; [reflexivity|]. split; [simpl; lia|].
  split; [reflexivity|]. split; [reflexivity|]. split; [reflexivity|].
  split; [simpl; lia|].
  exact (clean_data_keeps_in_range_row decimal_to_numeric_at iso8601_at
           sample_records [] 0 (mk_civil 1880 1 1 0 0 0 0)
           eq_refl eq_refl ltac:(simpl; lia) eq_refl eq_refl eq_refl
           ltac:(simpl; lia)).
Defined.

(** X6 on the three-row example. *)
Lemma analyze_data_count_bounds_witness :
  (forall l, Permutation (stable_sort_desc l) l)
  /\ cleaned_table three_row_table
       [float_of_Z 10; float_of_Z 50; float_of_Z 5] [2000; 2000; 2001]%Z
  /\ index three_row_table <> []
  /\ assoc "name" (columns three_row_table)
     = Some (ObjCol [VStr "a"; VStr "b"; VStr "c"])
  /\ exists res,
       analyze_data stable_sort_desc three_row_table [] = (Ok res, [])
       /\ total_entries res = 3
       /\ 1 <= most_frequent_count res <= total_entries res.
Proof.
  split; [exact stable_sort_desc_perm|].
  split; [exact three_row_table_cleaned|].
  split; [discriminate|]. split; [reflexivity|].
  exact (analyze_data_count_bounds stable_sort_desc three_row_table
           [float_of_Z 10; float_of_Z 50; float_of_Z 5] [2000; 2000; 2001]%Z
           (ObjCol [VStr "a"; VStr "b"; VStr "c"]) []
           stable_sort_desc_perm three_row_table_cleaned
           ltac:(discriminate) eq_refl).
Defined.

(** X7 on the table without names. *)
Lemma analyze_data_missing_name_witness :
  cleaned_table nameless_table [float_of_Z 21; float_of_Z 720] [1880; 1951]%Z
  /\ index nameless_table <> []
  /\ assoc "name" (columns nameless_table) = None
  /\ analyze_data stable_sort_desc nameless_table []
     = (Raised (KeyError (VStr "name")), []).
Proof.
  split; [exact nameless_table_cleaned|]. split; [discriminate|].
  split; [reflexivity|].
  exact (analyze_data_missing_name stable_sort_desc nameless_table
           [float_of_Z 21; float_of_Z 720] [1880; 1951]%Z []
           nameless_table_cleaned ltac:(discriminate) eq_refl).
Defined.

(** X8 on the table without rows. *)
Lemma analyze_data_no_rows_witness :
  assoc "mass" (columns rowless_table) = Some (FloatCol [])
  /\ analyze_data stable_sort_desc rowless_table []
     = (Raised (ValueError "attempt to get argmax of an empty sequence"), []).
Proof.
  split; [reflexivity|].
  exact (analyze_data_no_rows stable_sort_desc rowless_table [] eq_refl).
Defined.

(** X9 on the server whose records have no name: the script stops with
    [KeyError('name')] after three progress lines. *)
Lemma pipeline_analysis_failure_witness :
  map VDict records_without_name <> []
  /\ dicts (map VDict records_without_name) = Some records_without_name
  /\ earth_meteorite_landing_data_handling decimal_to_numeric_at iso8601_at
       stable_sort_desc nameless_page catalog_json_loads float_mean float_median []
     = (Raised (KeyError (VStr "name")),
        [Print [Str "Fetching data..."]; Print [Str "Cleaning data..."];
         Print [Str "Analyzing data..."]]).
Proof.
  split; [discriminate|]. split; [reflexivity|].
  exact (pipeline_analysis_failure decimal_to_numeric_at iso8601_at
           nameless_page catalog_json_loads
           (analyze_data stable_sort_desc) (visualize_data float_mean float_median)
           [] _ _ _ (map VDict records_without_name) records_without_name
           (mk_DataFrame [0; 1]
              [("mass", FloatCol [float_of_Z 21; float_of_Z 720]);
               ("year", IntCol [1880; 1951]%Z)])
           (KeyError (VStr "name"))
           eq_refl ltac:(discriminate) eq_refl eq_refl eq_refl eq_refl).
Defined.

(** X10 on the server holding the sample records. *)
Lemma run_prints_summary_then_plots_witness :
  (forall counts, Permutation (stable_sort_desc counts) counts)
  /\ catalog_page DATA_URL = GetReturns (mk_response 200 (json_array sample_records))
  /\ catalog_json_loads (json_array sample_records)
     = Decoded (VList (map VDict sample_records))
  /\ dicts (map VDict sample_records) = Some sample_records
  /\ survives decimal_to_numeric_at iso8601_at sample_records 0 = true
  /\ exists res charts,
       earth_meteorite_landing_data_handling decimal_to_numeric_at iso8601_at
         stable_sort_desc catalog_page catalog_json_loads float_mean float_median []
       = (Ok tt,
          [] ++
          [Print [Str "Fetching data..."];
           Print [Str "Cleaning data..."];
           Print [Str "Analyzing data..."];
           Print [Str (String "010" "Results:")];
           Print [Str "Total Entries: "; FNat (total_entries res)];
           Print [Str "Most Massive Meteorite: "; FVal (most_massive_name res);
                  Str " ("; FVal (most_massive_mass res); Str " grams)"];
           Print [Str "Most Frequent Year: "; FInt (most_frequent_year res);
                  Str " ("; FNat (most_frequent_count res); Str " occurrences)"];
           Print [Str (String "010" "Creating visualizations...")]] ++ charts)
       /\ total_entries res
          = List.length (filter (survives decimal_to_numeric_at iso8601_at
                                   sample_records)
                                (seq 0 (List.length sample_records)))
       /\ filter is_figure_or_savefig charts
          = [Figure 12 6; Savefig "meteorite_counts_per_year.png";
             Figure 12 6; Savefig "meteorite_mass_distribution.png";
             Figure 12 6; Savefig "meteorite_scatter_mass_vs_year.png"].
Proof.
  split; [exact stable_sort_desc_perm|]. split; [reflexivity|].
  split; [reflexivity|]. split; [reflexivity|]. split; [reflexivity|].
  assert (Hsurv : exists i, i < List.length sample_records
                            /\ survives decimal_to_numeric_at iso8601_at
                                 sample_records i = true).
  { exists 0. split; [simpl; lia|reflexivity]. }
  exact (run_prints_summary_then_plots decimal_to_numeric_at iso8601_at
           stable_sort_desc catalog_page catalog_json_loads float_mean float_median
           [] (mk_response 200 (json_array sample_records))
           (map VDict sample_records) sample_records
           stable_sort_desc_perm eq_refl ltac:(left; simpl; lia) eq_refl
           ltac:(discriminate) eq_refl eq_refl eq_refl eq_refl
           Hsurv).
Defined.

(** X11, X12 and X13 on the table with the 200000 gram row. *)
Lemma visualize_data_files_witness :
  cleaned_table outlier_table
    [float_of_Z 300; float_of_Z 200000; float_of_Z 100000] [1990; 1991; 1991]%Z
  /\ exists tr,
       visualize_data float_mean float_median outlier_table [] = (Ok tt, [] ++ tr)
       /\ filter is_figure_or_savefig tr
          = [Figure 12 6; Savefig "meteorite_counts_per_year.png";
             Figure 12 6; Savefig "meteorite_mass_distribution.png";
             Figure 12 6; Savefig "meteorite_scatter_mass_vs_year.png"].
Proof.
  split; [exact outlier_table_cleaned|].
  exact (visualize_data_files float_mean float_median outlier_table
           [float_of_Z 300; float_of_Z 200000; float_of_Z 100000]
           [1990; 1991; 1991]%Z [] outlier_table_cleaned).
Defined.

Lemma visualize_data_bar_order_witness :
  cleaned_table outlier_table
    [float_of_Z 300; float_of_Z 200000; float_of_Z 100000] [1990; 1991; 1991]%Z
  /\ exists tr,
       visualize_data float_mean float_median outlier_table [] = (Ok tt, tr)
       /\ In (Countplot [1990; 1991; 1991]%Z [1990; 1991]%Z) tr.
Proof.
  split; [exact outlier_table_cleaned|].
  destruct (visualize_data_bar_order float_mean float_median outlier_table
              [float_of_Z 300; float_of_Z 200000; float_of_Z 100000]
              [1990; 1991; 1991]%Z [] outlier_table_cleaned)
    as [tr [order [Hrun _]]].
  exists tr. split; [exact Hrun|].
  simpl in Hrun. inversion Hrun. simpl. tauto.
Defined.

Lemma visualize_data_ticks_witness :
  cleaned_table outlier_table
    [float_of_Z 300; float_of_Z 200000; float_of_Z 100000] [1990; 1991; 1991]%Z
  /\ exists tr,
       visualize_data float_mean float_median outlier_table [] = (Ok tt, tr)
       /\ In (Xticks [0] [1990%Z]) tr.
Proof.
  split; [exact outlier_table_cleaned|].
  destruct (visualize_data_ticks float_mean float_median outlier_table
              [float_of_Z 300; float_of_Z 200000; float_of_Z 100000]
              [1990; 1991; 1991]%Z [] outlier_table_cleaned)
    as [tr [order [ticks [labels [Hrun _]]]]].
  exists tr. split; [exact Hrun|].
  simpl in Hrun. inversion Hrun. simpl. tauto.
Defined.

(** X14 on the two-row tie. *)
Lemma analyze_data_first_seen_with_stable_sort_witness :
  cleaned_table tie_table [float_of_Z 10; float_of_Z 10] [1990; 1991]%Z
  /\ index tie_table <> []
  /\ assoc "name" (columns tie_table) = Some (ObjCol [VStr "first"; VStr "second"])
  /\ exists res,
       analyze_data stable_sort_desc tie_table [] = (Ok res, [])
       /\ Some (most_frequent_year res) = first_seen_most_frequent [1990; 1991]%Z.
Proof.
  split; [exact tie_table_cleaned|]. split; [discriminate|].
  split; [reflexivity|].
  exact (analyze_data_first_seen_with_stable_sort tie_table
           [float_of_Z 10; float_of_Z 10] [1990; 1991]%Z
           (ObjCol [VStr "first"; VStr "second"]) []
           tie_table_cleaned ltac:(discriminate) eq_refl).
Defined.

(** * Two calls of [clean_data] on one list object *)


(** The same two calls, run: the frames returned are the objects 2 and 4,
    both with the rows 0, 4 and 5 of the input, and the list at 0 is as it
    was. *)
Example clean_data_twice_on_sample_records :
  match clean_data_in_store decimal_to_numeric_at iso8601_at 0
          (mk_world [ListObj sample_records] []) with
  | (Ok t1, w1) =>
      match clean_data_in_store decimal_to_numeric_at iso8601_at 0 w1 with
      | (Ok t2, w2) =>
          t1 = 2 /\ t2 = 4
          /\ nth_error (heap w2) 0 = Some (ListObj sample_records)
          /\ option_map (fun o => match o with
                                  | FrameObj df => index df
                                  | ListObj _ => []
                                  end) (nth_error (heap w2) t1) = Some [0; 4; 5]
          /\ nth_error (heap w2) t1 = nth_error (heap w2) t2
      | _ => False
      end
  | _ => False
  end.
Proof. vm_compute. repeat split; reflexivity. Qed.
